(** * Flight pipeline: a shallow embedding of the staged ingestion DAG

    The development follows [dags/flight_pipeline_dag.py] and its helpers
    [scripts/db_helper.py], [scripts/s3_helper.py] and
    [scripts/weather_helper.py].  Tables of the warehouse are finite maps or
    lists of rows, a task is a function from the state of the world to a new
    state and a result or a raised exception, and a [with get_connection()]
    block is a transaction that is rolled back when its body raises. *)

From Stdlib Require Import ZArith QArith Qround String Ascii List Lia.
From stdpp Require Import gmap strings list pretty sorting.

#[global] Set Warnings "-clear-no-such-hyp".

Open Scope string_scope.
Open Scope Z_scope.

(** ** Exceptions and results *)

Inductive exn : Type :=
  | ValueError
  | TypeError
  | OverflowError
  | ZeroDivisionError
  | KeyError                     (* row['col'] or df['col'] on a frame without the column *)
  | StorageError                 (* botocore errors of the S3 client *)
  | DatabaseError                (* psycopg2 errors *)
  | QualityError (failed : Z).   (* Exception("<n> quality checks failed!") *)

Inductive result (A : Type) : Type :=
  | Ok (a : A)
  | Raise (e : exn).
Arguments Ok {A} a.
Arguments Raise {A} e.

#[global] Instance result_ret : MRet result := λ A a, Ok a.

#[global] Instance result_bind : MBind result := λ A B k r,
  match r with
  | Ok a => k a
  | Raise e => Raise e
  end.

(** [try: body except (ValueError, TypeError): return d] *)
Definition except_value_type {A} (body : result A) (d : A) : result A :=
  match body with
  | Raise ValueError | Raise TypeError => Ok d
  | r => r
  end.

(** ** Python strings *)

Module PyStr.

(** A [str] is held as its UTF-8 encoding.  A character is a byte that is
    not of the form 10xxxxxx together with the continuation bytes that
    follow it, so equality, concatenation and search on the bytes are the
    ones of [str]; length and whitespace go through the characters. *)
Definition is_continuation (c : ascii) : bool :=
  let n := N_of_ascii c in ((128 <=? n) && (n <? 192))%N.

(** The continuation bytes a string starts with, and the characters after
    them. *)
Fixpoint chars_from (s : string) : string * list string :=
  match s with
  | String c r =>
      let '(cont, cs) := chars_from r in
      if is_continuation c then (String c cont, cs)
      else (EmptyString, String c cont :: cs)
  | EmptyString => (EmptyString, [])
  end.

(** [list(s)] *)
Definition chars (s : string) : list string :=
  match chars_from s with
  | (EmptyString, cs) => cs
  | (cont, cs) => cont :: cs
  end.

(** [len(s)]: the number of characters. *)
Definition len (s : string) : nat := length (chars s).

(** [''.join(cs)] *)
Definition unchars (cs : list string) : string := foldr String.append EmptyString cs.

(** [ord(ch)]: the payload bits of the first byte, then six bits of each
    continuation byte. *)
Definition lead_bits (c : ascii) : N :=
  let n := N_of_ascii c in
  (if n <? 192 then n else if n <? 224 then n - 192
   else if n <? 240 then n - 224 else n - 240)%N.

Fixpoint cont_bits (acc : N) (s : string) : N :=
  match s with
  | String c r => cont_bits (acc * 64 + (N_of_ascii c - 128))%N r
  | EmptyString => acc
  end.

Definition ord (ch : string) : N :=
  match ch with
  | String c r => cont_bits (lead_bits c) r
  | EmptyString => 0%N
  end.

(** [ch.isspace()], which is what [str.strip()] removes: tab to carriage
    return, the separators 0x1c-0x1f, the space, and beyond ASCII U+0085,
    U+00A0, U+1680, U+2000-U+200A, U+2028, U+2029, U+202F, U+205F and
    U+3000. *)
Definition is_space (ch : string) : bool :=
  let n := ord ch in
  ((9 <=? n) && (n <=? 13) || (28 <=? n) && (n <=? 32) ||
   (n =? 133) || (n =? 160) || (n =? 5760) ||
   (8192 <=? n) && (n <=? 8202) ||
   (n =? 8232) || (n =? 8233) || (n =? 8239) || (n =? 8287) || (n =? 12288))%N.

Fixpoint lstrip_chars (cs : list string) : list string :=
  match cs with
  | ch :: r => if is_space ch then lstrip_chars r else cs
  | [] => []
  end.

Definition lstrip (s : string) : string := unchars (lstrip_chars (chars s)).

Definition rstrip (s : string) : string :=
  unchars (rev (lstrip_chars (rev (chars s)))).

Definition strip (s : string) : string :=
  unchars (rev (lstrip_chars (rev (lstrip_chars (chars s))))).

(** [str.lower] on the letters of ASCII.  No character beyond ASCII has a
    lower case that spells a letter of the word [is_flight_csv] looks
    for. *)
Definition lower_char (c : ascii) : ascii :=
  let n := nat_of_ascii c in
  if ((65 <=? n) && (n <=? 90))%nat then ascii_of_nat (n + 32) else c.

Fixpoint lower (s : string) : string :=
  match s with
  | String c r => String (lower_char c) (lower r)
  | EmptyString => EmptyString
  end.

(** [sub in s] *)
Fixpoint contains (sub s : string) : bool :=
  String.prefix sub s ||
  match s with
  | String _ r => contains sub r
  | EmptyString => false
  end.

(** [s.endswith(suffix)] *)
Fixpoint endswith (s suffix : string) : bool :=
  String.eqb s suffix ||
  match s with
  | String _ r => endswith r suffix
  | EmptyString => false
  end.

(** [s.split('/')[-1]]: what follows the last slash. *)
Fixpoint last_segment (s : string) : string :=
  match s with
  | String c r =>
      if contains "/" s then last_segment r else s
  | EmptyString => EmptyString
  end.

(** [sep.join(parts)] *)
Fixpoint join (sep : string) (parts : list string) : string :=
  match parts with
  | [] => ""
  | [p] => p
  | p :: ps => p +:+ sep +:+ join sep ps
  end.

End PyStr.

(** ** Python values in a pandas cell *)

(** A binary64 value.  A finite value is the rational it denotes. *)
Inductive pyfloat : Type :=
  | FNan
  | FInf (negative : bool)
  | FFin (q : Q).

(** What [row[col]] or [row.get(col)] yields for a frame read by
    [pd.read_csv]: [None] for an absent column, a float (NaN for a missing
    cell), an int, a bool or a string. *)
Inductive pyval : Type :=
  | VNone
  | VFloat (f : pyfloat)
  | VInt (n : Z)
  | VBool (b : bool)
  | VStr (s : string).

(** A calendar date, as [datetime.date] holds it. *)
Record date : Type := mkDate { year : Z; month : Z; day : Z }.

#[global] Instance date_eq_dec : EqDecision date.
Proof. solve_decision. Defined.

#[global] Instance date_countable : Countable date.
Proof.
  refine (inj_countable' (λ d, (year d, month d, day d))
                         (λ t, mkDate t.1.1 t.1.2 t.2) _).
  by intros [].
Defined.

(** ** The calendar of [datetime] *)

Module Calendar.

Definition is_leap (y : Z) : bool :=
  (y mod 4 =? 0) && (negb (y mod 100 =? 0) || (y mod 400 =? 0)).

Definition days_in_month (y m : Z) : Z :=
  if m =? 2 then (if is_leap y then 29 else 28)
  else if (m =? 4) || (m =? 6) || (m =? 9) || (m =? 11) then 30
  else 31.

(** [datetime.date(y, m, d)] accepts exactly these. *)
Definition valid_dateb (d : date) : bool :=
  (1 <=? year d) && (year d <=? 9999) &&
  (1 <=? month d) && (month d <=? 12) &&
  (1 <=? day d) && (day d <=? days_in_month (year d) (month d)).

Definition valid_date (d : date) : Prop := valid_dateb d = true.

Definition days_before_year (y : Z) : Z :=
  let p := y - 1 in p * 365 + p / 4 - p / 100 + p / 400.

Fixpoint days_before_month_aux (y : Z) (n : nat) : Z :=
  match n with
  | O => 0
  | S k => days_before_month_aux y k + days_in_month y (Z.of_nat n)
  end.

Definition days_before_month (y m : Z) : Z :=
  days_before_month_aux y (Z.to_nat (m - 1)).

Definition toordinal (d : date) : Z :=
  days_before_year (year d) + days_before_month (year d) (month d) + day d.

(** Monday is 0 and Sunday is 6. *)
Definition weekday (d : date) : Z := (toordinal d + 6) mod 7.

(** [d + timedelta(days=1)] *)
Definition next_day (d : date) : date :=
  if day d <? days_in_month (year d) (month d)
  then mkDate (year d) (month d) (day d + 1)
  else if month d <? 12 then mkDate (year d) (month d + 1) 1
  else mkDate (year d + 1) 1 1.

(** [strftime('%A')] in the C locale. *)
Definition day_name (d : date) : string :=
  match weekday d with
  | 0 => "Monday" | 1 => "Tuesday" | 2 => "Wednesday" | 3 => "Thursday"
  | 4 => "Friday" | 5 => "Saturday" | _ => "Sunday"
  end.

(** [strftime('%B')] in the C locale. *)
Definition month_name (d : date) : string :=
  match month d with
  | 1 => "January" | 2 => "February" | 3 => "March" | 4 => "April"
  | 5 => "May" | 6 => "June" | 7 => "July" | 8 => "August"
  | 9 => "September" | 10 => "October" | 11 => "November" | _ => "December"
  end.

(** *** [str(d)] of a date: YYYY-MM-DD, zero padded *)

Definition digit_char (k : Z) : ascii := ascii_of_nat (48 + Z.to_nat k).

Definition fmt2 (n : Z) (rest : string) : string :=
  String (digit_char (n / 10 mod 10)) (String (digit_char (n mod 10)) rest).

Definition fmt4 (n : Z) (rest : string) : string :=
  String (digit_char (n / 1000 mod 10))
    (String (digit_char (n / 100 mod 10)) (fmt2 n rest)).

Definition isoformat (d : date) : string :=
  fmt4 (year d) (String "-" (fmt2 (month d) (String "-" (fmt2 (day d) "")))).

(** *** [datetime.strptime(s, '%Y-%m-%d')]

    The format compiles to the regular expression
    [(\d\d\d\d)-(1[0-2]|0[1-9]|[1-9])-(3[01]|[12]\d|0[1-9]|[1-9]| [1-9])],
    matched at the start of the string; text left over after the match and
    a day the month does not have are both a [ValueError].  Digits are the
    ASCII ones. *)

Definition digit_val (c : ascii) : option Z :=
  let n := nat_of_ascii c in
  if ((48 <=? n) && (n <=? 57))%nat then Some (Z.of_nat n - 48) else None.

Definition in_range (lo hi : Z) (c : ascii) : option Z :=
  match digit_val c with
  | Some k => if (lo <=? k) && (k <=? hi) then Some k else None
  | None => None
  end.

Definition parse_year (s : string) : option (Z * string) :=
  match s with
  | String a (String b (String c (String d r))) =>
      match digit_val a, digit_val b, digit_val c, digit_val d with
      | Some a, Some b, Some c, Some d =>
          Some (1000 * a + 100 * b + 10 * c + d, r)
      | _, _, _, _ => None
      end
  | _ => None
  end.

(** One alternative [[lo1-hi1][lo2-hi2]] of a month or day group. *)
Definition two_digits (lo1 hi1 lo2 hi2 : Z) (s : string) : option (Z * string) :=
  match s with
  | String a (String b r) =>
      match in_range lo1 hi1 a, in_range lo2 hi2 b with
      | Some a, Some b => Some (10 * a + b, r)
      | _, _ => None
      end
  | _ => None
  end.

Definition one_digit (s : string) : option (Z * string) :=
  match s with
  | String a r =>
      match in_range 1 9 a with
      | Some a => Some (a, r)
      | None => None
      end
  | _ => None
  end.

Definition space_digit (s : string) : option (Z * string) :=
  match s with
  | String " " r => one_digit r
  | _ => None
  end.

(** The day group is last in the pattern: its first alternative that
    matches is the one taken. *)
Definition parse_day (s : string) : option (Z * string) :=
  match two_digits 3 3 0 1 s with
  | Some r => Some r
  | None =>
  match two_digits 1 2 0 9 s with
  | Some r => Some r
  | None =>
  match two_digits 0 0 1 9 s with
  | Some r => Some r
  | None =>
  match one_digit s with
  | Some r => Some r
  | None => space_digit s
  end end end end.

Definition dash_day (s : string) : option (Z * string) :=
  match s with
  | String "-" r => parse_day r
  | _ => None
  end.

(** The month group backtracks: an alternative is kept only when a dash and
    a day follow it. *)
Definition parse_month_day (s : string) : option (Z * Z * string) :=
  let try (alt : string → option (Z * string)) :=
    match alt s with
    | Some (m, r) =>
        match dash_day r with
        | Some (d, r') => Some (m, d, r')
        | None => None
        end
    | None => None
    end in
  match try (two_digits 1 1 0 2) with
  | Some r => Some r
  | None =>
  match try (two_digits 0 0 1 9) with
  | Some r => Some r
  | None => try one_digit
  end end.

Definition strptime (s : string) : result date :=
  match parse_year s with
  | Some (y, String "-" r) =>
      match parse_month_day r with
      | Some (m, d, EmptyString) =>
          let dt := mkDate y m d in
          if valid_dateb dt then Ok dt else Raise ValueError
      | _ => Raise ValueError
      end
  | _ => Raise ValueError
  end.

End Calendar.


(** ** What the sources take from libraries and from the schema

    The parsers of CPython and pandas and the column type of
    [weather_observations.observation_time] (the DDL is not part of the
    sources) are parameters of the development.  [None] from a parser is
    Python's [ValueError]. *)

Class Extern : Type := {
  (** [float(s)] on a string *)
  float_of_str : string → option pyfloat;
  (** [int(s)] on a string *)
  int_of_str : string → option Z;
  (** [str(x)] on a float *)
  repr_float : pyfloat → string;
  (** [pd.to_datetime] on one cell of the FlightDate column, then [.date()];
      a cell pandas cannot turn into a date raises. *)
  to_datetime : pyval → result date;
  to_datetime_valid : ∀ v d, to_datetime v = Ok d → Calendar.valid_date d;
  (** [str(row[1])] of the value the database hands back for an
      observation_time that was inserted as the given string: the identity
      for a text column, the canonical rendering for a timestamp column. *)
  db_time_str : string → string;
}.

Section Coercions.
Context `{Extern}.

(** [str(val)] *)
Definition py_str (v : pyval) : string :=
  match v with
  | VNone => "None"
  | VFloat f => repr_float f
  | VInt n => pretty n
  | VBool b => if b then "True" else "False"
  | VStr s => s
  end.

(** [float(n)] on an int: the nearest binary64 value, ties to the even
    significand.  An int of magnitude up to 2^53 converts exactly; the
    integer cells of a frame are 64-bit, far below the range where the
    conversion overflows. *)
Definition float_of_int (n : Z) : Z :=
  let a := Z.abs n in
  let dropped := Z.log2 a - 52 in
  if dropped <=? 0 then n
  else
    let q := Z.shiftr a dropped in
    let r := a - Z.shiftl q dropped in
    let half := Z.shiftl 1 (dropped - 1) in
    let q := if (half <? r) || ((r =? half) && Z.odd q) then q + 1 else q in
    Z.sgn n * Z.shiftl q dropped.

(** [float(val)] *)
Definition py_float (v : pyval) : result pyfloat :=
  match v with
  | VNone => Raise TypeError
  | VFloat f => Ok f
  | VInt n => Ok (FFin (inject_Z (float_of_int n)))
  | VBool b => Ok (FFin (if b then 1 else 0)%Q)
  | VStr s =>
      match float_of_str s with
      | Some f => Ok f
      | None => Raise ValueError
      end
  end.

(** [int(x)] on a float truncates toward zero. *)
Definition int_of_float (f : pyfloat) : result Z :=
  match f with
  | FNan => Raise ValueError
  | FInf _ => Raise OverflowError
  | FFin q => Ok (Z.quot (Qnum q) (Z.pos (Qden q)))
  end.

(** [int(val)] *)
Definition py_int (v : pyval) : result Z :=
  match v with
  | VNone => Raise TypeError
  | VFloat f => int_of_float f
  | VInt n => Ok n
  | VBool b => Ok (if b then 1 else 0)
  | VStr s =>
      match int_of_str s with
      | Some n => Ok n
      | None => Raise ValueError
      end
  end.

(** [pd.isna(val)] on a scalar *)
Definition pd_isna (v : pyval) : bool :=
  match v with
  | VNone | VFloat FNan => true
  | _ => false
  end.

(** [val == ''] *)
Definition is_empty_str (v : pyval) : bool :=
  match v with
  | VStr EmptyString => true
  | _ => false
  end.

Definition safe_float (val : pyval) : result (option pyfloat) :=
  except_value_type
    (if pd_isna val || is_empty_str val then Ok None
     else f ← py_float val; Ok (Some f))
    None.

Definition safe_int (val : pyval) : result (option Z) :=
  except_value_type
    (if pd_isna val || is_empty_str val then Ok None
     else f ← py_float val; n ← int_of_float f; Ok (Some n))
    None.

Definition safe_str (val : pyval) : option string :=
  if pd_isna val || is_empty_str val then None
  else Some (PyStr.strip (py_str val)).

Definition safe_bool (val : pyval) : result bool :=
  except_value_type
    (f ← py_float val; n ← int_of_float f; Ok (negb (n =? 0)))
    false.

End Coercions.

(** ** Rows of the source files and of the warehouse tables *)

(** One row of a BTS flights CSV.  The four columns read with [row[...]] are
    fields; every other column is read with [row.get(...)], which yields
    [None] when the file has no such column.  A field is [VNone] as well
    when the file has no such column: a cell of a column that is there is
    never [None], for a missing cell is read as NaN. *)
Record csv_row : Type := {
  Origin : pyval;
  Dest : pyval;
  Reporting_Airline : pyval;
  FlightDate : pyval;
  row_get : string → pyval;
}.

(** [row[col]] and [df[col]], on the cell of the column: a [KeyError] when
    the frame has no such column. *)
Definition getitem (cell : pyval) : result pyval :=
  match cell with
  | VNone => Raise KeyError
  | _ => Ok cell
  end.

(** The column of the cell is in the frame. *)
Definition present (cell : pyval) : bool :=
  match cell with
  | VNone => false
  | _ => true
  end.

(** The frame of the row has the four columns Step A reads with
    [row[...]]. *)
Definition has_key_columns (row : csv_row) : bool :=
  present (Origin row) && present (Dest row) &&
  present (Reporting_Airline row) && present (FlightDate row).

(** One row of [airports.dat], by the names [load_airports] gives its
    columns (the columns it never reads are left out). *)
Record raw_airport : Type := {
  ra_airport_code : pyval;
  ra_airport_name : pyval;
  ra_city : pyval;
  ra_country : pyval;
  ra_latitude : pyval;
  ra_longitude : pyval;
  ra_altitude : pyval;
  ra_timezone : pyval;
}.

(** [airports], keyed by airport_code *)
Record airport : Type := {
  airport_name : pyval;
  city : pyval;
  country : pyval;
  latitude : pyval;
  longitude : pyval;
  altitude : option Z;
  timezone : option pyval;
}.

(** [carriers], keyed by carrier_code *)
Record carrier : Type := {
  carrier_name : string;
  dot_id : option Z;
}.

(** [date_dim], keyed by date_id *)
Record date_row : Type := {
  dd_year : Z;
  dd_quarter : Z;
  dd_month : Z;
  dd_day_of_month : Z;
  dd_day_of_week : Z;
  dd_day_name : string;
  dd_month_name : string;
  dd_is_weekend : bool;
  dd_season : string;
}.

(** [flights], in the column order of the INSERT of [load_flights] *)
Record flight : Type := {
  flight_date : string;
  carrier_code : string;
  tail_number : option string;
  flight_number : option Z;
  origin_airport : string;
  origin_city : option string;
  origin_state : option string;
  dest_airport : string;
  dest_city : option string;
  dest_state : option string;
  scheduled_dep : option string;
  actual_dep : option string;
  dep_delay : option pyfloat;
  dep_delay_minutes : option pyfloat;
  dep_delay_15 : bool;
  scheduled_arr : option string;
  actual_arr : option string;
  arr_delay : option pyfloat;
  arr_delay_minutes : option pyfloat;
  arr_delay_15 : bool;
  cancelled : bool;
  cancellation_code : option string;
  diverted : bool;
  distance : option pyfloat;
  air_time : option pyfloat;
  scheduled_elapsed : option pyfloat;
  actual_elapsed : option pyfloat;
  carrier_delay : option pyfloat;
  weather_delay : option pyfloat;
  nas_delay : option pyfloat;
  security_delay : option pyfloat;
  late_aircraft_delay : option pyfloat;
}.

(** The conflict target of the flights INSERT. *)
Definition natural_key (f : flight) : string * string * option Z * string :=
  (flight_date f, carrier_code f, flight_number f, origin_airport f).

(** [rejected_records] *)
Record rejected_record : Type := {
  rr_source : string;
  rr_file_name : string;
  rr_row_number : Z;
  rr_raw_data : string;
  rr_rejection_reason : string;
}.

(** [pipeline_runs], keyed by (file_name, source) *)
Record run : Type := {
  rows_processed : Z;
  rows_loaded : Z;
  rows_rejected : Z;
  status : string;
  started_at : Z;
  completed_at : Z;
}.

(** One observation dict of [weather_helper], by the keys [load_weather]
    reads; also a row of [weather_observations]. *)
Record weather_obs : Type := {
  wo_airport_code : string;
  observation_date : string;
  observation_time : string;
  avg_temperature : option pyfloat;
  max_temperature : option pyfloat;
  min_temperature : option pyfloat;
  avg_wind_speed : option pyfloat;
  max_wind_speed : option pyfloat;
  avg_visibility : option pyfloat;
  precipitation : option pyfloat;
  snow_depth : option pyfloat;
  conditions : string;
}.

(** The warehouse.  Tables whose uniqueness is a property to prove are lists
    of rows in insertion order; the others are maps from their key. *)
Record db : Type := {
  airports : gmap string airport;
  carriers : gmap string carrier;
  date_dim : gmap date date_row;
  flights : list flight;
  rejected_records : list rejected_record;
  pipeline_runs : gmap (string * string) run;
  weather_observations : list weather_obs;
}.

Definition set_airports (t : gmap string airport) (d : db) : db :=
  {| airports := t; carriers := carriers d; date_dim := date_dim d;
     flights := flights d; rejected_records := rejected_records d;
     pipeline_runs := pipeline_runs d;
     weather_observations := weather_observations d |}.

Definition set_date_dim (t : gmap date date_row) (d : db) : db :=
  {| airports := airports d; carriers := carriers d; date_dim := t;
     flights := flights d; rejected_records := rejected_records d;
     pipeline_runs := pipeline_runs d;
     weather_observations := weather_observations d |}.

Definition set_flights (t : list flight) (d : db) : db :=
  {| airports := airports d; carriers := carriers d; date_dim := date_dim d;
     flights := t; rejected_records := rejected_records d;
     pipeline_runs := pipeline_runs d;
     weather_observations := weather_observations d |}.

Definition set_rejected_records (t : list rejected_record) (d : db) : db :=
  {| airports := airports d; carriers := carriers d; date_dim := date_dim d;
     flights := flights d; rejected_records := t;
     pipeline_runs := pipeline_runs d;
     weather_observations := weather_observations d |}.

Definition set_pipeline_runs (t : gmap (string * string) run) (d : db) : db :=
  {| airports := airports d; carriers := carriers d; date_dim := date_dim d;
     flights := flights d; rejected_records := rejected_records d;
     pipeline_runs := t;
     weather_observations := weather_observations d |}.

Definition set_weather_observations (t : list weather_obs) (d : db) : db :=
  {| airports := airports d; carriers := carriers d; date_dim := date_dim d;
     flights := flights d; rejected_records := rejected_records d;
     pipeline_runs := pipeline_runs d;
     weather_observations := t |}.

(** ** The world a task runs in *)

(** What is committed in the warehouse, and the wall clock of [dt.now()]. *)
Record world : Type := {
  w_db : db;
  w_clock : Z;
}.

(** The database round trips of the tasks, by which a fault is named. *)
Inductive db_op : Type :=
  | OpLedgerQuery                              (* SELECT of completed files *)
  | OpSnapshot                                 (* SELECT of the key sets *)
  | OpEnsureDates                              (* ensure_dates_exist *)
  | OpChunk (file_name : string) (chunk_num : Z)
  | OpLedgerWrite (file_name : string)
  | OpAirports
  | OpWeatherRead
  | OpWeatherWrite
  | OpQuality.

#[global] Instance db_op_eq_dec : EqDecision db_op.
Proof. solve_decision. Defined.

(** What a run meets outside the warehouse: the bucket, the weather service
    and the faults of the database connection. *)
Record env : Type := {
  (** [list_objects_v2(Bucket, Prefix='raw/')], the keys or an error *)
  s3_listing : result (list string);
  (** [get_object] and [pd.read_csv] of a flights key *)
  s3_csv : string → result (list csv_row);
  (** [get_object] and [pd.read_csv] of [AIRPORTS_KEY] *)
  s3_airports : result (list raw_airport);
  (** [generate_weather_data(airports, dates)] *)
  weather_source : list string → list date → list weather_obs;
  (** the round trips that fail (connection lost, statement refused) *)
  db_fault : db_op → bool;
}.

(** A task: from the world to the world it leaves and what it returns or
    raises. *)
Definition task (A : Type) : Type := world → world * result A.

#[global] Instance task_ret : MRet task := λ A a w, (w, Ok a).

#[global] Instance task_bind : MBind task := λ A B k m w,
  match m w with
  | (w', Ok a) => k a w'
  | (w', Raise e) => (w', Raise e)
  end.

Definition lift {A} (r : result A) : task A := λ w, (w, r).

(** [dt.now()] *)
Definition dt_now : task Z :=
  λ w, ({| w_db := w_db w; w_clock := w_clock w + 1 |}, Ok (w_clock w)).

Definition read_db : task db := λ w, (w, Ok (w_db w)).

Definition write_db (d : db) : task unit :=
  λ w, ({| w_db := d; w_clock := w_clock w |}, Ok tt).

(** [with get_connection() as conn: body]: commit when the body returns,
    roll back and re-raise when it raises.  A fault of the round trip raises
    with nothing written. *)
Definition get_connection {A} (E : env) (op : db_op) (body : task A) : task A :=
  λ w,
    if db_fault E op then (w, Raise DatabaseError)
    else
      match body w with
      | (w', Ok a) => (w', Ok a)
      | (w', Raise e) => ({| w_db := w_db w; w_clock := w_clock w' |}, Raise e)
      end.

(** ** Constants of the DAG *)

Definition BUCKET : string := "flight-data".
Definition AIRPORTS_KEY : string := "raw/airports.dat".
Definition CHUNK_SIZE : Z := 50000.

(** The keys of [AIRPORT_STATION_MAP] in [weather_helper.py]. *)
Definition get_mapped_airports : list string :=
  ["ATL"; "DFW"; "DEN"; "ORD"; "LAX"; "JFK"; "LAS"; "MCO"; "MIA"; "CLT";
   "SEA"; "PHX"; "EWR"; "SFO"; "IAH"; "BOS"; "FLL"; "MSP"; "LGA"; "DTW";
   "PHL"; "SLC"; "DCA"; "SAN"; "BWI"; "TPA"; "AUS"; "IAD"; "BNA"; "MDW"].

(** ** [db_helper.ensure_dates_exist] *)

Definition get_season (m : Z) : string :=
  if (m =? 12) || (m =? 1) || (m =? 2) then "Winter"
  else if (m =? 3) || (m =? 4) || (m =? 5) then "Spring"
  else if (m =? 6) || (m =? 7) || (m =? 8) then "Summer"
  else "Fall".

(** The tuple [ensure_dates_exist] inserts for a date, after its key. *)
Definition date_attrs (d : date) : date_row :=
  {| dd_year := year d;
     dd_quarter := (month d - 1) / 3 + 1;
     dd_month := month d;
     dd_day_of_month := day d;
     dd_day_of_week := Calendar.weekday d;
     dd_day_name := Calendar.day_name d;
     dd_month_name := Calendar.month_name d;
     dd_is_weekend := 5 <=? Calendar.weekday d;
     dd_season := get_season (month d) |}.

(** An element of the argument of [ensure_dates_exist]: a 'YYYY-MM-DD'
    string or a date object. *)
Inductive date_arg : Type :=
  | DStr (s : string)
  | DObj (d : date).

Definition date_of_arg (a : date_arg) : result date :=
  match a with
  | DStr s => Calendar.strptime s
  | DObj d => Ok d
  end.

(** INSERT ... ON CONFLICT (key) DO NOTHING on a table keyed by its
    conflict target. *)
Definition insert_do_nothing `{Countable K} {V} (k : K) (v : V) (t : gmap K V)
    : gmap K V :=
  match t !! k with
  | Some _ => t
  | None => <[k := v]> t
  end.

(** The loop of [ensure_dates_exist] over its argument. *)
Fixpoint insert_dates (dates : list date_arg) (t : gmap date date_row) (added : Z)
    : result (gmap date date_row * Z) :=
  match dates with
  | [] => Ok (t, added)
  | date_val :: rest =>
      d ← date_of_arg date_val;
      insert_dates rest (insert_do_nothing d (date_attrs d) t) (added + 1)
  end.

Definition ensure_dates_exist (E : env) (dates : list date_arg) : task Z :=
  get_connection E OpEnsureDates
    (d ← read_db;
     '(t, added) ← lift (insert_dates dates (date_dim d) 0);
     write_db (set_date_dim t d);;
     mret added).

(** ** [s3_helper.list_files] *)

(** Any exception of the listing call is swallowed and the empty list is
    returned. *)
Definition list_files (E : env) : list string :=
  match s3_listing E with
  | Ok keys => keys
  | Raise _ => []
  end.

(** [f.endswith('.csv') and 'airport' not in f.lower()] *)
Definition is_flight_csv (f : string) : bool :=
  PyStr.endswith f ".csv" && negb (PyStr.contains "airport" (PyStr.lower f)).

(** ** The ledger *)

(** INSERT INTO pipeline_runs ... ON CONFLICT (file_name, source) DO UPDATE
    SET rows_loaded, [rows_rejected,] status, completed_at.  Only
    [load_flights] lists rows_rejected in its SET clause; rows_processed and
    started_at are in no SET clause. *)
Definition upsert_run (set_rejected : bool) (key : string * string) (new : run)
    (t : gmap (string * string) run) : gmap (string * string) run :=
  match t !! key with
  | None => <[key := new]> t
  | Some old =>
      <[key := {| rows_processed := rows_processed old;
                  rows_loaded := rows_loaded new;
                  rows_rejected :=
                    if set_rejected then rows_rejected new else rows_rejected old;
                  status := status new;
                  started_at := started_at old;
                  completed_at := completed_at new |}]> t
  end.

(** SELECT file_name FROM pipeline_runs
    WHERE source = 'flights' AND status = 'completed' *)
Definition processed_files_of (t : gmap (string * string) run) : gset string :=
  list_to_set
    ((λ kr : string * string * run, kr.1.1) <$>
     filter (λ kr : string * string * run,
               kr.1.2 = "flights" ∧ status kr.2 = "completed")
            (map_to_list t)).

(** ** [load_flights] *)

Section LoadFlights.
Context `{Extern}.
Variable E : env.

(** The four membership checks of Step A, in their order. *)
Definition rejection_reasons (valid_airports valid_carriers valid_dates : gset string)
    (origin dest carrier flight_date : string) : list string :=
  (if bool_decide (origin ∈ valid_airports) then []
   else ["Unknown origin airport: " +:+ origin]) ++
  (if bool_decide (dest ∈ valid_airports) then []
   else ["Unknown dest airport: " +:+ dest]) ++
  (if bool_decide (carrier ∈ valid_carriers) then []
   else ["Unknown carrier: " +:+ carrier]) ++
  (if bool_decide (flight_date ∈ valid_dates) then []
   else ["Unknown date: " +:+ flight_date]).

(** The tuple appended to [rejected_rows]. *)
Definition rejected_tuple (file_name : string) (idx : Z)
    (origin dest carrier flight_date : string) (reasons : list string)
    : rejected_record :=
  {| rr_source := "flights";
     rr_file_name := file_name;
     rr_row_number := idx;
     rr_raw_data := flight_date +:+ "," +:+ carrier +:+ "," +:+ origin +:+ "," +:+ dest;
     rr_rejection_reason := PyStr.join "; " reasons |}.

(** The tuple appended to [valid_rows]; its elements are evaluated from
    left to right, so the first coercion that raises decides. *)
Definition valid_tuple (row : csv_row) (origin dest carrier flight_date : string)
    : result flight :=
  let get := row_get row in
  fn ← safe_int (get "Flight_Number_Reporting_Airline");
  dd ← safe_float (get "DepDelay");
  ddm ← safe_float (get "DepDelayMinutes");
  dd15 ← safe_bool (get "DepDel15");
  ad ← safe_float (get "ArrDelay");
  adm ← safe_float (get "ArrDelayMinutes");
  ad15 ← safe_bool (get "ArrDel15");
  canc ← safe_bool (get "Cancelled");
  div ← safe_bool (get "Diverted");
  dist ← safe_float (get "Distance");
  air ← safe_float (get "AirTime");
  crs ← safe_float (get "CRSElapsedTime");
  act ← safe_float (get "ActualElapsedTime");
  cd ← safe_float (get "CarrierDelay");
  wd ← safe_float (get "WeatherDelay");
  nd ← safe_float (get "NASDelay");
  sd ← safe_float (get "SecurityDelay");
  lad ← safe_float (get "LateAircraftDelay");
  Ok {| flight_date := flight_date;
        carrier_code := carrier;
        tail_number := safe_str (get "Tail_Number");
        flight_number := fn;
        origin_airport := origin;
        origin_city := safe_str (get "OriginCityName");
        origin_state := safe_str (get "OriginState");
        dest_airport := dest;
        dest_city := safe_str (get "DestCityName");
        dest_state := safe_str (get "DestState");
        scheduled_dep := safe_str (get "CRSDepTime");
        actual_dep := safe_str (get "DepTime");
        dep_delay := dd;
        dep_delay_minutes := ddm;
        dep_delay_15 := dd15;
        scheduled_arr := safe_str (get "CRSArrTime");
        actual_arr := safe_str (get "ArrTime");
        arr_delay := ad;
        arr_delay_minutes := adm;
        arr_delay_15 := ad15;
        cancelled := canc;
        cancellation_code := safe_str (get "CancellationCode");
        diverted := div;
        distance := dist;
        air_time := air;
        scheduled_elapsed := crs;
        actual_elapsed := act;
        carrier_delay := cd;
        weather_delay := wd;
        nas_delay := nd;
        security_delay := sd;
        late_aircraft_delay := lad |}.

(** [str(row[col]).strip()] *)
Definition key_string (cell : pyval) : result string :=
  v ← getitem cell; Ok (PyStr.strip (py_str v)).

(** The stripped key strings of a row that has its key columns. *)
Definition row_origin (row : csv_row) : string := PyStr.strip (py_str (Origin row)).
Definition row_dest (row : csv_row) : string := PyStr.strip (py_str (Dest row)).
Definition row_carrier (row : csv_row) : string :=
  PyStr.strip (py_str (Reporting_Airline row)).
Definition row_flight_date (row : csv_row) : string :=
  PyStr.strip (py_str (FlightDate row)).

Definition row_reasons (va vc vd : gset string) (row : csv_row) : list string :=
  rejection_reasons va vc vd
    (row_origin row) (row_dest row) (row_carrier row) (row_flight_date row).

(** Step A over the rows of a chunk; [idx] is the frame index of the first
    row. *)
Fixpoint validate_rows (va vc vd : gset string) (file_name : string)
    (idx : Z) (chunk : list csv_row)
    : result (list flight * list rejected_record) :=
  match chunk with
  | [] => Ok ([], [])
  | row :: rest =>
      origin ← key_string (Origin row);
      dest ← key_string (Dest row);
      carrier ← key_string (Reporting_Airline row);
      flight_date ← key_string (FlightDate row);
      match rejection_reasons va vc vd origin dest carrier flight_date with
      | [] =>
          f ← valid_tuple row origin dest carrier flight_date;
          '(valid_rows, rejected_rows) ← validate_rows va vc vd file_name (idx + 1) rest;
          Ok (f :: valid_rows, rejected_rows)
      | reasons =>
          '(valid_rows, rejected_rows) ← validate_rows va vc vd file_name (idx + 1) rest;
          Ok (valid_rows,
              rejected_tuple file_name idx origin dest carrier flight_date reasons
                :: rejected_rows)
      end
  end.

(** INSERT INTO flights ... ON CONFLICT (flight_date, carrier_code,
    flight_number, origin_airport) DO NOTHING, for one row.

    Modelled from the spec: the unique constraint behind the conflict
    target belongs to the DDL, which is not part of the sources; per the
    spec a re-insert that conflicts on the natural key is a no-op, so two
    rows conflict when their natural keys are equal. *)
Definition insert_flight (t : list flight) (f : flight) : list flight :=
  if bool_decide (natural_key f ∈ natural_key <$> t) then t else t ++ [f].

(** [execute_values] of the flights INSERT over the valid rows. *)
Definition insert_flights (rows : list flight) (t : list flight) : list flight :=
  foldl insert_flight t rows.

(** Step B: the two bulk statements of a chunk, in one transaction. *)
Definition write_chunk (valid_rows : list flight) (rejected_rows : list rejected_record)
    (file_loaded file_rejected : Z) : task (Z * Z) :=
  d ← read_db;
  let '(d, file_loaded) :=
    match valid_rows with
    | [] => (d, file_loaded)
    | _ => (set_flights (insert_flights valid_rows (flights d)) d,
            file_loaded + Z.of_nat (length valid_rows))
    end in
  let '(d, file_rejected) :=
    match rejected_rows with
    | [] => (d, file_rejected)
    | _ => (set_rejected_records (rejected_records d ++ rejected_rows) d,
            file_rejected + Z.of_nat (length rejected_rows))
    end in
  write_db d;;
  mret (file_loaded, file_rejected).

(** [df.iloc[start : start + size]] for [start] in [range(0, len(df), size)],
    each with its start. *)
Fixpoint chunks_of {A} (fuel size : nat) (start : Z) (rows : list A)
    : list (Z * list A) :=
  match fuel, rows with
  | S fuel', _ :: _ =>
      (start, take size rows)
        :: chunks_of fuel' size (start + Z.of_nat size) (drop size rows)
  | _, _ => []
  end.

(** The loop over the chunks of a file. *)
Fixpoint process_chunks (chunk_size : Z) (va vc vd : gset string) (file_name : string)
    (chunks : list (Z * list csv_row)) (file_loaded file_rejected : Z)
    : task (Z * Z) :=
  match chunks with
  | [] => mret (file_loaded, file_rejected)
  | (chunk_start, chunk) :: rest =>
      let chunk_num := chunk_start / chunk_size + 1 in
      '(valid_rows, rejected_rows) ←
        lift (validate_rows va vc vd file_name chunk_start chunk);
      '(file_loaded, file_rejected) ←
        get_connection E (OpChunk file_name chunk_num)
          (write_chunk valid_rows rejected_rows file_loaded file_rejected);
      process_chunks chunk_size va vc vd file_name rest file_loaded file_rejected
  end.

(** [str(d.date()) for d in pd.to_datetime(df['FlightDate'])].  A frame
    without rows is taken to have the column. *)
Fixpoint file_dates (df : list csv_row) : result (list string) :=
  match df with
  | [] => Ok []
  | row :: rest =>
      cell ← getitem (FlightDate row);
      d ← to_datetime cell;
      ds ← file_dates rest;
      Ok (Calendar.isoformat d :: ds)
  end.

(** The date step of a file: the dates of the file that the snapshot
    lacks go to [date_dim] and into the snapshot. *)
Definition add_missing_dates (valid_dates : gset string) (df : list csv_row)
    : task (gset string) :=
  ds ← lift (file_dates df);
  let dates_in_file : gset string := list_to_set ds in
  let missing_dates := dates_in_file ∖ valid_dates in
  if bool_decide (missing_dates = ∅) then mret valid_dates
  else
    ensure_dates_exist E (DStr <$> elements missing_dates);;
    mret (valid_dates ∪ missing_dates).

(** The ledger row of a finished file. *)
Definition log_file (file_name : string) (total_rows file_loaded file_rejected started : Z)
    : task unit :=
  get_connection E (OpLedgerWrite file_name)
    (completed ← dt_now;
     d ← read_db;
     write_db
       (set_pipeline_runs
          (upsert_run true (file_name, "flights")
             {| rows_processed := total_rows;
                rows_loaded := file_loaded;
                rows_rejected := file_rejected;
                status := "completed";
                started_at := started;
                completed_at := completed |}
             (pipeline_runs d)) d)).

(** The body of the loop of Step 5 for one new file.  It returns the
    snapshot of dates it leaves and the two counters of the file. *)
Definition load_file (chunk_size : Z) (va vc valid_dates : gset string)
    (file_key : string) : task (gset string * Z * Z) :=
  let file_name := PyStr.last_segment file_key in
  started ← dt_now;
  df ← lift (s3_csv E file_key);
  let total_rows := Z.of_nat (length df) in
  valid_dates ← add_missing_dates valid_dates df;
  '(file_loaded, file_rejected) ←
    process_chunks chunk_size va vc valid_dates file_name
      (chunks_of (length df) (Z.to_nat chunk_size) 0 df) 0 0;
  log_file file_name total_rows file_loaded file_rejected started;;
  mret (valid_dates, file_loaded, file_rejected).

Fixpoint load_new_files (chunk_size : Z) (va vc valid_dates : gset string)
    (new_files : list string)
    (grand_total_loaded grand_total_rejected files_processed : Z)
    : task (list (string * Z)) :=
  match new_files with
  | [] =>
      mret [("files_processed", files_processed);
            ("loaded", grand_total_loaded);
            ("rejected", grand_total_rejected)]
  | file_key :: rest =>
      '(valid_dates, file_loaded, file_rejected) ←
        load_file chunk_size va vc valid_dates file_key;
      load_new_files chunk_size va vc valid_dates rest
        (grand_total_loaded + file_loaded)
        (grand_total_rejected + file_rejected)
        (files_processed + 1)
  end.

(** The files of the listing that Step 3 keeps. *)
Definition new_files_of (processed_files : gset string) : list string :=
  filter (λ f, PyStr.last_segment f ∉ processed_files)
         (filter (λ f, is_flight_csv f = true) (list_files E)).

(** [load_flights] with its chunk size as a parameter. *)
Definition load_flights_chunked (chunk_size : Z) : task (list (string * Z)) :=
  processed_files ←
    get_connection E OpLedgerQuery
      (d ← read_db; mret (processed_files_of (pipeline_runs d)));
  match new_files_of processed_files with
  | [] => mret [("files_processed", 0); ("total_loaded", 0)]
  | new_files =>
      '(va, vc, valid_dates) ←
        get_connection E OpSnapshot
          (d ← read_db;
           mret (dom (airports d), dom (carriers d),
                 set_map (D := gset string) Calendar.isoformat (dom (date_dim d))));
      load_new_files chunk_size va vc valid_dates new_files 0 0 0
  end.

Definition load_flights : task (list (string * Z)) :=
  load_flights_chunked CHUNK_SIZE.

End LoadFlights.

(** ** [load_airports] *)

Section LoadAirports.
Context `{Extern}.
Variable E : env.

(** The two filters on the airport_code column: not missing and not the
    two-character marker backslash-N, then of three characters.  A cell
    that is not a string has no length and is dropped. *)
Definition iata_code (r : raw_airport) : option string :=
  match ra_airport_code r with
  | VStr s =>
      if negb (String.eqb s "\N") && (PyStr.len s =? 3)%nat then Some s
      else None
  | _ => None
  end.

(** [df.drop_duplicates(subset='airport_code', keep='first')] on the rows
    that passed the filters, each with its code. *)
Fixpoint drop_duplicates (seen : gset string) (rows : list (string * raw_airport))
    : list (string * raw_airport) :=
  match rows with
  | [] => []
  | (code, r) :: rest =>
      if bool_decide (code ∈ seen) then drop_duplicates seen rest
      else (code, r) :: drop_duplicates ({[code]} ∪ seen) rest
  end.

Definition valid_iata_rows (raw : list raw_airport) : list (string * raw_airport) :=
  drop_duplicates ∅ (omap (λ r, code ← iata_code r; Some (code, r)) raw).

(** The parameters of the INSERT for one row. *)
Definition airport_tuple (r : raw_airport) : result airport :=
  alt ← (if pd_isna (ra_altitude r) then Ok None
         else n ← py_int (ra_altitude r); Ok (Some n));
  Ok {| airport_name := ra_airport_name r;
        city := ra_city r;
        country := ra_country r;
        latitude := ra_latitude r;
        longitude := ra_longitude r;
        altitude := alt;
        timezone := if pd_isna (ra_timezone r) then None else Some (ra_timezone r) |}.

(** The loop of INSERT ... ON CONFLICT (airport_code) DO NOTHING. *)
Fixpoint insert_airports (rows : list (string * raw_airport))
    (t : gmap string airport) (rows_loaded : Z)
    : result (gmap string airport * Z) :=
  match rows with
  | [] => Ok (t, rows_loaded)
  | (code, r) :: rest =>
      a ← airport_tuple r;
      insert_airports rest (insert_do_nothing code a t) (rows_loaded + 1)
  end.

Definition load_airports : task Z :=
  raw ← lift (s3_airports E);
  let df := valid_iata_rows raw in
  rows_loaded ←
    get_connection E OpAirports
      (d ← read_db;
       '(t, rows_loaded) ← lift (insert_airports df (airports d) 0);
       write_db (set_airports t d);;
       mret rows_loaded);
  get_connection E (OpLedgerWrite "airports.dat")
    (started ← dt_now;
     completed ← dt_now;
     d ← read_db;
     write_db
       (set_pipeline_runs
          (upsert_run false ("airports.dat", "airports")
             {| rows_processed := Z.of_nat (length df);
                rows_loaded := rows_loaded;
                rows_rejected := 0;
                status := "completed";
                started_at := started;
                completed_at := completed |}
             (pipeline_runs d)) d));;
  mret rows_loaded.

End LoadAirports.

(** ** [load_weather] *)

(** ORDER BY date_id *)
Definition date_le (d1 d2 : date) : Prop :=
  year d1 < year d2 ∨
  (year d1 = year d2 ∧
   (month d1 < month d2 ∨ (month d1 = month d2 ∧ day d1 ≤ day d2))).

#[global] Instance date_le_dec : RelDecision date_le.
Proof. intros d1 d2. unfold date_le. apply _. Defined.

Section LoadWeather.
Context `{Extern}.
Variable E : env.

(** The pair [(row[0], str(row[1]))] of a stored observation. *)
Definition stored_key (o : weather_obs) : string * string :=
  (wo_airport_code o, db_time_str (observation_time o)).

(** INSERT ... ON CONFLICT (airport_code, observation_time) DO NOTHING.
    Two rows conflict when the database holds the same value for both
    columns. *)
Definition insert_observation (t : list weather_obs) (o : weather_obs)
    : list weather_obs :=
  if bool_decide (stored_key o ∈ stored_key <$> t) then t else t ++ [o].

(** The loop of Step 6: the table, [loaded] and [skipped]. *)
Fixpoint insert_weather (existing : gset (string * string))
    (weather_data : list weather_obs) (t : list weather_obs) (loaded skipped : Z)
    : list weather_obs * Z * Z :=
  match weather_data with
  | [] => (t, loaded, skipped)
  | obs :: rest =>
      let key := (wo_airport_code obs, observation_time obs) in
      if bool_decide (key ∈ existing)
      then insert_weather existing rest t loaded (skipped + 1)
      else insert_weather existing rest (insert_observation t obs) (loaded + 1) skipped
  end.

Definition load_weather : task (list (string * Z)) :=
  started ← dt_now;
  db_airports ← get_connection E OpWeatherRead (d ← read_db; mret (dom (airports d)));
  let mapped_airports : gset string := list_to_set get_mapped_airports in
  let valid_airports := elements (db_airports ∩ mapped_airports) in
  match valid_airports with
  | [] => mret [("loaded", 0); ("rejected", 0)]
  | _ =>
      dates ←
        get_connection E OpWeatherRead
          (d ← read_db; mret (merge_sort date_le (elements (dom (date_dim d)))));
      match dates with
      | [] => mret [("loaded", 0); ("rejected", 0)]
      | _ =>
          existing ←
            get_connection E OpWeatherRead
              (d ← read_db;
               mret (list_to_set (C := gset (string * string))
                       (stored_key <$> weather_observations d)));
          let weather_data := weather_source E valid_airports dates in
          '(loaded, skipped) ←
            get_connection E OpWeatherWrite
              (d ← read_db;
               let '(t, loaded, skipped) :=
                 insert_weather existing weather_data (weather_observations d) 0 0 in
               write_db (set_weather_observations t d);;
               mret (loaded, skipped));
          get_connection E (OpLedgerWrite "iem_hourly_weather")
            (completed ← dt_now;
             d ← read_db;
             write_db
               (set_pipeline_runs
                  (upsert_run false ("iem_hourly_weather", "weather")
                     {| rows_processed := Z.of_nat (length weather_data);
                        rows_loaded := loaded;
                        rows_rejected := 0;
                        status := "completed";
                        started_at := started;
                        completed_at := completed |}
                     (pipeline_runs d)) d));;
          mret [("loaded", loaded); ("skipped", skipped)]
      end
  end.

End LoadWeather.

(** ** [run_quality_checks] *)

Section QualityChecks.
Variable E : env.

(** ORDER BY completed_at DESC LIMIT 1 over the rows of source 'flights':
    a row with the greatest completed_at. *)
Definition latest_flights_run (t : gmap (string * string) run) : option run :=
  foldr (λ (kr : string * string * run) (best : option run),
           if bool_decide (kr.1.2 = "flights") then
             match best with
             | Some b => if completed_at b <? completed_at kr.2 then Some kr.2 else Some b
             | None => Some kr.2
             end
           else best)
        None (map_to_list t).

(** arr_delay < -150 OR arr_delay > 5000 in the order of PostgreSQL,
    where NaN is above every number. *)
Definition out_of_range (f : pyfloat) : bool :=
  match f with
  | FNan => true
  | FInf _ => true
  | FFin q => negb (Qle_bool (-150) q) || negb (Qle_bool q 5000)
  end.

(** [rejected / (loaded + rejected) * 100]; the quotient is taken in the
    rationals (on the counters of a 32-bit column binary64 decides the
    comparison with 5 the same way). *)
Definition reject_rate (loaded rejected : Z) : result Q :=
  if loaded + rejected =? 0 then Raise ZeroDivisionError
  else Ok (inject_Z rejected / inject_Z (loaded + rejected) * 100)%Q.

(** Check 7.  [Some true] adds to [checks_passed], [Some false] to
    [checks_failed], [None] to neither. *)
Definition rejection_check (t : gmap (string * string) run) : result (option bool) :=
  match latest_flights_run t with
  | Some r =>
      let loaded := rows_loaded r in
      let rejected := rows_rejected r in
      if 0 <? loaded then
        rate ← reject_rate loaded rejected;
        Ok (Some (negb (Qle_bool 5 rate)))
      else Ok None
  | None => Ok None
  end.

Definition airport_codes (d : db) : gset string := dom (airports d).

Definition date_ids (d : db) : gset string :=
  set_map Calendar.isoformat (dom (date_dim d)).

(** arr_delay IS NOT NULL AND (arr_delay < -150 OR arr_delay > 5000) *)
Definition bad_delay (f : flight) : bool :=
  match arr_delay f with
  | Some x => out_of_range x
  | None => false
  end.

(** COUNT( * ) of the rows a predicate keeps. *)
Definition count_rows {A} (p : A → bool) (t : list A) : nat :=
  length (filter (λ x, p x = true) t).

(** COUNT(DISTINCT column) of the rows a predicate keeps. *)
Definition count_distinct {A} (column : A → string) (p : A → bool) (t : list A) : nat :=
  size (list_to_set (C := gset string) (column <$> filter (λ x, p x = true) t)).

(** The ten checks in their order. *)
Definition quality_checks (d : db) : result (list (option bool)) :=
  c7 ← rejection_check (pipeline_runs d);
  Ok [ Some (bool_decide (0 < size (airports d))%nat);
       Some (bool_decide (0 < size (carriers d))%nat);
       Some (bool_decide (0 < length (flights d))%nat);
       Some (bool_decide
               (count_rows (λ f, bool_decide (origin_airport f ∉ airport_codes d))
                           (flights d) = 0%nat));
       Some (bool_decide
               (count_rows (λ f, bool_decide (dest_airport f ∉ airport_codes d))
                           (flights d) = 0%nat));
       Some (bool_decide (count_rows bad_delay (flights d) = 0%nat));
       c7;
       Some (bool_decide (0 < length (weather_observations d))%nat);
       Some (bool_decide
               (0 < count_distinct wo_airport_code
                      (λ o, bool_decide (wo_airport_code o ∈ airport_codes d))
                      (weather_observations d))%nat);
       Some (bool_decide
               (0 < count_distinct observation_date
                      (λ o, bool_decide (observation_date o ∈ date_ids d))
                      (weather_observations d))%nat) ].

Definition count_checks (outcome : bool) (checks : list (option bool)) : Z :=
  Z.of_nat (length (filter (λ c, c = Some outcome) checks)).

(** The dataset summary printed after the checks.  It formats the SUM of
    the cancellations with [:,]; over an empty flights table that sum is
    NULL, which comes back as [None], and the format raises [TypeError].
    The other fields are counts or are guarded. *)
Definition print_summary (d : db) : result unit :=
  match flights d with
  | [] => Raise TypeError
  | _ => Ok tt
  end.

Definition run_quality_checks : task (list (string * Z)) :=
  '(checks_passed, checks_failed) ←
    get_connection E OpQuality
      (d ← read_db;
       checks ← lift (quality_checks d);
       lift (print_summary d);;
       mret (count_checks true checks, count_checks false checks));
  if 0 <? checks_failed then lift (Raise (QualityError checks_failed))
  else mret [("passed", checks_passed); ("failed", checks_failed)].

End QualityChecks.

(** ** Functions the statements are written with

    The tasks seen as functions of the warehouse, and the vocabulary of the
    properties below. *)

Section Vocabulary.
Context `{Extern}.
Variable E : env.

(** The frame index of each row of a chunk that starts at [idx]. *)
Definition numbered (idx : Z) (chunk : list csv_row) : list (Z * csv_row) :=
  imap (λ i row, (idx + Z.of_nat i, row)) chunk.

(** The other tables, and the clock, as [ensure_dates_exist] leaves them. *)
Definition with_dates (t : gmap date date_row) (w : world) : world :=
  {| w_db := set_date_dim t (w_db w); w_clock := w_clock w |}.

(** The first row of the file that carries a given well-formed code. *)
Fixpoint first_seen (code : string) (raw : list raw_airport) : option raw_airport :=
  match raw with
  | [] => None
  | r :: rest =>
      if decide (iata_code r = Some code) then Some r else first_seen code rest
  end.

(** The first row paired with a code in a list of pairs. *)
Fixpoint lookup_first (code : string) (rows : list (string * raw_airport))
    : option raw_airport :=
  match rows with
  | [] => None
  | (c, r) :: rest => if decide (c = code) then Some r else lookup_first code rest
  end.

(** The tuple of a row, when it builds. *)
Definition tuple_of (r : raw_airport) : option airport :=
  match airport_tuple r with
  | Ok a => Some a
  | Raise _ => None
  end.

(** The existence set Step 3 reads from a warehouse. *)
Definition weather_existing (d : db) : gset (string * string) :=
  list_to_set (stored_key <$> weather_observations d).

(** The observations Step 4 generates for a warehouse. *)
Definition weather_inputs (d : db) : list weather_obs :=
  weather_source E
    (elements (dom (airports d) ∩ (list_to_set get_mapped_airports : gset string)))
    (merge_sort date_le (elements (dom (date_dim d)))).

(** The pre-check of Step 6. *)
Definition seen (existing : gset (string * string)) (obs : weather_obs) : Prop :=
  (wo_airport_code obs, observation_time obs) ∈ existing.

#[global] Instance seen_dec existing obs : Decision (seen existing obs).
Proof. unfold seen. apply _. Defined.

(** The pair the pre-check looks up for an observation. *)
Definition pair_of (o : weather_obs) : string * string :=
  (wo_airport_code o, observation_time o).

(** The warehouse after the two bulk statements of a chunk. *)
Definition apply_chunk (valid_rows : list flight) (rejected_rows : list rejected_record)
    (d : db) : db :=
  set_rejected_records (rejected_records d ++ rejected_rows)
    (set_flights (insert_flights valid_rows (flights d)) d).

(** The chunk loop as a function of the warehouse: it stops at the first
    chunk whose validation raises or whose round trip fails, with the
    chunks before it committed. *)
Fixpoint run_chunks (chunk_size : Z) (va vc vd : gset string) (file_name : string)
    (chunks : list (Z * list csv_row)) (d : db) (file_loaded file_rejected : Z)
    : db * result (Z * Z) :=
  match chunks with
  | [] => (d, Ok (file_loaded, file_rejected))
  | (chunk_start, chunk) :: rest =>
      match validate_rows va vc vd file_name chunk_start chunk with
      | Raise e => (d, Raise e)
      | Ok (valid_rows, rejected_rows) =>
          if db_fault E (OpChunk file_name (chunk_start / chunk_size + 1))
          then (d, Raise DatabaseError)
          else run_chunks chunk_size va vc vd file_name rest
                 (apply_chunk valid_rows rejected_rows d)
                 (file_loaded + Z.of_nat (length valid_rows))
                 (file_rejected + Z.of_nat (length rejected_rows))
      end
  end.

(** The ledger row [log_file] submits for a file. *)
Definition file_run (total_rows file_loaded file_rejected started completed : Z) : run :=
  {| rows_processed := total_rows;
     rows_loaded := file_loaded;
     rows_rejected := file_rejected;
     status := "completed";
     started_at := started;
     completed_at := completed |}.

(** [load_file] as a function of the world it starts from. *)
Definition file_outcome (chunk_size : Z) (va vc valid_dates : gset string)
    (file_key : string) (w : world) : world * result (gset string * Z * Z) :=
  let file_name := PyStr.last_segment file_key in
  let w0 := {| w_db := w_db w; w_clock := w_clock w + 1 |} in
  match s3_csv E file_key with
  | Raise e => (w0, Raise e)
  | Ok df =>
      match add_missing_dates E valid_dates df w0 with
      | (w1, Raise e) => (w1, Raise e)
      | (w1, Ok vd1) =>
          match run_chunks chunk_size va vc vd1 file_name
                  (chunks_of (length df) (Z.to_nat chunk_size) 0 df) (w_db w1) 0 0 with
          | (d2, Raise e) => ({| w_db := d2; w_clock := w_clock w1 |}, Raise e)
          | (d2, Ok (file_loaded, file_rejected)) =>
              if db_fault E (OpLedgerWrite file_name)
              then ({| w_db := d2; w_clock := w_clock w1 |}, Raise DatabaseError)
              else
                ({| w_db :=
                      set_pipeline_runs
                        (upsert_run true (file_name, "flights")
                           (file_run (Z.of_nat (length df)) file_loaded file_rejected
                              (w_clock w) (w_clock w1))
                           (pipeline_runs d2)) d2;
                    w_clock := w_clock w1 + 1 |},
                 Ok (vd1, file_loaded, file_rejected))
          end
      end
  end.


End Vocabulary.

(** ** Invariants of the warehouse the properties speak of *)

(** The foreign keys of the fact table: every fact row names an airport of
    [airports] at both ends, a carrier of [carriers] and a date of
    [date_dim]. *)
Definition foreign_keys_hold (d : db) : Prop :=
  ∀ f, f ∈ flights d →
    origin_airport f ∈ dom (airports d) ∧
    dest_airport f ∈ dom (airports d) ∧
    carrier_code f ∈ dom (carriers d) ∧
    flight_date f ∈ date_ids d.

(** The two keys of an observation that refer to other tables. *)
Definition weather_keys_hold (d : db) : Prop :=
  ∀ o, o ∈ weather_observations d →
    wo_airport_code o ∈ dom (airports d) ∧ observation_date o ∈ date_ids d.

(** The column [safe_int] reads and the four columns [safe_bool] reads in
    the tuple of an accepted row. *)
Definition integer_columns : list string :=
  ["Flight_Number_Reporting_Airline"; "DepDel15"; "ArrDel15"; "Cancelled"; "Diverted"].

(** [d.get(key)] on a dict written as the list of its items. *)
Fixpoint dict_get {V} (key : string) (items : list (string * V)) : option V :=
  match items with
  | [] => None
  | (k, v) :: rest => if String.eqb k key then Some v else dict_get key rest
  end.

(** ** [generate_date_dim] *)

Section GenerateDateDim.
Context `{Extern}.
Variable E : env.

(** [pd.to_datetime(df['FlightDate'])] on the frame of
    [pd.read_csv(usecols=['FlightDate'])], which raises [ValueError] for a
    file without the column.  A Timestamp is held as its date: the cells of
    FlightDate carry no time of day.  A missing cell, which pandas turns
    into NaT and [ensure_dates_exist] then fails on, raises here, where the
    column is converted; the warehouse is untouched either way. *)
Fixpoint column_dates (df : list csv_row) : result (list date) :=
  match df with
  | [] => Ok []
  | row :: rest =>
      d ← match FlightDate row with
          | VNone => Raise ValueError
          | cell => to_datetime cell
          end;
      ds ← column_dates rest;
      Ok (d :: ds)
  end.

(** The loop over the flights files: [all_dates.update(file_dates)]. *)
Fixpoint collect_dates (csv_files : list string) (all_dates : gset date)
    : result (gset date) :=
  match csv_files with
  | [] => Ok all_dates
  | file_key :: rest =>
      df ← s3_csv E file_key;
      file_dates ← column_dates df;
      collect_dates rest (all_dates ∪ list_to_set file_dates)
  end.

Definition generate_date_dim : task Z :=
  match filter (λ f, is_flight_csv f = true) (list_files E) with
  | [] => mret 0
  | csv_files =>
      all_dates ← lift (collect_dates csv_files ∅);
      ensure_dates_exist E (DObj <$> elements all_dates)
  end.

End GenerateDateDim.

(** ** [extract_carriers] *)

#[global] Instance Q_eq_dec : EqDecision Q.
Proof. solve_decision. Defined.

#[global] Instance pyfloat_eq_dec : EqDecision pyfloat.
Proof. solve_decision. Defined.

#[global] Instance pyval_eq_dec : EqDecision pyval.
Proof. solve_decision. Defined.

(** The dict [carrier_names] of the task. *)
Definition carrier_names : list (string * string) :=
  [("AA", "American Airlines"); ("DL", "Delta Air Lines");
   ("UA", "United Airlines"); ("WN", "Southwest Airlines");
   ("B6", "JetBlue Airways"); ("AS", "Alaska Airlines");
   ("NK", "Spirit Airlines"); ("F9", "Frontier Airlines");
   ("G4", "Allegiant Air"); ("HA", "Hawaiian Airlines");
   ("SY", "Sun Country Airlines"); ("MX", "MexicanaLink");
   ("OH", "PSA Airlines"); ("OO", "SkyWest Airlines");
   ("YV", "Mesa Airlines"); ("YX", "Republic Airways");
   ("QX", "Horizon Air"); ("MQ", "Envoy Air");
   ("9E", "Endeavor Air"); ("EV", "ExpressJet Airlines");
   ("PT", "Piedmont Airlines"); ("ZW", "Air Wisconsin");
   ("CP", "Compass Airlines"); ("C5", "CommutAir");
   ("G7", "GoJet Airlines"); ("KS", "Penair")].

(** [carrier_names.get(code, f'Carrier {code}')] *)
Definition carrier_name_of (code : string) : string :=
  default ("Carrier " +:+ code) (dict_get code carrier_names).

(** [df.drop_duplicates()]: a row equal to an earlier one in both columns
    is dropped. *)
Fixpoint drop_duplicate_rows (seen rows : list (string * pyval)) : list (string * pyval) :=
  match rows with
  | [] => []
  | r :: rest =>
      if bool_decide (r ∈ seen) then drop_duplicate_rows seen rest
      else r :: drop_duplicate_rows (r :: seen) rest
  end.

(** INSERT INTO carriers ... ON CONFLICT (carrier_code) DO NOTHING over
    the items of [all_carriers]. *)
Fixpoint insert_carriers (items : list (string * option Z)) (t : gmap string carrier)
    (rows_loaded : Z) : gmap string carrier * Z :=
  match items with
  | [] => (t, rows_loaded)
  | (code, dot_id) :: rest =>
      let name := carrier_name_of code in
      insert_carriers rest
        (insert_do_nothing code {| carrier_name := name; dot_id := dot_id |} t)
        (rows_loaded + 1)
  end.

(** [with get_connection() as conn: body] for a round trip that is lost or
    not: [get_connection] with the fault given rather than looked up. *)
Definition in_transaction {A} (lost : bool) (body : task A) : task A :=
  λ w,
    if lost then (w, Raise DatabaseError)
    else
      match body w with
      | (w', Ok a) => (w', Ok a)
      | (w', Raise e) => ({| w_db := w_db w; w_clock := w_clock w' |}, Raise e)
      end.

Definition set_carriers (t : gmap string carrier) (d : db) : db :=
  {| airports := airports d; carriers := t; date_dim := date_dim d;
     flights := flights d; rejected_records := rejected_records d;
     pipeline_runs := pipeline_runs d;
     weather_observations := weather_observations d |}.

Section ExtractCarriers.
Context `{Extern}.
Variable E : env.

(** [get_object] and [pd.read_csv(usecols=['Reporting_Airline',
    'DOT_ID_Reporting_Airline'])] of a flights key: the two cells of each
    row.  The carrier cell is a string: a BTS file has no row without a
    carrier, which pandas would read as NaN. *)
Variable carrier_columns : string → result (list (string * pyval)).

(** The round trip of the INSERT loop is lost. *)
Variable carriers_lost : bool.

(** The loop over the rows of one file; [all_carriers] is the dict as the
    list of its items in insertion order. *)
Fixpoint collect_rows (rows : list (string * pyval)) (all_carriers : list (string * option Z))
    : result (list (string * option Z)) :=
  match rows with
  | [] => Ok all_carriers
  | (code, dot) :: rest =>
      if bool_decide (code ∈ all_carriers.*1) then collect_rows rest all_carriers
      else
        dot_id ← (if negb (pd_isna dot) then n ← py_int dot; Ok (Some n) else Ok None);
        collect_rows rest (all_carriers ++ [(code, dot_id)])
  end.

(** The loop over the flights files. *)
Fixpoint collect_carriers (csv_files : list string) (all_carriers : list (string * option Z))
    : result (list (string * option Z)) :=
  match csv_files with
  | [] => Ok all_carriers
  | file_key :: rest =>
      df ← carrier_columns file_key;
      all_carriers ← collect_rows (drop_duplicate_rows [] df) all_carriers;
      collect_carriers rest all_carriers
  end.

Definition extract_carriers : task Z :=
  match filter (λ f, is_flight_csv f = true) (list_files E) with
  | [] => mret 0
  | csv_files =>
      all_carriers ← lift (collect_carriers csv_files []);
      in_transaction carriers_lost
        (d ← read_db;
         let '(t, rows_loaded) := insert_carriers all_carriers (carriers d) 0 in
         write_db (set_carriers t d);;
         mret rows_loaded)
  end.

End ExtractCarriers.

(** ** [weather_helper] *)

Definition AIRPORT_STATION_MAP : list (string * string) :=
  [("ATL", "KATL"); ("DFW", "KDFW"); ("DEN", "KDEN"); ("ORD", "KORD"); ("LAX", "KLAX");
   ("JFK", "KJFK"); ("LAS", "KLAS"); ("MCO", "KMCO"); ("MIA", "KMIA"); ("CLT", "KCLT");
   ("SEA", "KSEA"); ("PHX", "KPHX"); ("EWR", "KEWR"); ("SFO", "KSFO"); ("IAH", "KIAH");
   ("BOS", "KBOS"); ("FLL", "KFLL"); ("MSP", "KMSP"); ("LGA", "KLGA"); ("DTW", "KDTW");
   ("PHL", "KPHL"); ("SLC", "KSLC"); ("DCA", "KDCA"); ("SAN", "KSAN"); ("BWI", "KBWI");
   ("TPA", "KTPA"); ("AUS", "KAUS"); ("IAD", "KIAD"); ("BNA", "KBNA"); ("MDW", "KMDW")].

(** [x < y] on binary64 values: false when either is NaN. *)
Definition float_lt (x y : pyfloat) : bool :=
  match x, y with
  | FNan, _ | _, FNan => false
  | FInf true, FInf true => false
  | FInf true, _ => true
  | _, FInf true => false
  | FInf false, _ => false
  | _, FInf false => true
  | FFin a, FFin b => negb (Qle_bool b a)
  end.

(** [x or d] on an optional float: [None] and zero are falsy. *)
Definition float_or (x : option pyfloat) (d : Q) : pyfloat :=
  match x with
  | None => FFin d
  | Some (FFin q) => if Qeq_bool q 0 then FFin d else FFin q
  | Some f => f
  end.

(** The binary64 value of the literal [0.1]. *)
Definition tenth : Q := 3602879701896397 # 36028797018963968.

(** [determine_conditions(obs)], as a function of the three keys it
    reads. *)
Definition determine_conditions (precipitation avg_temperature avg_visibility : option pyfloat)
    : string :=
  let precip := float_or precipitation 0 in
  let temp := avg_temperature in
  let visibility := float_or avg_visibility 10 in
  let freezing :=
    match temp with
    | Some t => float_lt t (FFin 32)
    | None => false
    end in
  if float_lt (FFin 0) precip && freezing then "Snow"
  else if float_lt (FFin tenth) precip then "Rain"
  else if float_lt (FFin 0) precip then "Light Rain"
  else if float_lt visibility (FFin 3) then "Fog/Low Visibility"
  else if freezing then "Cold/Clear"
  else "Clear".

(** The labels of [determine_conditions] that report precipitation. *)
Definition wet_conditions : list string := ["Snow"; "Rain"; "Light Rain"].

(** One observation dict of [fetch_weather_from_iem], before
    [fetch_weather_for_airports] gives it an airport_code. *)
Record iem_obs : Type := {
  io_station_id : string;
  io_observation_date : string;
  io_observation_time : string;
  io_avg_temperature : option pyfloat;
  io_max_temperature : option pyfloat;
  io_min_temperature : option pyfloat;
  io_precipitation : option pyfloat;
  io_snow_depth : option pyfloat;
  io_avg_wind_speed : option pyfloat;
  io_max_wind_speed : option pyfloat;
  io_avg_visibility : option pyfloat;
  io_humidity : option pyfloat;
  io_dew_point : option pyfloat;
  io_conditions : string;
}.

(** [obs['airport_code'] = airport], by the keys [load_weather] reads. *)
Definition with_airport_code (airport : string) (o : iem_obs) : weather_obs :=
  {| wo_airport_code := airport;
     observation_date := io_observation_date o;
     observation_time := io_observation_time o;
     avg_temperature := io_avg_temperature o;
     max_temperature := io_max_temperature o;
     min_temperature := io_min_temperature o;
     avg_wind_speed := io_avg_wind_speed o;
     max_wind_speed := io_max_wind_speed o;
     avg_visibility := io_avg_visibility o;
     precipitation := io_precipitation o;
     snow_depth := io_snow_depth o;
     conditions := io_conditions o |}.

(** [s.split(' ')[0]] *)
Fixpoint before_space (s : string) : string :=
  match s with
  | EmptyString => EmptyString
  | String c r => if Ascii.eqb c " " then EmptyString else String c (before_space r)
  end.

(** [s1 <= s2] on strings, the order of [list.sort]. *)
Definition str_le (s1 s2 : string) : Prop := String.leb s1 s2 = true.

#[global] Instance str_le_dec : RelDecision str_le.
Proof. intros s1 s2. unfold str_le. apply _. Defined.

(** [d.strftime('%Y-%m-%d')] for a date object, [str(d)] for a string.
    The year of a date object is taken to have four digits, as the years
    of flight data have: an earlier year is written without padding by the
    C library, which [isoformat] does not follow. *)
Definition date_string (d : date_arg) : string :=
  match d with
  | DObj d => Calendar.isoformat d
  | DStr s => s
  end.

Definition four_digit_year (d : date_arg) : Prop :=
  match d with
  | DObj d => 1000 ≤ year d
  | DStr _ => True
  end.

Section WeatherHelper.
Context `{Extern}.

(** [urlopen(url).read().decode('utf-8')] read by [csv.DictReader], for the
    station and the two dates the URL names: the rows, each a dict from a
    column name to its cell, or the exception of the request or of the
    reader. *)
Variable iem_request : string → date → date → result (list (string → option string)).

(** [round(x * 1.15078, 1)] in binary64. *)
Variable knots_to_mph : pyfloat → pyfloat.

(** The local [safe_float] of [fetch_weather_from_iem]. *)
Definition iem_float (val : option string) : option pyfloat :=
  match val with
  | None => None
  | Some s =>
      if String.eqb s "" || String.eqb s "M" || String.eqb s "T" then None
      else float_of_str s
  end.

(** The body of the loop over the rows of the response; [None] is
    [continue]. *)
Definition iem_observation (station_id : string) (row : string → option string)
    : option iem_obs :=
  let valid_time := default "" (row "valid") in
  if String.eqb valid_time "" then None
  else
    let obs_date :=
      if PyStr.contains " " valid_time then before_space valid_time else valid_time in
    let avg_temperature := iem_float (row "tmpf") in
    let precipitation := iem_float (row "p01i") in
    let avg_wind_speed := iem_float (row "sknt") in
    let avg_visibility := iem_float (row "vsby") in
    Some {| io_station_id := station_id;
            io_observation_date := obs_date;
            io_observation_time := valid_time;
            io_avg_temperature := avg_temperature;
            io_max_temperature := None;
            io_min_temperature := None;
            io_precipitation := precipitation;
            io_snow_depth := None;
            io_avg_wind_speed := knots_to_mph <$> avg_wind_speed;
            io_max_wind_speed := None;
            io_avg_visibility := avg_visibility;
            io_humidity := iem_float (row "relh");
            io_dew_point := iem_float (row "dwpf");
            io_conditions :=
              determine_conditions precipitation avg_temperature avg_visibility |}.

(** The two dates are parsed outside the [try]; every exception inside
    it gives the empty list. *)
Definition fetch_weather_from_iem (station_id : string) (start_date end_date : date_arg)
    : result (list iem_obs) :=
  start_date ← date_of_arg start_date;
  end_date ← date_of_arg end_date;
  match iem_request station_id start_date end_date with
  | Ok rows => Ok (omap (iem_observation station_id) rows)
  | Raise _ => Ok []
  end.

Fixpoint fetch_weather_for_airports (airports : list string) (start_date end_date : date_arg)
    : result (list weather_obs) :=
  match airports with
  | [] => Ok []
  | airport :: rest =>
      match dict_get airport AIRPORT_STATION_MAP with
      | None => fetch_weather_for_airports rest start_date end_date
      | Some station_id =>
          obs_list ← fetch_weather_from_iem station_id start_date end_date;
          all_observations ← fetch_weather_for_airports rest start_date end_date;
          Ok ((with_airport_code airport <$> obs_list) ++ all_observations)%list
      end
  end.

Definition generate_weather_data (airports : list string) (dates : list date_arg)
    : result (list weather_obs) :=
  match dates with
  | [] => Ok []
  | _ =>
      let date_strings := merge_sort str_le (date_string <$> dates) in
      let start_date := default "" (head date_strings) in
      let end_date := default "" (last date_strings) in
      let valid_airports :=
        filter (λ a, is_Some (dict_get a AIRPORT_STATION_MAP)) airports in
      observations ←
        fetch_weather_for_airports valid_airports (DStr start_date) (DStr end_date);
      let date_set : gset string := list_to_set date_strings in
      Ok (filter (λ obs, observation_date obs ∈ date_set) observations)
  end.

(** [generate_weather_data(valid_airports, dates)] as [load_weather] calls
    it, on the date objects of [date_dim], for which it returns. *)
Definition iem_source (airports : list string) (dates : list date) : list weather_obs :=
  match generate_weather_data airports (DObj <$> dates) with
  | Ok weather_data => weather_data
  | Raise _ => []
  end.

End WeatherHelper.

(** ** [s3_helper] on an object store, and [upload_raw_files_to_s3] *)

(** A call of the S3 client: from the object store (the objects of each
    bucket, by key) to the store it leaves and what it returns or
    raises. *)
Definition s3_call (A : Type) : Type :=
  gmap string (gmap string string) → gmap string (gmap string string) * result A.

#[global] Instance s3_call_ret : MRet s3_call := λ A a s, (s, Ok a).

#[global] Instance s3_call_bind : MBind s3_call := λ A B k m s,
  match m s with
  | (s', Ok a) => k a s'
  | (s', Raise e) => (s', Raise e)
  end.

(** [f'raw/{f}'] *)
Definition raw_key (f : string) : string := "raw/" +:+ f.

Section ObjectStore.

(** The endpoint answers; when it does not, every call of the client
    raises. *)
Variable reachable : bool.

Definition head_bucket (bucket : string) : s3_call unit := λ s,
  if reachable then
    match s !! bucket with
    | Some _ => (s, Ok tt)
    | None => (s, Raise StorageError)
    end
  else (s, Raise StorageError).

Definition create_bucket (bucket : string) : s3_call unit := λ s,
  if reachable then
    match s !! bucket with
    | Some _ => (s, Raise StorageError)
    | None => (<[bucket := ∅]> s, Ok tt)
    end
  else (s, Raise StorageError).

(** [s3.upload_file(filepath, bucket, key)] for a local file that holds
    [body]. *)
Definition put_object (bucket key body : string) : s3_call unit := λ s,
  if reachable then
    match s !! bucket with
    | Some objects => (<[bucket := <[key := body]> objects]> s, Ok tt)
    | None => (s, Raise StorageError)
    end
  else (s, Raise StorageError).

(** [s3.get_object(Bucket=bucket, Key=key)['Body'].read()] *)
Definition get_object (bucket key : string) (s : gmap string (gmap string string))
    : result string :=
  if reachable then
    match s !! bucket ≫= (.!! key) with
    | Some body => Ok body
    | None => Raise StorageError
    end
  else Raise StorageError.

(** [try: s3.head_bucket(...) except Exception: s3.create_bucket(...)] *)
Definition ensure_bucket (bucket_name : string) : s3_call unit := λ s,
  match head_bucket bucket_name s with
  | (s', Ok _) => (s', Ok tt)
  | (s', Raise _) => create_bucket bucket_name s'
  end.

Definition upload_file (bucket key body : string) : s3_call unit :=
  ensure_bucket bucket;;
  put_object bucket key body.

(** The loop over [os.listdir(raw_dir)]; the directory is the list of its
    files, each with what it holds. *)
Fixpoint upload_flight_files (raw_dir : list (string * string)) : s3_call (list string) :=
  match raw_dir with
  | [] => mret []
  | (f, body) :: rest =>
      if is_flight_csv f then
        upload_file BUCKET (raw_key f) body;;
        uploaded ← upload_flight_files rest;
        mret (f :: uploaded)
      else upload_flight_files rest
  end.

Definition upload_raw_files_to_s3 (raw_dir : list (string * string))
    : s3_call (list string) :=
  ensure_bucket BUCKET;;
  uploaded ← upload_flight_files raw_dir;
  match dict_get "airports.dat" raw_dir with
  | Some body =>
      upload_file BUCKET AIRPORTS_KEY body;;
      mret (uploaded ++ ["airports.dat"])%list
  | None => mret uploaded
  end.

End ObjectStore.

(** ** A reference instance of the parameters

    Enough of the parsers to run the tasks on small inputs: decimal
    integers and the three spellings [inf], [-inf] and [nan] for [float],
    decimal integers for [int], ISO dates for [pd.to_datetime], and a text
    column for observation_time. *)

Module Reference.

Fixpoint digits (s : string) (acc : Z) : option Z :=
  match s with
  | EmptyString => Some acc
  | String c r =>
      match Calendar.digit_val c with
      | Some k => digits r (10 * acc + k)
      | None => None
      end
  end.

Definition decimal (s : string) : option Z :=
  match PyStr.strip s with
  | EmptyString => None
  | String "-" r => match r with EmptyString => None | _ => Z.opp <$> digits r 0 end
  | r => digits r 0
  end.

Definition parse_float (s : string) : option pyfloat :=
  match PyStr.lower (PyStr.strip s) with
  | "inf" => Some (FInf false)
  | "-inf" => Some (FInf true)
  | "nan" => Some FNan
  | _ => (λ n, FFin (inject_Z n)) <$> decimal s
  end.

Definition show_float (f : pyfloat) : string :=
  match f with
  | FNan => "nan"
  | FInf false => "inf"
  | FInf true => "-inf"
  | FFin q => pretty (Qnum q) +:+ "/" +:+ pretty (Z.pos (Qden q))
  end.

Definition parse_date (v : pyval) : result date :=
  match v with
  | VStr s => Calendar.strptime (PyStr.strip s)
  | _ => Raise ValueError
  end.

Definition parse_date_valid v d : parse_date v = Ok d → Calendar.valid_date d.
Proof.
  destruct v as [| | | |s]; try discriminate.
  unfold parse_date, Calendar.strptime, Calendar.valid_date.
  repeat case_match; try discriminate.
  by intros [= <-].
Defined.

#[export] Instance extern : Extern :=
  {| float_of_str := parse_float;
     int_of_str := decimal;
     repr_float := show_float;
     to_datetime := parse_date;
     to_datetime_valid := parse_date_valid;
     db_time_str := λ s, s |}.

(** The same parsers over a timestamp column: the observation time goes
    in as 'YYYY-MM-DD HH:MM' and its [str] comes back with the seconds. *)
Definition with_seconds : Extern :=
  {| float_of_str := parse_float;
     int_of_str := decimal;
     repr_float := show_float;
     to_datetime := parse_date;
     to_datetime_valid := parse_date_valid;
     db_time_str := λ s, s +:+ ":00" |}.

End Reference.

(** ** Small inputs on which the tasks are run in the examples *)

Module Scenario.
Import Reference.

(** A CSV row with its four key columns, a flight number and a Cancelled
    flag; the file has no other column. *)
Definition flight_row (origin dest carrier flight_date : string) (number : Z)
    (cancelled : pyval) : csv_row :=
  {| Origin := VStr origin;
     Dest := VStr dest;
     Reporting_Airline := VStr carrier;
     FlightDate := VStr flight_date;
     row_get := λ col,
       if String.eqb col "Flight_Number_Reporting_Airline" then VInt number
       else if String.eqb col "Cancelled" then cancelled
       else VNone |}.

Definition some_airport (name : string) : airport :=
  {| airport_name := VStr name; city := VNone; country := VNone;
     latitude := VNone; longitude := VNone; altitude := None; timezone := None |}.

Definition empty_db : db :=
  {| airports := ∅; carriers := ∅; date_dim := ∅; flights := [];
     rejected_records := []; pipeline_runs := ∅; weather_observations := [] |}.

(** Two airports, one carrier and New Year's Day 2024 in the dimensions. *)
Definition dims_db : db :=
  {| airports := <["ATL" := some_airport "Atlanta"]> (<["JFK" := some_airport "Kennedy"]> ∅);
     carriers := <["DL" := {| carrier_name := "Delta Air Lines"; dot_id := Some 19790 |}]> ∅;
     date_dim := <[mkDate 2024 1 1 := date_attrs (mkDate 2024 1 1)]> ∅;
     flights := [];
     rejected_records := [];
     pipeline_runs := ∅;
     weather_observations := [] |}.

Definition valid_airports : gset string := dom (airports dims_db).
Definition valid_carriers : gset string := dom (carriers dims_db).
Definition valid_dates : gset string :=
  set_map Calendar.isoformat (dom (date_dim dims_db)).

(** Three rows: a good one, one from an unknown origin by an unknown
    carrier, and a good one on a date the dimension lacks. *)
Definition january : list csv_row :=
  [ flight_row "ATL" "JFK" "DL" "2024-01-01" 100 (VInt 0);
    flight_row "XXX" "JFK" "ZZ" "2024-01-01" 101 (VInt 0);
    flight_row "JFK" "ATL" "DL" "2024-01-02" 102 (VFloat FNan) ].

Definition airport_line (code name : string) : raw_airport :=
  {| ra_airport_code := VStr code;
     ra_airport_name := VStr name;
     ra_city := VStr "City";
     ra_country := VStr "United States";
     ra_latitude := VFloat (FFin 33);
     ra_longitude := VFloat (FFin (-84));
     ra_altitude := VInt 1026;
     ra_timezone := VStr "America/New_York" |}.

(** A reference file with a code that comes twice and a line without a
    code. *)
Definition airports_dat : list raw_airport :=
  [ airport_line "ATL" "Hartsfield Jackson";
    airport_line "\N" "Unnamed strip";
    airport_line "ATL" "Another Atlanta";
    airport_line "JFK" "John F Kennedy" ].

(** The same file after a line was added to it. *)
Definition airports_dat_extended : list raw_airport :=
  airports_dat ++ [airport_line "BOS" "Logan"].

Definition observation (code time : string) : weather_obs :=
  {| wo_airport_code := code;
     observation_date := "2024-01-01";
     observation_time := time;
     avg_temperature := Some (FFin 41);
     max_temperature := None;
     min_temperature := None;
     avg_wind_speed := None;
     max_wind_speed := None;
     avg_visibility := None;
     precipitation := None;
     snow_depth := None;
     conditions := "Clear" |}.

(** The weather service answers with two hourly observations for Atlanta
    whatever it is asked. *)
Definition two_observations (airports : list string) (dates : list date)
    : list weather_obs :=
  [ observation "ATL" "2024-01-01 00:53"; observation "ATL" "2024-01-01 01:53" ].

(** A bucket with the January file and the airports file, and no fault. *)
Definition calm : env :=
  {| s3_listing := Ok ["raw/airports.dat"; "raw/january.csv"];
     s3_csv := λ key, if String.eqb key "raw/january.csv" then Ok january
                      else Raise StorageError;
     s3_airports := Ok airports_dat;
     weather_source := two_observations;
     db_fault := λ _, false |}.

(** A file whose two rows both leave from an airport nobody knows. *)
Definition march : list csv_row :=
  [ flight_row "QQQ" "JFK" "DL" "2024-01-01" 300 (VInt 0);
    flight_row "QQQ" "ATL" "DL" "2024-01-01" 301 (VInt 0) ].

(** The bucket with the March file next to the January one. *)
Definition with_march : env :=
  {| s3_listing := Ok ["raw/airports.dat"; "raw/january.csv"; "raw/march.csv"];
     s3_csv := λ key, if String.eqb key "raw/january.csv" then Ok january
                      else if String.eqb key "raw/march.csv" then Ok march
                      else Raise StorageError;
     s3_airports := Ok airports_dat;
     weather_source := two_observations;
     db_fault := λ _, false |}.



(** The same bucket once the reference file has grown. *)
Definition calm_extended : env :=
  {| s3_listing := s3_listing calm;
     s3_csv := s3_csv calm;
     s3_airports := Ok airports_dat_extended;
     weather_source := weather_source calm;
     db_fault := db_fault calm |}.

(** The warehouse after the flights and the weather were loaded from the
    bucket that holds the January and the March file. *)
Definition after_march : world :=
  (load_weather with_march
     (load_flights with_march {| w_db := dims_db; w_clock := 0 |}).1).1.

End Scenario.

(** ** More small inputs: the stages before and after [load_flights] *)

Module Samples.
Import Reference.

(** A row of a response of the weather service. *)
Definition iem_row (valid tmpf p01i vsby : string) : string → option string :=
  λ col,
    if String.eqb col "valid" then Some valid
    else if String.eqb col "tmpf" then Some tmpf
    else if String.eqb col "p01i" then Some p01i
    else if String.eqb col "vsby" then Some vsby
    else None.

(** A service that knows the station of Atlanta only, and answers with
    two observations of New Year's Day, one of the day before and a row
    without a time. *)
Definition atlanta_only (station_id : string) (start_date end_date : date)
    : result (list (string → option string)) :=
  if String.eqb station_id "KATL" then
    Ok [ iem_row "2024-01-01 00:52" "30" "T" "10";
         iem_row "2024-01-01 01:52" "31" "M" "0";
         iem_row "2023-12-31 23:52" "35" "2" "10";
         iem_row "" "35" "0" "10" ]
  else Raise StorageError.

(** No observation of the samples has a wind speed. *)
Definition still (x : pyfloat) : pyfloat := x.

(** The calm bucket, with the weather taken from that service. *)
Definition iem_env : env :=
  {| s3_listing := s3_listing Scenario.calm;
     s3_csv := s3_csv Scenario.calm;
     s3_airports := s3_airports Scenario.calm;
     weather_source := iem_source atlanta_only still;
     db_fault := db_fault Scenario.calm |}.

(** The two carrier columns of the January and of the March file. *)
Definition carrier_cells (key : string) : result (list (string * pyval)) :=
  if String.eqb key "raw/january.csv" then
    Ok [("DL", VInt 19790); ("ZZ", VFloat FNan); ("DL", VInt 19790)]
  else if String.eqb key "raw/march.csv" then
    Ok [("DL", VInt 19790); ("DL", VInt 19790)]
  else Raise StorageError.

(** A line of the reference file whose altitude is not a number. *)
Definition no_altitude : raw_airport :=
  {| ra_airport_code := VStr "BOS";
     ra_airport_name := VStr "Logan";
     ra_city := VStr "Boston";
     ra_country := VStr "United States";
     ra_latitude := VFloat (FFin 42);
     ra_longitude := VFloat (FFin (-71));
     ra_altitude := VStr "sea level";
     ra_timezone := VStr "America/New_York" |}.

(** The calm bucket with that line at the end of the reference file. *)
Definition calm_no_altitude : env :=
  {| s3_listing := s3_listing Scenario.calm;
     s3_csv := s3_csv Scenario.calm;
     s3_airports := Ok (Scenario.airports_dat ++ [no_altitude])%list;
     weather_source := weather_source Scenario.calm;
     db_fault := db_fault Scenario.calm |}.


(** Two codes that start with a capital E with an acute accent, which
    UTF-8 writes in the two bytes 195 and 137. *)
Definition three_characters : string := String "195" (String "137" "AB").
Definition two_characters : string := String "195" (String "137" "A").

(** The reference file with a line for each of them at its end. *)
Definition accented_dat : list raw_airport :=
  (Scenario.airports_dat ++
   [ Scenario.airport_line three_characters "Three characters";
     Scenario.airport_line two_characters "Two characters" ])%list.

Definition calm_accented : env :=
  {| s3_listing := s3_listing Scenario.calm;
     s3_csv := s3_csv Scenario.calm;
     s3_airports := Ok accented_dat;
     weather_source := weather_source Scenario.calm;
     db_fault := db_fault Scenario.calm |}.

(** The calm bucket on a connection with the given faults. *)
Definition faulty (fault : db_op → bool) : env :=
  {| s3_listing := s3_listing Scenario.calm;
     s3_csv := s3_csv Scenario.calm;
     s3_airports := s3_airports Scenario.calm;
     weather_source := weather_source Scenario.calm;
     db_fault := fault |}.

(** A file with a flight on a Tuesday of January, on a Saturday of July
    and on a Sunday of October, days the dimension does not have. *)
Definition weekend : list csv_row :=
  [ Scenario.flight_row "ATL" "JFK" "DL" "2024-01-02" 200 (VInt 0);
    Scenario.flight_row "ATL" "JFK" "DL" "2024-07-06" 201 (VInt 0);
    Scenario.flight_row "JFK" "ATL" "DL" "2024-10-06" 202 (VInt 0) ].

(** A file whose second row has no date. *)
Definition undated : list csv_row :=
  [ Scenario.flight_row "ATL" "JFK" "DL" "2024-01-02" 400 (VInt 0);
    Scenario.flight_row "ATL" "JFK" "DL" "" 401 (VInt 0) ].

(** A bucket with those two files, a file without the Origin column and
    the January file, on a connection with the given faults; a fifth key is
    listed that cannot be fetched. *)
Definition crowded (fault : db_op → bool) : env :=
  {| s3_listing := Ok ["raw/weekend.csv"; "raw/undated.csv"; "raw/headless.csv";
                       "raw/january.csv"; "raw/gone.csv"];
     s3_csv := λ key,
       if String.eqb key "raw/weekend.csv" then Ok weekend
       else if String.eqb key "raw/undated.csv" then Ok undated
       else if String.eqb key "raw/headless.csv" then
         Ok [ {| Origin := VNone; Dest := VStr "JFK"; Reporting_Airline := VStr "DL";
                 FlightDate := VStr "2024-01-01"; row_get := λ _, VNone |} ]
       else if String.eqb key "raw/january.csv" then Ok Scenario.january
       else Raise StorageError;
     s3_airports := s3_airports Scenario.calm;
     weather_source := weather_source Scenario.calm;
     db_fault := fault |}.

(** The carrier code DL followed by a no-break space, U+00A0, which UTF-8
    writes in the two bytes 194 and 160; a file with a row of that carrier,
    its two carrier columns, and a bucket that holds it. *)
Definition padded_code : string := "DL" +:+ String "194" (String "160" "").

Definition padded : list csv_row :=
  [ Scenario.flight_row "ATL" "JFK" padded_code "2024-01-01" 500 (VInt 0) ].

Definition padded_cells (key : string) : result (list (string * pyval)) :=
  Ok [(padded_code, VInt 19790)].

Definition padded_env : env :=
  {| s3_listing := Ok ["raw/padded.csv"];
     s3_csv := λ _, Ok padded;
     s3_airports := Raise StorageError;
     weather_source := Scenario.two_observations;
     db_fault := λ _, false |}.

(** A row of a flights file that has no Origin column. *)
Definition no_origin (dest carrier flight_date : string) : csv_row :=
  {| Origin := VNone;
     Dest := VStr dest;
     Reporting_Airline := VStr carrier;
     FlightDate := VStr flight_date;
     row_get := λ _, VNone |}.

(** The local directory of the upload stage: a flights file, a CSV about
    airports, a text file and the reference file. *)
Definition raw_dir : list (string * string) :=
  [ ("january.csv", "FlightDate,Reporting_Airline,Origin,Dest");
    ("airport_codes.csv", "code,name");
    ("notes.txt", "to do");
    ("airports.dat", "1,Hartsfield Jackson,Atlanta") ].

End Samples.

(** * Properties *)

(** ** Tasks, transactions and the monad laws the proofs use *)

Lemma task_bind_inv {A B} (m : task A) (k : A → task B) w w' r :
  (m ≫= k) w = (w', r) →
  (∃ w1 a, m w = (w1, Ok a) ∧ k a w1 = (w', r)) ∨
  (∃ e, m w = (w', Raise e) ∧ r = Raise e).
Proof.
  unfold mbind, task_bind. destruct (m w) as [w1 [a|e]]; intros Hk.
  - left. eauto.
  - right. exists e. by inversion Hk.
Qed.

Lemma task_bind_ok {A B} (m : task A) (k : A → task B) w w1 a :
  m w = (w1, Ok a) → (m ≫= k) w = k a w1.
Proof. unfold mbind, task_bind. by intros ->. Qed.


Lemma get_connection_inv {A} E op (body : task A) w w' r :
  get_connection E op body w = (w', r) →
  (db_fault E op = true ∧ w' = w ∧ r = Raise DatabaseError) ∨
  (db_fault E op = false ∧ ∃ a, body w = (w', Ok a) ∧ r = Ok a) ∨
  (db_fault E op = false ∧ ∃ w2 e, body w = (w2, Raise e) ∧
     w' = {| w_db := w_db w; w_clock := w_clock w2 |} ∧ r = Raise e).
Proof.
  unfold get_connection. destruct (db_fault E op).
  - intros [= <- <-]. by left.
  - destruct (body w) as [w2 [a|e]]; intros [= <- <-]; right; [left|right].
    + split; [done|]. by exists a.
    + split; [done|]. by exists w2, e.
Qed.

Lemma get_connection_ok_inv {A} E op (body : task A) w w' a :
  get_connection E op body w = (w', Ok a) →
  db_fault E op = false ∧ body w = (w', Ok a).
Proof.
  intros Hc. apply get_connection_inv in Hc as [(_ & _ & ?)|[(? & a' & ? & ?)|(_ & ? & ? & _ & _ & ?)]];
    simplify_eq; done.
Qed.

(** ** The coercion helpers of [db_helper] *)

Section CoercionFacts.
Context `{Extern}.

Lemma except_value_type_ok {A} (a d : A) : except_value_type (Ok a) d = Ok a.
Proof. done. Qed.

(** A value that [float()] refuses becomes [None] in [safe_float]. *)
Lemma safe_float_unparseable v e :
  py_float v = Raise e → safe_float v = Ok None.
Proof.
  unfold safe_float. destruct (pd_isna v || is_empty_str v); [done|].
  intros Hf. rewrite Hf. simpl.
  destruct v as [|f|n|b|s]; simpl in *; try discriminate.
  - by simplify_eq.
  - destruct (float_of_str s); by simplify_eq.
Qed.

Lemma safe_float_parsed v f :
  pd_isna v = false → is_empty_str v = false → py_float v = Ok f →
  safe_float v = Ok (Some f).
Proof. unfold safe_float. by intros -> -> ->. Qed.

(** A value that [float()] refuses becomes [None] in [safe_int]. *)
Lemma safe_int_unparseable v e :
  py_float v = Raise e → safe_int v = Ok None.
Proof.
  unfold safe_int. destruct (pd_isna v || is_empty_str v); [done|].
  intros Hf. rewrite Hf. simpl.
  destruct v as [|f|n|b|s]; simpl in *; try discriminate.
  - by simplify_eq.
  - destruct (float_of_str s); by simplify_eq.
Qed.

Lemma safe_int_missing v : pd_isna v = true → safe_int v = Ok None.
Proof. unfold safe_int. by intros ->. Qed.

Lemma safe_str_spec v :
  safe_str v =
    if pd_isna v || is_empty_str v then None else Some (PyStr.strip (py_str v)).
Proof. done. Qed.

(** [safe_bool] returns a boolean on every value whose float is not an
    infinity, and [False] on the values [float()] or [int()] refuse. *)
Lemma safe_bool_returns v :
  (∀ neg, py_float v ≠ Ok (FInf neg)) → ∃ b, safe_bool v = Ok b.
Proof.
  intros Hinf. unfold safe_bool.
  destruct (py_float v) as [[| neg |q]|e] eqn:Hf; simpl.
  - by exists false.
  - by destruct (Hinf neg).
  - eauto.
  - exists false. destruct v as [|f|n|b|s]; simpl in *; simplify_eq; try done.
    destruct (float_of_str s); by simplify_eq.
Qed.

Lemma safe_bool_missing v : pd_isna v = true → safe_bool v = Ok false.
Proof. by destruct v as [|[]| | |]. Qed.

Lemma safe_bool_unparseable v e : py_float v = Raise e → safe_bool v = Ok false.
Proof.
  unfold safe_bool. intros Hf. rewrite Hf. simpl.
  destruct v as [|f|n|b|s]; simpl in *; simplify_eq; try done.
  destruct (float_of_str s); by simplify_eq.
Qed.

(** C7. The null-safety policy of the coercion helpers says that a string
    which is empty once trimmed becomes null.  [safe_str] tests emptiness
    before it trims: on a cell of three spaces it returns the empty
    string, not [None], although the trimmed cell is empty. *)
Theorem safe_str_whitespace_only :
  PyStr.strip "   " = "" ∧
  safe_str (VStr "   ") = Some "" ∧
  safe_str (VStr "   ") ≠ None.
Proof. by vm_compute. Qed.

(** [str.strip()] removes the whitespace beyond ASCII as well: here an
    ideographic space, U+3000, before a code and a no-break space, U+00A0,
    and a line feed after it; a no-break space inside stays. *)
Example strip_unicode_whitespace :
  PyStr.strip (String "227" (String "128" (String "128"
                 ("DL" +:+ String "194" (String "160" (String "010" ""))))))
    = "DL" ∧
  PyStr.strip ("D" +:+ String "194" (String "160" "L")) =
    "D" +:+ String "194" (String "160" "L") ∧
  PyStr.len ("D" +:+ String "194" (String "160" "L")) = 3%nat.
Proof. by vm_compute. Qed.

(** C10. [safe_bool] is meant to return a boolean on every value.  On an
    infinite float [int()] raises [OverflowError], which the handler for
    [ValueError] and [TypeError] does not catch, so the call raises. *)
Theorem safe_bool_infinity_raises :
  safe_bool (VFloat (FInf false)) = Raise OverflowError ∧
  safe_bool (VFloat (FInf true)) = Raise OverflowError ∧
  ¬ ∃ b, safe_bool (VFloat (FInf false)) = Ok b.
Proof. vm_compute. split_and!; [done..|]. by intros [b ?]. Qed.

End CoercionFacts.

(** ** Occurrences of a string in another *)

Module PyStrFacts.
Import PyStr.

Lemma prefix_app s t : String.prefix s (s +:+ t) = true.
Proof.
  induction s as [|c s IH]; [by destruct t|].
  change (String c s +:+ t) with (String c (s +:+ t)). cbn [String.prefix].
  by destruct (ascii_dec c c).
Qed.

Lemma contains_app_l s t : contains s (s +:+ t) = true.
Proof.
  destruct (s +:+ t) eqn:Hst; cbn [contains];
    rewrite <- Hst, prefix_app; done.
Qed.

Lemma contains_app_r sub a b : contains sub b = true → contains sub (a +:+ b) = true.
Proof.
  intros Hb. induction a as [|c a IH]; [done|].
  change (String c a +:+ b) with (String c (a +:+ b)). cbn [contains].
  rewrite IH. apply orb_true_r.
Qed.

Lemma contains_refl s : contains s s = true.
Proof.
  pose proof (contains_app_l s "") as Hs.
  assert (s +:+ "" = s) as Heq.
  { clear Hs. induction s as [|c s IH]; [done|].
    change (String c s +:+ "") with (String c (s +:+ "")). by f_equal. }
  by rewrite Heq in Hs.
Qed.

(** Every part occurs in the joined string. *)
Lemma contains_join sep part parts :
  part ∈ parts → contains part (join sep parts) = true.
Proof.
  induction parts as [|p ps IH]; intros Hin; [by apply elem_of_nil in Hin|].
  apply elem_of_cons in Hin as [->|Hin].
  - destruct ps as [|p' ps]; [apply contains_refl|].
    cbn [join]. apply contains_app_l.
  - destruct ps as [|p' ps]; [by apply elem_of_nil in Hin|].
    cbn [join]. do 2 apply contains_app_r. by apply IH.
Qed.

End PyStrFacts.

(** ** Step A of [load_flights]: the partition of the rows *)

Section Partition.
Context `{Extern}.

Lemma numbered_cons idx row rest :
  numbered idx (row :: rest) = (idx, row) :: numbered (idx + 1) rest.
Proof.
  unfold numbered. rewrite imap_cons. f_equal; [f_equal; lia|].
  apply imap_ext. intros i x _. simpl. f_equal. lia.
Qed.

Lemma reasons_nil_iff va vc vd o d c fd :
  rejection_reasons va vc vd o d c fd = [] ↔ o ∈ va ∧ d ∈ va ∧ c ∈ vc ∧ fd ∈ vd.
Proof.
  unfold rejection_reasons.
  repeat case_bool_decide; simpl; split; try done; tauto.
Qed.

Lemma reasons_complete va vc vd o d c fd :
  (o ∉ va → "Unknown origin airport: " +:+ o ∈ rejection_reasons va vc vd o d c fd) ∧
  (d ∉ va → "Unknown dest airport: " +:+ d ∈ rejection_reasons va vc vd o d c fd) ∧
  (c ∉ vc → "Unknown carrier: " +:+ c ∈ rejection_reasons va vc vd o d c fd) ∧
  (fd ∉ vd → "Unknown date: " +:+ fd ∈ rejection_reasons va vc vd o d c fd).
Proof.
  unfold rejection_reasons.
  split_and!; intros Hx; rewrite !elem_of_app;
    rewrite (bool_decide_eq_false_2 _ Hx); set_solver.
Qed.

Lemma key_string_spec cell :
  key_string cell =
    if present cell then Ok (PyStr.strip (py_str cell)) else Raise KeyError.
Proof. by destruct cell. Qed.

(** One step of the loop of Step A: a row whose frame lacks a key column
    raises, any other row goes to one of the two lists. *)
Lemma validate_rows_cons va vc vd file_name idx row rest :
  validate_rows va vc vd file_name idx (row :: rest) =
    if has_key_columns row then
      match row_reasons va vc vd row with
      | [] =>
          f ← valid_tuple row (row_origin row) (row_dest row) (row_carrier row)
                (row_flight_date row);
          '(valid_rows, rejected_rows) ← validate_rows va vc vd file_name (idx + 1) rest;
          Ok (f :: valid_rows, rejected_rows)
      | reasons =>
          '(valid_rows, rejected_rows) ← validate_rows va vc vd file_name (idx + 1) rest;
          Ok (valid_rows,
              rejected_tuple file_name idx (row_origin row) (row_dest row)
                (row_carrier row) (row_flight_date row) reasons
                :: rejected_rows)
      end
    else Raise KeyError.
Proof.
  cbn [validate_rows]. rewrite !key_string_spec.
  unfold has_key_columns, row_reasons, row_origin, row_dest, row_carrier, row_flight_date.
  destruct (present (Origin row)); [|done].
  destruct (present (Dest row)); [|done].
  destruct (present (Reporting_Airline row)); [|done].
  by destruct (present (FlightDate row)).
Qed.

(** Rows that have their key columns, and whose accepted ones all build
    their tuple: then Step A returns. *)
Lemma validate_rows_returns va vc vd file_name idx chunk :
  Forall (λ row, has_key_columns row = true) chunk →
  (∀ row, row ∈ chunk → row_reasons va vc vd row = [] →
     ∃ f, valid_tuple row (row_origin row) (row_dest row) (row_carrier row)
                      (row_flight_date row) = Ok f) →
  ∃ vs rs, validate_rows va vc vd file_name idx chunk = Ok (vs, rs).
Proof.
  revert idx. induction chunk as [|row rest IH]; intros idx Hcols Hb; [by eauto|].
  apply Forall_cons in Hcols as [Hrow Hcols].
  destruct (IH (idx + 1) Hcols) as (vs & rs & Hrest).
  { intros r Hr. apply Hb. by right. }
  rewrite validate_rows_cons, Hrow, Hrest. simpl.
  destruct (row_reasons _ _ _ _) eqn:Hreasons; [|by eauto].
  destruct (Hb row) as [f ->]; [by left|done|]. simpl. eauto.
Qed.

(** The two lists of Step A: the accepted rows in order, each with the
    tuple it built, and the rejected rows in order, each under its frame
    index. *)
Lemma validate_rows_split va vc vd file_name idx chunk vs rs :
  validate_rows va vc vd file_name idx chunk = Ok (vs, rs) →
  Forall2 (λ row f,
             valid_tuple row (row_origin row) (row_dest row) (row_carrier row)
                         (row_flight_date row) = Ok f)
          (filter (λ row, row_reasons va vc vd row = []) chunk) vs ∧
  rs = (λ ir : Z * csv_row,
          rejected_tuple file_name ir.1 (row_origin ir.2) (row_dest ir.2)
            (row_carrier ir.2) (row_flight_date ir.2) (row_reasons va vc vd ir.2)) <$>
       filter (λ ir : Z * csv_row, row_reasons va vc vd ir.2 ≠ []) (numbered idx chunk) ∧
  (length vs + length rs = length chunk)%nat.
Proof.
  revert idx vs rs.
  induction chunk as [|row rest IH]; intros idx vs rs Hv.
  { simpl in Hv. by simplify_eq. }
  rewrite validate_rows_cons in Hv.
  destruct (has_key_columns row); [|done].
  rewrite numbered_cons, !filter_cons. simpl.
  destruct (row_reasons va vc vd row) as [|reason reasons] eqn:Hreasons.
  - destruct (valid_tuple _ _ _ _ _) as [f|] eqn:Hf; simpl in Hv; [|done].
    destruct (validate_rows _ _ _ _ _ rest) as [[vs' rs']|] eqn:Hrest;
      simpl in Hv; [|done].
    simplify_eq. destruct (IH _ _ _ Hrest) as (Hacc & Hrej & Hlen).
    rewrite decide_True by done. rewrite decide_False by (by intros []).
    split_and!; [by constructor|done|simpl; lia].
  - destruct (validate_rows _ _ _ _ _ rest) as [[vs' rs']|] eqn:Hrest;
      simpl in Hv; [|done].
    simplify_eq. destruct (IH _ _ _ Hrest) as (Hacc & Hrej & Hlen).
    rewrite decide_False by done. rewrite decide_True by done.
    split_and!; [done| |simpl; lia].
    rewrite fmap_cons. simpl. rewrite Hreasons. by f_equal.
Qed.

(** C1. Step A rejects a row exactly when one of its origin, destination,
    carrier or date strings is outside the snapshot sets; an accepted row
    has all four inside; each failing check puts its own reason in the list
    that is joined into the rejection string, and that reason occurs in the
    string stored for the row; and the rows of a chunk are split between the
    two lists, each row in exactly one of them under its own frame index. *)
Theorem partition_property (va vc vd : gset string) (file_name : string)
    (idx : Z) (chunk : list csv_row) (vs : list flight) (rs : list rejected_record) :
  validate_rows va vc vd file_name idx chunk = Ok (vs, rs) →
  (∀ row,
     (row_reasons va vc vd row ≠ [] ↔
        row_origin row ∉ va ∨ row_dest row ∉ va ∨
        row_carrier row ∉ vc ∨ row_flight_date row ∉ vd) ∧
     (row_reasons va vc vd row = [] →
        row_origin row ∈ va ∧ row_dest row ∈ va ∧
        row_carrier row ∈ vc ∧ row_flight_date row ∈ vd) ∧
     (row_origin row ∉ va →
        "Unknown origin airport: " +:+ row_origin row ∈ row_reasons va vc vd row) ∧
     (row_dest row ∉ va →
        "Unknown dest airport: " +:+ row_dest row ∈ row_reasons va vc vd row) ∧
     (row_carrier row ∉ vc →
        "Unknown carrier: " +:+ row_carrier row ∈ row_reasons va vc vd row) ∧
     (row_flight_date row ∉ vd →
        "Unknown date: " +:+ row_flight_date row ∈ row_reasons va vc vd row)) ∧
  (∀ rr, rr ∈ rs →
     ∃ row, row ∈ chunk ∧ row_reasons va vc vd row ≠ [] ∧
            rr_rejection_reason rr = PyStr.join "; " (row_reasons va vc vd row) ∧
            ∀ reason, reason ∈ row_reasons va vc vd row →
              PyStr.contains reason (rr_rejection_reason rr) = true) ∧
  Forall2 (λ row f,
             valid_tuple row (row_origin row) (row_dest row) (row_carrier row)
                         (row_flight_date row) = Ok f)
          (filter (λ row, row_reasons va vc vd row = []) chunk) vs ∧
  rs = (λ ir : Z * csv_row,
          rejected_tuple file_name ir.1 (row_origin ir.2) (row_dest ir.2)
            (row_carrier ir.2) (row_flight_date ir.2) (row_reasons va vc vd ir.2)) <$>
       filter (λ ir : Z * csv_row, row_reasons va vc vd ir.2 ≠ []) (numbered idx chunk) ∧
  (length vs + length rs = length chunk)%nat ∧
  (∀ i row, (i, row) ∈ numbered idx chunk → row_reasons va vc vd row ≠ [] →
     ∃ rr, rr ∈ rs ∧ rr_row_number rr = i ∧
       (row_origin row ∉ va →
          PyStr.contains ("Unknown origin airport: " +:+ row_origin row)
            (rr_rejection_reason rr) = true) ∧
       (row_dest row ∉ va →
          PyStr.contains ("Unknown dest airport: " +:+ row_dest row)
            (rr_rejection_reason rr) = true) ∧
       (row_carrier row ∉ vc →
          PyStr.contains ("Unknown carrier: " +:+ row_carrier row)
            (rr_rejection_reason rr) = true) ∧
       (row_flight_date row ∉ vd →
          PyStr.contains ("Unknown date: " +:+ row_flight_date row)
            (rr_rejection_reason rr) = true)).
Proof.
  intros Hv.
  destruct (validate_rows_split _ _ _ _ _ _ _ _ Hv) as (Hacc & Hrej & Hlen).
  split_and!; [| |done..|].
  - intros row. unfold row_reasons.
    pose proof (reasons_nil_iff va vc vd (row_origin row) (row_dest row)
                  (row_carrier row) (row_flight_date row)) as Hnil.
    pose proof (reasons_complete va vc vd (row_origin row) (row_dest row)
                  (row_carrier row) (row_flight_date row)) as (? & ? & ? & ?).
    split_and!; try done.
    + rewrite Hnil. split.
      * intros Hn.
        destruct (decide (row_origin row ∈ va)); [|by auto].
        destruct (decide (row_dest row ∈ va)); [|by auto].
        destruct (decide (row_carrier row ∈ vc)); [|by auto].
        destruct (decide (row_flight_date row ∈ vd)); [|by auto].
        by destruct Hn.
      * tauto.
    + by rewrite Hnil.
  - intros rr Hrr. rewrite Hrej in Hrr.
    apply list_elem_of_fmap in Hrr as ([i row] & -> & Hin).
    apply list_elem_of_filter in Hin as [Hreasons Hin]. simpl in *.
    exists row. split_and!; [|done..|].
    + unfold numbered in Hin. apply list_elem_of_lookup in Hin as [k Hk].
      rewrite list_lookup_imap in Hk.
      destruct (chunk !! k) as [row'|] eqn:Hrow; simpl in Hk; [|done].
      simplify_eq. by eapply list_elem_of_lookup_2.
    + intros reason Hreason. by apply PyStrFacts.contains_join.
  - intros i row Hin Hreasons.
    exists (rejected_tuple file_name i (row_origin row) (row_dest row)
              (row_carrier row) (row_flight_date row) (row_reasons va vc vd row)).
    pose proof (reasons_complete va vc vd (row_origin row) (row_dest row)
                  (row_carrier row) (row_flight_date row)) as (Ho & Hd & Hc & Hf).
    split_and!; [|done|..].
    + rewrite Hrej. apply list_elem_of_fmap. exists (i, row). split; [done|].
      by apply list_elem_of_filter.
    + intros Hx. apply PyStrFacts.contains_join. by apply Ho.
    + intros Hx. apply PyStrFacts.contains_join. by apply Hd.
    + intros Hx. apply PyStrFacts.contains_join. by apply Hc.
    + intros Hx. apply PyStrFacts.contains_join. by apply Hf.
Qed.

End Partition.

Section PartitionExamples.
#[local] Existing Instance Reference.extern.

(** Of the three rows of the January file the second is rejected for its
    origin and its carrier and the third for its date. *)
Lemma partition_property_witness :
  ∃ vs rs,
    validate_rows Scenario.valid_airports Scenario.valid_carriers Scenario.valid_dates
      "january.csv" 0 Scenario.january = Ok (vs, rs) ∧
    (length vs + length rs = 3)%nat ∧
    (λ rr, (rr_row_number rr, rr_rejection_reason rr)) <$> rs =
      [(1, "Unknown origin airport: XXX; Unknown carrier: ZZ");
       (2, "Unknown date: 2024-01-02")] ∧
    ∃ rr, rr ∈ rs ∧ rr_row_number rr = 1 ∧
      PyStr.contains "Unknown origin airport: XXX" (rr_rejection_reason rr) = true ∧
      PyStr.contains "Unknown carrier: ZZ" (rr_rejection_reason rr) = true.
Proof.
  eexists _, _. split; [vm_compute; reflexivity|].
  destruct (partition_property Scenario.valid_airports Scenario.valid_carriers
              Scenario.valid_dates "january.csv" 0 Scenario.january _ _
              ltac:(vm_compute; reflexivity))
    as (_ & _ & _ & _ & Hlen & Hrows).
  split; [exact Hlen|]. split; [vm_compute; reflexivity|].
  destruct (Hrows 1 (Scenario.flight_row "XXX" "JFK" "ZZ" "2024-01-01" 101 (VInt 0)))
    as (rr & Hin & Hnum & Horigin & _ & Hcarrier & _).
  - right. left.
  - vm_compute. discriminate.
  - exists rr. split_and!; [exact Hin|exact Hnum| |].
    + apply Horigin. vm_compute. intros Hx. discriminate Hx.
    + apply Hcarrier. vm_compute. intros Hx. discriminate Hx.
Defined.

End PartitionExamples.

(** ** The calendar: formatting and parsing a date are inverse *)

Module CalendarFacts.
Import Calendar.

Lemma digit_val_char k : 0 ≤ k ≤ 9 → digit_val (digit_char k) = Some k.
Proof.
  intros Hk.
  assert (k = 0 ∨ k = 1 ∨ k = 2 ∨ k = 3 ∨ k = 4 ∨ k = 5 ∨ k = 6 ∨ k = 7 ∨ k = 8 ∨ k = 9)
    as Hcases by lia.
  destruct_or!; subst; reflexivity.
Qed.

Lemma parse_year_fmt4 y rest :
  0 ≤ y ≤ 9999 → parse_year (fmt4 y rest) = Some (y, rest).
Proof.
  intros Hy. unfold fmt4, fmt2, parse_year.
  assert (∀ n, 0 ≤ n mod 10 ≤ 9) as Hmod
    by (intros n; pose proof (Z.mod_pos_bound n 10); lia).
  rewrite !digit_val_char by apply Hmod.
  do 2 f_equal.
  pose proof (Z.div_mod y 10 ltac:(lia)).
  pose proof (Z.div_mod (y / 10) 10 ltac:(lia)).
  pose proof (Z.div_mod (y / 100) 10 ltac:(lia)).
  pose proof (Z.div_mod (y / 1000) 10 ltac:(lia)).
  replace (y / 100) with (y / 10 / 10) in * by (rewrite Z.div_div; [done|lia..]).
  replace (y / 1000) with (y / 10 / 10 / 10) in * by (rewrite !Z.div_div; [done|lia..]).
  assert (y / 10 / 10 / 10 / 10 = 0).
  { rewrite !Z.div_div by lia. apply Z.div_small. lia. }
  lia.
Qed.

(** Every month and day of the calendar is read back from its two digits. *)
Lemma parse_month_day_table :
  Forall (λ m, Forall (λ d,
            parse_month_day (fmt2 m (String "-" (fmt2 d ""))) = Some (m, d, ""))
          (seqZ 1 31)) (seqZ 1 12).
Proof. apply (bool_decide_unpack _). vm_compute. exact I. Qed.

Lemma parse_month_day_fmt2 m d :
  1 ≤ m ≤ 12 → 1 ≤ d ≤ 31 →
  parse_month_day (fmt2 m (String "-" (fmt2 d ""))) = Some (m, d, "").
Proof.
  intros Hm Hd. pose proof parse_month_day_table as Ht.
  rewrite Forall_forall in Ht. specialize (Ht m).
  rewrite elem_of_seqZ, Forall_forall in Ht.
  apply Ht; [lia|]. rewrite elem_of_seqZ. lia.
Qed.

Lemma days_in_month_le y m : days_in_month y m ≤ 31.
Proof. unfold days_in_month. repeat case_match; lia. Qed.

Lemma strptime_isoformat d : valid_date d → strptime (isoformat d) = Ok d.
Proof.
  intros Hv. pose proof Hv as Hb. unfold valid_date, valid_dateb in Hb.
  rewrite !andb_true_iff, !Z.leb_le in Hb.
  destruct Hb as (((((Hy1 & Hy2) & Hm1) & Hm2) & Hd1) & Hd2).
  pose proof (days_in_month_le (year d) (month d)).
  unfold strptime, isoformat.
  rewrite parse_year_fmt4 by lia.
  rewrite parse_month_day_fmt2 by lia.
  destruct d as [y m dd]. simpl in *. by rewrite Hv.
Qed.

Lemma strptime_valid s d : strptime s = Ok d → valid_date d.
Proof.
  unfold strptime, valid_date. repeat case_match; try discriminate.
  by intros [= <-].
Qed.

Lemma isoformat_inj d1 d2 :
  valid_date d1 → valid_date d2 → isoformat d1 = isoformat d2 → d1 = d2.
Proof.
  intros H1 H2 Heq. apply strptime_isoformat in H1, H2.
  rewrite Heq in H1. congruence.
Qed.

Lemma weekday_range d : 0 ≤ weekday d < 7.
Proof. unfold weekday. apply Z.mod_pos_bound. lia. Qed.

(** The weekend flag is set exactly on the days named Saturday and Sunday. *)
Lemma weekend_iff_name d :
  (5 <=? weekday d) = true ↔ day_name d = "Saturday" ∨ day_name d = "Sunday".
Proof.
  pose proof (weekday_range d) as Hr. unfold day_name.
  assert (weekday d = 0 ∨ weekday d = 1 ∨ weekday d = 2 ∨ weekday d = 3 ∨
          weekday d = 4 ∨ weekday d = 5 ∨ weekday d = 6) as Hcases by lia.
  destruct_or!; rewrite Hcases; simpl; split; intros Hx;
    try done; try (destruct Hx; discriminate); auto.
Qed.

(** The name is the one of the index, Monday first. *)
Lemma day_name_index d :
  nth_error ["Monday"; "Tuesday"; "Wednesday"; "Thursday"; "Friday"; "Saturday"; "Sunday"]
            (Z.to_nat (weekday d)) = Some (day_name d).
Proof.
  pose proof (weekday_range d) as Hr. unfold day_name.
  assert (weekday d = 0 ∨ weekday d = 1 ∨ weekday d = 2 ∨ weekday d = 3 ∨
          weekday d = 4 ∨ weekday d = 5 ∨ weekday d = 6) as Hcases by lia.
  destruct_or!; rewrite Hcases; reflexivity.
Qed.

(** The day after a day of the same month is the next day of the week. *)
Lemma weekday_next y m dd :
  weekday (mkDate y m (dd + 1)) = (weekday (mkDate y m dd) + 1) mod 7.
Proof.
  unfold weekday, toordinal. simpl.
  rewrite Zplus_mod_idemp_l. f_equal. lia.
Qed.

Lemma days_before_month_succ y m :
  1 ≤ m → days_before_month y (m + 1) = days_before_month y m + days_in_month y m.
Proof.
  intros Hm. unfold days_before_month.
  replace (Z.to_nat (m + 1 - 1)) with (S (Z.to_nat (m - 1))) by lia.
  cbn [days_before_month_aux]. do 2 f_equal. lia.
Qed.

Lemma days_before_december y :
  days_before_month y 12 + 31 = if is_leap y then 366 else 365.
Proof.
  unfold days_before_month. change (Z.to_nat (12 - 1)) with 11%nat.
  cbn [days_before_month_aux]. unfold days_in_month. simpl.
  destruct (is_leap y); lia.
Qed.

Lemma days_before_year_succ y :
  days_before_year (y + 1) = days_before_year y + if is_leap y then 366 else 365.
Proof.
  unfold days_before_year, is_leap. cbv zeta.
  replace (y + 1 - 1) with y by lia.
  destruct (Z.eqb_spec (y mod 4) 0) as [H4|H4];
    destruct (Z.eqb_spec (y mod 100) 0) as [H100|H100];
    destruct (Z.eqb_spec (y mod 400) 0) as [H400|H400]; simpl;
    Z.div_mod_to_equations; lia.
Qed.

(** The day after a day is the next day of the week. *)
Lemma toordinal_next_day d : valid_date d → toordinal (next_day d) = toordinal d + 1.
Proof.
  intros Hv. unfold valid_date, valid_dateb in Hv.
  rewrite !andb_true_iff, !Z.leb_le in Hv.
  destruct Hv as (((((Hy1 & Hy2) & Hm1) & Hm2) & Hd1) & Hd2).
  unfold next_day, toordinal.
  destruct (Z.ltb_spec (day d) (days_in_month (year d) (month d))) as [Hlt|Hge];
    [simpl; lia|].
  destruct (Z.ltb_spec (month d) 12) as [Hm|Hm]; simpl.
  - rewrite days_before_month_succ by done. lia.
  - assert (month d = 12) as Hdec by lia. rewrite Hdec in *.
    rewrite days_before_year_succ.
    pose proof (days_before_december (year d)).
    change (days_in_month (year d) 12) with 31 in *.
    change (days_before_month (year d + 1) 1) with 0. lia.
Qed.

Lemma weekday_next_day d :
  valid_date d → weekday (next_day d) = (weekday d + 1) mod 7.
Proof.
  intros Hv. unfold weekday. rewrite toordinal_next_day by done.
  rewrite Zplus_mod_idemp_l. f_equal. lia.
Qed.

Example weekday_new_year_2024 : day_name (mkDate 2024 1 1) = "Monday".
Proof. reflexivity. Qed.

Example weekday_leap_day_2024 : day_name (mkDate 2024 2 29) = "Thursday".
Proof. reflexivity. Qed.

End CalendarFacts.

#[global] Arguments Calendar.strptime : simpl never.
#[global] Arguments Calendar.isoformat : simpl never.
#[global] Arguments Calendar.weekday : simpl never.
#[global] Arguments Calendar.day_name : simpl never.

(** ** [ensure_dates_exist] and the date step of [load_flights] *)

Section Dates.
Context `{Extern}.
Variable E : env.

Lemma lookup_insert_do_nothing `{Countable K} {V} (k k' : K) (v : V) (t : gmap K V) :
  insert_do_nothing k v t !! k' =
    if decide (k = k') then Some (default v (t !! k)) else t !! k'.
Proof.
  unfold insert_do_nothing. destruct (t !! k) as [x|] eqn:Hk; simpl.
  - case_decide; by simplify_eq.
  - rewrite lookup_insert. by case_decide.
Qed.

Lemma insert_dates_keeps args t n t' n' d x :
  insert_dates args t n = Ok (t', n') → t !! d = Some x → t' !! d = Some x.
Proof.
  revert t n. induction args as [|a args IH]; intros t n Hi Hd; simpl in Hi.
  { by simplify_eq. }
  destruct (date_of_arg a) as [d0|] eqn:Ha; simpl in Hi; [|done].
  eapply IH; [done|]. rewrite lookup_insert_do_nothing.
  case_decide; [|done]. subst. by rewrite Hd.
Qed.

Lemma insert_dates_adds (l : list string) t n :
  Forall (λ s, ∃ d, Calendar.valid_date d ∧ s = Calendar.isoformat d) l →
  ∃ t', insert_dates (DStr <$> l) t n = Ok (t', n + Z.of_nat (length l)) ∧
        (∀ d, Calendar.valid_date d → Calendar.isoformat d ∈ l →
              t' !! d = Some (default (date_attrs d) (t !! d))) ∧
        (∀ d, Calendar.isoformat d ∉ l → t' !! d = t !! d).
Proof.
  revert t n. induction l as [|s l IH]; intros t n Hl.
  { exists t. simpl. split_and!; [do 2 f_equal; lia| |done].
    intros d _ Hd. by apply elem_of_nil in Hd. }
  apply Forall_cons in Hl as [(d0 & Hv0 & ->) Hl].
  destruct (IH (insert_do_nothing d0 (date_attrs d0) t) (n + 1) Hl)
    as (t' & Hrun & Hadd & Hframe).
  exists t'. rewrite fmap_cons. cbn [insert_dates date_of_arg].
  rewrite CalendarFacts.strptime_isoformat by done. cbn [mbind result_bind].
  split_and!.
  - rewrite Hrun. cbn [length]. do 2 f_equal. lia.
  - intros d Hv Hd. destruct (decide (d = d0)) as [->|Hne].
    + eapply insert_dates_keeps; [done|].
      rewrite lookup_insert_do_nothing. by rewrite decide_True.
    + apply elem_of_cons in Hd as [Heq|Hd].
      { by apply CalendarFacts.isoformat_inj in Heq. }
      rewrite (Hadd d Hv Hd), lookup_insert_do_nothing.
      by rewrite decide_False.
  - intros d Hd. apply not_elem_of_cons in Hd as [Hne Hd].
    rewrite (Hframe d Hd), lookup_insert_do_nothing.
    rewrite decide_False; [done|]. by intros ->.
Qed.

Lemma ensure_dates_exist_run args w :
  ensure_dates_exist E args w =
    if db_fault E OpEnsureDates then (w, Raise DatabaseError)
    else match insert_dates args (date_dim (w_db w)) 0 with
         | Ok (t, added) =>
             ({| w_db := set_date_dim t (w_db w); w_clock := w_clock w |}, Ok added)
         | Raise e => (w, Raise e)
         end.
Proof.
  unfold ensure_dates_exist, get_connection.
  destruct (db_fault E OpEnsureDates); [done|].
  unfold mbind, task_bind, read_db, lift. simpl.
  destruct (insert_dates _ _ _) as [[t added]|e]; simpl; [done|].
  by destruct w.
Qed.

Lemma file_dates_spec df ds :
  file_dates df = Ok ds →
  Forall2 (λ row s, ∃ d, to_datetime (FlightDate row) = Ok d ∧
                         Calendar.valid_date d ∧ s = Calendar.isoformat d) df ds.
Proof.
  revert ds. induction df as [|row df IH]; intros ds Hf; simpl in Hf.
  { simplify_eq. constructor. }
  destruct (getitem (FlightDate row)) as [cell|] eqn:Hcell; simpl in Hf; [|done].
  assert (cell = FlightDate row) as ->
    by (destruct (FlightDate row); simpl in Hcell; by simplify_eq).
  destruct (to_datetime (FlightDate row)) as [d|] eqn:Hd; simpl in Hf; [|done].
  destruct (file_dates df) as [ds'|]; simpl in Hf; [|done].
  simplify_eq. constructor; [|by apply IH].
  exists d. split_and!; [done| |done]. by eapply to_datetime_valid.
Qed.

(** The date step returns when the dates of the file parse and the round
    trip does not fail; it leaves the snapshot extended with the dates of the
    file, and in [date_dim] a row for each of them. *)
Lemma add_missing_dates_returns valid_dates df ds w :
  file_dates df = Ok ds →
  db_fault E OpEnsureDates = false →
  ∃ t,
    add_missing_dates E valid_dates df w =
      (with_dates t w, Ok (valid_dates ∪ list_to_set ds)) ∧
    (∀ d, Calendar.valid_date d → Calendar.isoformat d ∈ ds →
          Calendar.isoformat d ∉ valid_dates →
          t !! d = Some (default (date_attrs d) (date_dim (w_db w) !! d))) ∧
    (∀ d x, date_dim (w_db w) !! d = Some x → t !! d = Some x).
Proof.
  intros Hf Hfault. unfold add_missing_dates.
  unfold mbind at 1, task_bind at 1, lift at 1. rewrite Hf.
  case_bool_decide as Hempty.
  - exists (date_dim (w_db w)). split_and!.
    + unfold mret, task_ret, with_dates. f_equal.
      * by destruct w as [[] ?].
      * f_equal. apply leibniz_equiv. intros x.
        destruct (decide (x ∈ valid_dates)); set_solver.
    + intros d _ Hin Hnot. exfalso.
      assert (Calendar.isoformat d ∈ (list_to_set ds : gset string) ∖ valid_dates) as Hd.
      { apply elem_of_difference. split; [by apply elem_of_list_to_set|done]. }
      rewrite Hempty in Hd. by apply elem_of_empty in Hd.
    + done.
  - destruct (insert_dates_adds
                (elements ((list_to_set ds : gset string) ∖ valid_dates))
                (date_dim (w_db w)) 0)
      as (t & Hrun & Hadd & Hframe).
    { apply Forall_forall. intros s Hs. apply elem_of_elements in Hs.
      assert (s ∈ ds) as Hds by set_solver.
      apply file_dates_spec in Hf.
      apply (Forall2_flip) in Hf.
      destruct (proj1 (list_elem_of_lookup ds s) Hds) as [i Hi].
      destruct (Forall2_lookup_l _ _ _ _ _ Hf Hi) as (row & _ & d & _ & Hv & ->).
      by exists d. }
    exists t. split_and!.
    + unfold mbind, task_bind. rewrite ensure_dates_exist_run, Hfault, Hrun.
      unfold mret, task_ret, with_dates. do 2 f_equal.
      apply leibniz_equiv. intros x.
      destruct (decide (x ∈ valid_dates)); set_solver.
    + intros d Hv Hin Hnot. apply Hadd; [done|].
      apply elem_of_elements. set_solver.
    + intros d x Hd. by eapply insert_dates_keeps.
Qed.

End Dates.

Section DateStep.
Context `{Extern}.
Variable E : env.

Lemma quarter_is_ceiling m : (m - 1) / 3 + 1 = Qceiling (Qmake m 3).
Proof.
  unfold Qceiling, Qfloor, Qopp. simpl.
  pose proof (Z.div_mod (m - 1) 3 ltac:(lia)).
  pose proof (Z.mod_pos_bound (m - 1) 3 ltac:(lia)).
  pose proof (Z.div_mod (- m) 3 ltac:(lia)).
  pose proof (Z.mod_pos_bound (- m) 3 ltac:(lia)).
  lia.
Qed.

Lemma get_season_cases m :
  (m = 12 ∨ m = 1 ∨ m = 2 → get_season m = "Winter") ∧
  (m = 3 ∨ m = 4 ∨ m = 5 → get_season m = "Spring") ∧
  (m = 6 ∨ m = 7 ∨ m = 8 → get_season m = "Summer") ∧
  (¬ (m = 12 ∨ 1 ≤ m ≤ 8) → get_season m = "Fall").
Proof.
  unfold get_season. split_and!; intros Hm.
  - destruct_or!; by subst.
  - destruct_or!; by subst.
  - destruct_or!; by subst.
  - repeat case_match; try done;
      repeat match goal with
             | Hx : (_ || _) = true |- _ => apply orb_true_iff in Hx as [Hx|Hx]
             | Hx : (_ =? _) = true |- _ => apply Z.eqb_eq in Hx
             end; lia.
Qed.

(** C5. With the file fetched, its dates parsed and the round trip to
    [date_dim] working, the date step of [load_flights] runs before the
    chunk loop: it leaves every date of the file in the snapshot the rows are
    then validated against, and for a date the snapshot lacked a row of
    [date_dim] (the one already there if the table had it, else the tuple of
    [ensure_dates_exist]).  That tuple is a function of the date alone:
    quarter = ceil(month/3), day of week and weekday name from the calendar
    with Monday first, the weekend flag exactly on Saturday and Sunday, and
    the season Winter for months 12, 1, 2, Spring for 3-5, Summer for 6-8 and
    Fall otherwise.  The day of week is the one of the calendar: 6 January
    2024 is a Saturday, and the day after a day is the next day of the
    week. *)
Theorem missing_dates_inserted_before_validation (chunk_size : Z) (va vc vd : gset string)
    (file_key : string) (df : list csv_row) (ds : list string) (w : world) :
  s3_csv E file_key = Ok df →
  file_dates df = Ok ds →
  db_fault E OpEnsureDates = false →
  ∃ t : gmap date date_row,
    let w0 := {| w_db := w_db w; w_clock := w_clock w + 1 |} in
    let w1 := with_dates t w0 in
    let vd1 := vd ∪ list_to_set ds in
    add_missing_dates E vd df w0 = (w1, Ok vd1) ∧
    load_file E chunk_size va vc vd file_key w =
      ('(file_loaded, file_rejected) ←
         process_chunks E chunk_size va vc vd1 (PyStr.last_segment file_key)
           (chunks_of (length df) (Z.to_nat chunk_size) 0 df) 0 0;
       log_file E (PyStr.last_segment file_key) (Z.of_nat (length df))
         file_loaded file_rejected (w_clock w);;
       mret (vd1, file_loaded, file_rejected)) w1 ∧
    (∀ row, row ∈ df →
       ∃ d, to_datetime (FlightDate row) = Ok d ∧
            Calendar.isoformat d ∈ vd1 ∧
            (Calendar.isoformat d ∉ vd →
               date_dim (w_db w1) !! d =
                 Some (default (date_attrs d) (date_dim (w_db w) !! d)))) ∧
    (∀ d : date,
       dd_quarter (date_attrs d) = Qceiling (Qmake (month d) 3) ∧
       dd_day_of_week (date_attrs d) = Calendar.weekday d ∧
       0 ≤ Calendar.weekday d < 7 ∧
       nth_error ["Monday"; "Tuesday"; "Wednesday"; "Thursday"; "Friday";
                  "Saturday"; "Sunday"]
                 (Z.to_nat (Calendar.weekday d)) = Some (dd_day_name (date_attrs d)) ∧
       (dd_is_weekend (date_attrs d) = true ↔
          dd_day_name (date_attrs d) = "Saturday" ∨
          dd_day_name (date_attrs d) = "Sunday") ∧
       (month d = 12 ∨ month d = 1 ∨ month d = 2 →
          dd_season (date_attrs d) = "Winter") ∧
       (month d = 3 ∨ month d = 4 ∨ month d = 5 →
          dd_season (date_attrs d) = "Spring") ∧
       (month d = 6 ∨ month d = 7 ∨ month d = 8 →
          dd_season (date_attrs d) = "Summer") ∧
       (¬ (month d = 12 ∨ 1 ≤ month d ≤ 8) →
          dd_season (date_attrs d) = "Fall")) ∧
    dd_day_of_week (date_attrs (mkDate 2024 1 6)) = 5 ∧
    dd_day_name (date_attrs (mkDate 2024 1 6)) = "Saturday" ∧
    (∀ d : date,
       Calendar.valid_date d →
       dd_day_of_week (date_attrs (Calendar.next_day d)) =
         (dd_day_of_week (date_attrs d) + 1) mod 7).
Proof.
  intros Hcsv Hf Hfault.
  destruct (add_missing_dates_returns E vd df ds
              {| w_db := w_db w; w_clock := w_clock w + 1 |} Hf Hfault)
    as (t & Hadd & Hnew & Hold).
  exists t. cbv zeta. split_and!.
  - done.
  - unfold load_file.
    rewrite (task_bind_ok dt_now _ w {| w_db := w_db w; w_clock := w_clock w + 1 |}
               (w_clock w)) by done.
    rewrite (task_bind_ok (lift (s3_csv E file_key)) _ _
               {| w_db := w_db w; w_clock := w_clock w + 1 |} df)
      by (unfold lift; by rewrite Hcsv).
    by rewrite (task_bind_ok _ _ _ _ _ Hadd).
  - intros row Hrow.
    apply file_dates_spec in Hf.
    destruct (proj1 (list_elem_of_lookup df row) Hrow) as [i Hi].
    destruct (Forall2_lookup_l _ _ _ _ _ Hf Hi) as (s & Hs & d & Hd & Hv & ->).
    exists d. split_and!; [done| |].
    + apply elem_of_union_r, elem_of_list_to_set.
      by eapply list_elem_of_lookup_2.
    + intros Hnot. simpl. apply Hnew; [done| |done].
      by eapply list_elem_of_lookup_2.
  - intros d.
    pose proof (get_season_cases (month d)) as (? & ? & ? & ?).
    split_and!; try done.
    + apply quarter_is_ceiling.
    + apply CalendarFacts.weekday_range.
    + apply CalendarFacts.weekday_range.
    + apply CalendarFacts.day_name_index.
    + apply CalendarFacts.weekend_iff_name.
  - reflexivity.
  - reflexivity.
  - intros d Hv. cbn [date_attrs dd_day_of_week].
    by apply CalendarFacts.weekday_next_day.
Qed.

End DateStep.

Section DateStepExamples.
#[local] Existing Instance Reference.extern.

(** The three days of the file: a Tuesday of winter, a Saturday of summer
    and a Sunday of fall, each with the row the date step leaves for it. *)
Lemma missing_dates_inserted_before_validation_witness :
  ∃ w1 vd1,
    add_missing_dates (Samples.crowded (λ _, false)) Scenario.valid_dates Samples.weekend
      {| w_db := Scenario.dims_db; w_clock := 1 |} = (w1, Ok vd1) ∧
    date_dim (w_db w1) !! mkDate 2024 1 2 =
      Some {| dd_year := 2024; dd_quarter := 1; dd_month := 1; dd_day_of_month := 2;
              dd_day_of_week := 1; dd_day_name := "Tuesday";
              dd_month_name := "January"; dd_is_weekend := false;
              dd_season := "Winter" |} ∧
    date_dim (w_db w1) !! mkDate 2024 7 6 =
      Some {| dd_year := 2024; dd_quarter := 3; dd_month := 7; dd_day_of_month := 6;
              dd_day_of_week := 5; dd_day_name := "Saturday";
              dd_month_name := "July"; dd_is_weekend := true;
              dd_season := "Summer" |} ∧
    date_dim (w_db w1) !! mkDate 2024 10 6 =
      Some {| dd_year := 2024; dd_quarter := 4; dd_month := 10; dd_day_of_month := 6;
              dd_day_of_week := 6; dd_day_name := "Sunday";
              dd_month_name := "October"; dd_is_weekend := true;
              dd_season := "Fall" |}.
Proof.
  destruct (missing_dates_inserted_before_validation (Samples.crowded (λ _, false))
              CHUNK_SIZE Scenario.valid_airports Scenario.valid_carriers
              Scenario.valid_dates "raw/weekend.csv" Samples.weekend
              ["2024-01-02"; "2024-07-06"; "2024-10-06"]
              {| w_db := Scenario.dims_db; w_clock := 0 |})
    as (t & Hadd & _ & Hrows & _).
  - reflexivity.
  - vm_compute. reflexivity.
  - reflexivity.
  - cbn [w_db w_clock] in Hadd. change (0 + 1) with 1 in Hadd.
    eexists _, _. split; [exact Hadd|].
    split_and!.
    + destruct (Hrows (Scenario.flight_row "ATL" "JFK" "DL" "2024-01-02" 200 (VInt 0)))
        as (d & Hd & _ & Hnew); [left|].
      vm_compute in Hd. injection Hd as <-.
      etrans; [apply Hnew|].
      * vm_compute. intros Hin. discriminate.
      * vm_compute. reflexivity.
    + destruct (Hrows (Scenario.flight_row "ATL" "JFK" "DL" "2024-07-06" 201 (VInt 0)))
        as (d & Hd & _ & Hnew); [right; left|].
      vm_compute in Hd. injection Hd as <-.
      etrans; [apply Hnew|].
      * vm_compute. intros Hin. discriminate.
      * vm_compute. reflexivity.
    + destruct (Hrows (Scenario.flight_row "JFK" "ATL" "DL" "2024-10-06" 202 (VInt 0)))
        as (d & Hd & _ & Hnew); [right; right; left|].
      vm_compute in Hd. injection Hd as <-.
      etrans; [apply Hnew|].
      * vm_compute. intros Hin. discriminate.
      * vm_compute. reflexivity.
Defined.

End DateStepExamples.

(** ** [load_airports]: the first row seen for a code is the one kept *)

Section Airports.
Context `{Extern}.
Variable E : env.

Lemma lookup_first_drop_duplicates code seen rows :
  lookup_first code (drop_duplicates seen rows) =
    if decide (code ∈ seen) then None else lookup_first code rows.
Proof.
  revert seen. induction rows as [|[c r] rest IH]; intros seen; simpl.
  { by case_decide. }
  case_bool_decide as Hc; simpl.
  - rewrite IH. repeat case_decide; set_solver.
  - rewrite IH. repeat case_decide; set_solver.
Qed.

Lemma lookup_first_omap code raw :
  lookup_first code (omap (λ r, c ← iata_code r; Some (c, r)) raw) = first_seen code raw.
Proof.
  induction raw as [|r raw IH]; simpl; [done|].
  destruct (iata_code r) as [c|]; simpl; repeat case_decide; by simplify_eq.
Qed.

Lemma lookup_first_valid_iata_rows code raw :
  lookup_first code (valid_iata_rows raw) = first_seen code raw.
Proof.
  unfold valid_iata_rows. rewrite lookup_first_drop_duplicates, decide_False by set_solver.
  apply lookup_first_omap.
Qed.

Lemma insert_airports_spec rows t n t' n' :
  insert_airports rows t n = Ok (t', n') →
  n' = n + Z.of_nat (length rows) ∧
  ∀ code,
    t' !! code =
      match t !! code with
      | Some existing => Some existing
      | None => lookup_first code rows ≫= tuple_of
      end.
Proof.
  revert t n. induction rows as [|[c r] rest IH]; intros t n Hi; simpl in Hi.
  { simplify_eq. split; [simpl; lia|]. intros code. by destruct (_ !! code). }
  destruct (airport_tuple r) as [a|] eqn:Ha; simpl in Hi; [|done].
  destruct (IH _ _ Hi) as [-> Hlook]. split; [simpl; lia|].
  intros code. rewrite Hlook, lookup_insert_do_nothing. simpl.
  case_decide as Hc; [subst c|].
  - destruct (t !! code); simpl; [done|]. unfold tuple_of. by rewrite Ha.
  - done.
Qed.

(** What a run of [load_airports] that returns has done. *)
Lemma load_airports_ok_inv w w' n :
  load_airports E w = (w', Ok n) →
  ∃ raw t,
    s3_airports E = Ok raw ∧
    insert_airports (valid_iata_rows raw) (airports (w_db w)) 0 = Ok (t, n) ∧
    w_db w' =
      set_pipeline_runs
        (upsert_run false ("airports.dat", "airports")
           {| rows_processed := Z.of_nat (length (valid_iata_rows raw));
              rows_loaded := n;
              rows_rejected := 0;
              status := "completed";
              started_at := w_clock w;
              completed_at := w_clock w + 1 |}
           (pipeline_runs (w_db w)))
        (set_airports t (w_db w)).
Proof.
  unfold load_airports, mbind, task_bind, lift, get_connection, read_db, write_db,
    dt_now, mret, task_ret.
  destruct (s3_airports E) as [raw|]; [|done].
  destruct (db_fault E OpAirports); [done|]. simpl.
  destruct (insert_airports _ _ _) as [[t m]|] eqn:Hins; [|done]. simpl.
  destruct (db_fault E (OpLedgerWrite "airports.dat")); [done|]. simpl.
  intros [= <- <-]. by exists raw, t.
Qed.

(** A run returns when the file is fetched, every kept row builds its tuple
    and no round trip fails. *)
Lemma load_airports_returns w raw :
  s3_airports E = Ok raw →
  Forall (λ cr : string * raw_airport, ∃ a, airport_tuple cr.2 = Ok a) (valid_iata_rows raw) →
  db_fault E OpAirports = false →
  db_fault E (OpLedgerWrite "airports.dat") = false →
  ∃ w', load_airports E w = (w', Ok (Z.of_nat (length (valid_iata_rows raw)))).
Proof.
  intros Hraw Hall Hf1 Hf2.
  assert (∀ rows t n, Forall (λ cr : string * raw_airport, ∃ a, airport_tuple cr.2 = Ok a) rows →
            ∃ t', insert_airports rows t n = Ok (t', n + Z.of_nat (length rows))) as Hins.
  { induction rows as [|[c r] rest IH]; intros t n Hr; simpl.
    - exists t. do 2 f_equal. lia.
    - apply Forall_cons in Hr as [[a Ha] Hr]. simpl in Ha. rewrite Ha. simpl.
      destruct (IH (insert_do_nothing c a t) (n + 1) Hr) as [t' ->].
      exists t'. do 2 f_equal. lia. }
  destruct (Hins _ (airports (w_db w)) 0 Hall) as [t' Ht'].
  unfold load_airports, mbind, task_bind, lift, get_connection, read_db, write_db,
    dt_now, mret, task_ret.
  rewrite Hraw, Hf1. simpl. rewrite Ht'. simpl. rewrite Hf2. simpl. eauto.
Qed.


End Airports.

Section AirportsExamples.
#[local] Existing Instance Reference.extern.


End AirportsExamples.

(** ** [load_weather]: the existence set and the conflict target *)

Section Weather.
Context `{Extern}.
Variable E : env.

Lemma insert_observation_nodup t o :
  NoDup (stored_key <$> t) → NoDup (stored_key <$> insert_observation t o).
Proof.
  intros Hnd. unfold insert_observation. case_bool_decide as Hin; [done|].
  rewrite fmap_app. apply NoDup_app. split_and!; [done| |].
  - intros k Hk Hk'. simpl in Hk'. apply list_elem_of_singleton in Hk'. by subst.
  - simpl. apply NoDup_singleton.
Qed.

Lemma insert_weather_spec existing data t loaded skipped :
  insert_weather existing data t loaded skipped =
    (foldl insert_observation t (filter (λ o, ¬ seen existing o) data),
     loaded + Z.of_nat (length (filter (λ o, ¬ seen existing o) data)),
     skipped + Z.of_nat (length (filter (seen existing) data))).
Proof.
  revert t loaded skipped. induction data as [|o data IH]; intros t loaded skipped; simpl.
  { rewrite !pair_eq; split_and!; simpl; try done; lia. }
  rewrite !filter_cons.
  destruct (decide (seen existing o)) as [Hs|Hs].
  - rewrite decide_False by (intros Hn; by apply Hn).
    rewrite bool_decide_eq_true_2 by exact Hs.
    rewrite IH. rewrite !pair_eq; split_and!; simpl; try done; lia.
  - rewrite decide_True by done.
    rewrite bool_decide_eq_false_2 by exact Hs.
    rewrite IH. rewrite !pair_eq; split_and!; simpl; try done; lia.
Qed.

Lemma foldl_insert_observation_nodup data t :
  NoDup (stored_key <$> t) → NoDup (stored_key <$> foldl insert_observation t data).
Proof.
  revert t. induction data as [|o data IH]; intros t Hnd; simpl; [done|].
  by apply IH, insert_observation_nodup.
Qed.

(** The table a run of [load_weather] leaves, whatever its outcome: the one
    it found, or that one with the unseen observations inserted. *)
Lemma load_weather_table w w' r :
  load_weather E w = (w', r) →
  weather_observations (w_db w') = weather_observations (w_db w) ∨
  weather_observations (w_db w') =
    foldl insert_observation (weather_observations (w_db w))
      (filter (λ o, ¬ seen (weather_existing (w_db w)) o) (weather_inputs E (w_db w))).
Proof.
  unfold load_weather, mbind, task_bind, lift, get_connection, read_db, write_db,
    dt_now, mret, task_ret, weather_inputs, weather_existing.
  destruct (db_fault E OpWeatherRead); simpl.
  { intros [= <- <-]. by left. }
  destruct (elements _) as [|a l]; simpl.
  { intros [= <- <-]. by left. }
  destruct (merge_sort _ _) as [|d ds]; simpl.
  { intros [= <- <-]. by left. }
  destruct (db_fault E OpWeatherWrite); simpl.
  { intros [= <- <-]. by left. }
  rewrite insert_weather_spec. simpl.
  destruct (db_fault E (OpLedgerWrite "iem_hourly_weather")); simpl;
    intros [= <- <-]; by right.
Qed.

(** What a run of [load_weather] that returns has done. *)
Lemma load_weather_ok_inv w w' res :
  load_weather E w = (w', Ok res) →
  (res = [("loaded", 0); ("rejected", 0)] ∧ w_db w' = w_db w) ∨
  (let data := weather_inputs E (w_db w) in
   let unseen := filter (λ o, ¬ seen (weather_existing (w_db w)) o) data in
   let loaded := Z.of_nat (length unseen) in
   let skipped := Z.of_nat (length (filter (seen (weather_existing (w_db w))) data)) in
   res = [("loaded", loaded); ("skipped", skipped)] ∧
   w_db w' =
     set_pipeline_runs
       (upsert_run false ("iem_hourly_weather", "weather")
          {| rows_processed := Z.of_nat (length data);
             rows_loaded := loaded;
             rows_rejected := 0;
             status := "completed";
             started_at := w_clock w;
             completed_at := w_clock w + 1 |}
          (pipeline_runs (w_db w)))
       (set_weather_observations
          (foldl insert_observation (weather_observations (w_db w)) unseen)
          (w_db w))).
Proof.
  unfold load_weather, mbind, task_bind, lift, get_connection, read_db, write_db,
    dt_now, mret, task_ret, weather_inputs, weather_existing.
  destruct (db_fault E OpWeatherRead); simpl; [done|].
  destruct (elements _) as [|a l]; simpl.
  { intros [= <- <-]. by left. }
  destruct (merge_sort _ _) as [|d ds]; simpl.
  { intros [= <- <-]. by left. }
  destruct (db_fault E OpWeatherWrite); simpl; [done|].
  rewrite insert_weather_spec. simpl.
  destruct (db_fault E (OpLedgerWrite "iem_hourly_weather")); simpl; [done|].
  intros [= <- <-]. right. by rewrite !Z.add_0_l.
Qed.

Lemma filter_all_seen existing data :
  Forall (seen existing) data →
  filter (λ o, ¬ seen existing o) data = [] ∧ filter (seen existing) data = data.
Proof.
  induction 1 as [|o data Ho _ [IH1 IH2]]; [done|].
  rewrite !filter_cons.
  rewrite decide_False by (intros Hn; by apply Hn).
  rewrite decide_True by done. by rewrite IH1, IH2.
Qed.

End Weather.

Section WeatherReload.
Context `{Extern}.
Variable E : env.

(** [load_weather] as a function of the world it starts from. *)
Lemma load_weather_run w :
  load_weather E w =
    let w0 := {| w_db := w_db w; w_clock := w_clock w + 1 |} in
    let data := weather_inputs E (w_db w) in
    let unseen := filter (λ o, ¬ seen (weather_existing (w_db w)) o) data in
    let loaded := Z.of_nat (length unseen) in
    let skipped := Z.of_nat (length (filter (seen (weather_existing (w_db w))) data)) in
    let d1 :=
      set_weather_observations
        (foldl insert_observation (weather_observations (w_db w)) unseen) (w_db w) in
    if db_fault E OpWeatherRead then (w0, Raise DatabaseError)
    else
      match elements (dom (airports (w_db w)) ∩
                      (list_to_set get_mapped_airports : gset string)) with
      | [] => (w0, Ok [("loaded", 0); ("rejected", 0)])
      | _ =>
          match merge_sort date_le (elements (dom (date_dim (w_db w)))) with
          | [] => (w0, Ok [("loaded", 0); ("rejected", 0)])
          | _ =>
              if db_fault E OpWeatherWrite then (w0, Raise DatabaseError)
              else if db_fault E (OpLedgerWrite "iem_hourly_weather")
              then ({| w_db := d1; w_clock := w_clock w + 1 |}, Raise DatabaseError)
              else
                ({| w_db :=
                      set_pipeline_runs
                        (upsert_run false ("iem_hourly_weather", "weather")
                           {| rows_processed := Z.of_nat (length data);
                              rows_loaded := loaded;
                              rows_rejected := 0;
                              status := "completed";
                              started_at := w_clock w;
                              completed_at := w_clock w + 1 |}
                           (pipeline_runs (w_db w))) d1;
                    w_clock := w_clock w + 1 + 1 |},
                 Ok [("loaded", loaded); ("skipped", skipped)])
          end
      end.
Proof.
  unfold load_weather, mbind, task_bind, lift, get_connection, read_db, write_db,
    dt_now, mret, task_ret, weather_inputs, weather_existing.
  cbv zeta.
  destruct (db_fault E OpWeatherRead); simpl; [done|].
  destruct (elements _) as [|a l]; simpl; [done|].
  destruct (merge_sort _ _) as [|d ds]; simpl; [done|].
  destruct (db_fault E OpWeatherWrite); simpl; [done|].
  rewrite insert_weather_spec. simpl.
  destruct (db_fault E (OpLedgerWrite "iem_hourly_weather")); simpl; [done|].
  by rewrite !Z.add_0_l.
Qed.

Lemma foldl_insert_observation_keys data t :
  (∀ k, k ∈ stored_key <$> t → k ∈ stored_key <$> foldl insert_observation t data) ∧
  (∀ o, o ∈ data → stored_key o ∈ stored_key <$> foldl insert_observation t data).
Proof.
  revert t. induction data as [|x data IH]; intros t; simpl.
  { split; [done|]. by intros o ?%elem_of_nil. }
  destruct (IH (insert_observation t x)) as [Hold Hnew].
  assert (∀ k, k ∈ stored_key <$> t → k ∈ stored_key <$> insert_observation t x) as Hkeep.
  { intros k Hk. unfold insert_observation. case_bool_decide; [done|].
    rewrite fmap_app. apply elem_of_app. by left. }
  assert (stored_key x ∈ stored_key <$> insert_observation t x) as Hx.
  { unfold insert_observation. case_bool_decide; [done|].
    rewrite fmap_app. apply elem_of_app. right. simpl. left. }
  split.
  - intros k Hk. by apply Hold, Hkeep.
  - intros o Ho. apply elem_of_cons in Ho as [->|Ho]; [by apply Hold|by apply Hnew].
Qed.

Lemma length_filter_mono {A} (P Q : A → Prop) `{∀ x, Decision (P x)} `{∀ x, Decision (Q x)}
    (l : list A) :
  (∀ x, P x → Q x) → (length (filter P l) ≤ length (filter Q l))%nat.
Proof.
  intros HPQ. induction l as [|x l IH]; [done|].
  rewrite !filter_cons. destruct (decide (P x)) as [HP|HP].
  - rewrite decide_True by auto. simpl. lia.
  - destruct (decide (Q x)); simpl; lia.
Qed.

(** After a run that went through its insert loop, every generated pair
    that the database reads back as it was written is in the existence
    set. *)
Lemma generated_pairs_seen (t : list weather_obs) (existing : gset (string * string))
    (data : list weather_obs) :
  existing = list_to_set (stored_key <$> t) →
  (∀ o, o ∈ data → db_time_str (observation_time o) = observation_time o) →
  ∀ o2, pair_of o2 ∈ pair_of <$> data →
    seen (list_to_set
            (stored_key <$> foldl insert_observation t
                              (filter (λ o, ¬ seen existing o) data))) o2.
Proof.
  intros -> Hback o2 Ho2.
  apply list_elem_of_fmap in Ho2 as (o & Hpair & Ho).
  unfold seen. fold (pair_of o2). rewrite Hpair.
  apply elem_of_list_to_set.
  destruct (foldl_insert_observation_keys
              (filter (λ o, ¬ seen (list_to_set (stored_key <$> t)) o) data) t)
    as [Hold Hnew].
  destruct (decide (seen (list_to_set (stored_key <$> t)) o)) as [Hs|Hs].
  - apply Hold. unfold seen in Hs. by apply elem_of_list_to_set in Hs.
  - assert (pair_of o = stored_key o) as ->.
    { unfold pair_of, stored_key. by rewrite Hback. }
    apply Hnew. by apply list_elem_of_filter.
Qed.

(** C9. A run of [load_weather], whatever it generates and however it ends,
    leaves no two rows of [weather_observations] with the same
    (airport_code, observation_time) when it found none; a run that returns
    counts as loaded exactly the generated observations whose pair is not in
    the existence set and skips every one whose pair is in it, so when all
    generated pairs are in the existence set it reports 0 loaded and leaves
    the table as it was.  When the database gives the observation times of
    the run back as the strings that were generated, the pairs of the run
    are in the existence set of every later run: a second run over the same
    observations returns 0 loaded and leaves the table as it is, and a run
    over any regenerated set counts as loaded none of the observations whose
    pair the first run generated. *)
Theorem weather_reload_no_duplicates (w w' : world) (r : result (list (string * Z))) :
  NoDup (stored_key <$> weather_observations (w_db w)) →
  load_weather E w = (w', r) →
  let existing := weather_existing (w_db w) in
  let data := weather_inputs E (w_db w) in
  NoDup (stored_key <$> weather_observations (w_db w')) ∧
  (∀ res, r = Ok res →
     (res = [("loaded", 0); ("rejected", 0)] ∧ w_db w' = w_db w) ∨
     (res = [("loaded", Z.of_nat (length (filter (λ o, ¬ seen existing o) data)));
             ("skipped", Z.of_nat (length (filter (seen existing) data)))] ∧
      weather_observations (w_db w') =
        foldl insert_observation (weather_observations (w_db w))
          (filter (λ o, ¬ seen existing o) data))) ∧
  (Forall (seen existing) data →
     weather_observations (w_db w') = weather_observations (w_db w) ∧
     ∀ res, r = Ok res →
       res = [("loaded", 0); ("rejected", 0)] ∨
       res = [("loaded", 0); ("skipped", Z.of_nat (length data))]) ∧
  ((∀ o, o ∈ data → db_time_str (observation_time o) = observation_time o) →
   ∀ res, r = Ok res →
     (res ≠ [("loaded", 0); ("rejected", 0)] →
      ∀ o2, pair_of o2 ∈ pair_of <$> data → seen (weather_existing (w_db w')) o2) ∧
     (∃ w2 res2,
        load_weather E w' = (w2, Ok res2) ∧
        (res2 = [("loaded", 0); ("rejected", 0)] ∨
         res2 = [("loaded", 0); ("skipped", Z.of_nat (length data))]) ∧
        weather_observations (w_db w2) = weather_observations (w_db w')) ∧
     (res ≠ [("loaded", 0); ("rejected", 0)] →
      ∀ (E2 : env) w2 res2,
        load_weather E2 w' = (w2, Ok res2) →
        ∃ loaded,
          head res2 = Some ("loaded", loaded) ∧
          loaded ≤
            Z.of_nat
              (length (filter (λ o2, pair_of o2 ∉ pair_of <$> data)
                              (weather_inputs E2 (w_db w')))))).
Proof.
  intros Hnd Hrun existing data.
  pose proof (filter_all_seen existing data) as Hall.
  split_and!.
  - destruct (load_weather_table _ _ _ _ Hrun) as [-> | ->]; [done|].
    by apply foldl_insert_observation_nodup.
  - intros res ->. apply load_weather_ok_inv in Hrun as [[-> Hdb]|Hrun]; [by left|].
    right. cbv zeta in Hrun. destruct Hrun as [-> ->]. done.
  - intros Hseen. destruct (Hall Hseen) as [Hunseen Hkept]. split.
    + destruct (load_weather_table _ _ _ _ Hrun) as [-> | ->]; [done|].
      fold existing data. by rewrite Hunseen.
    + intros res ->. apply load_weather_ok_inv in Hrun as [[-> Hdb]|Hrun]; [by left|].
      right. cbv zeta in Hrun. destruct Hrun as [-> _].
      fold existing data. by rewrite Hunseen, Hkept.
  - intros Hback res ->.
    rewrite load_weather_run in Hrun. cbv zeta in Hrun.
    fold data existing in Hrun.
    destruct (db_fault E OpWeatherRead) eqn:Hread; [done|].
    destruct (elements (dom (airports (w_db w)) ∩
                        (list_to_set get_mapped_airports : gset string)))
      as [|a l] eqn:Hairports.
    { injection Hrun as <- <-. split_and!; [done| |done].
      eexists _, _. rewrite load_weather_run. cbv zeta. cbn [w_db].
      rewrite Hread, Hairports. split_and!; [done|by left|done]. }
    destruct (merge_sort date_le (elements (dom (date_dim (w_db w))))) as [|d ds] eqn:Hdates.
    { injection Hrun as <- <-. split_and!; [done| |done].
      eexists _, _. rewrite load_weather_run. cbv zeta. cbn [w_db].
      rewrite Hread, Hairports, Hdates. split_and!; [done|by left|done]. }
    destruct (db_fault E OpWeatherWrite) eqn:Hwrite; [done|].
    destruct (db_fault E (OpLedgerWrite "iem_hourly_weather")) eqn:Hledger; [done|].
    injection Hrun as <- <-.
    assert (∀ o2, pair_of o2 ∈ pair_of <$> data →
                  seen (weather_existing
                          (set_pipeline_runs
                             (upsert_run false ("iem_hourly_weather", "weather")
                                {| rows_processed := Z.of_nat (length data);
                                   rows_loaded :=
                                     Z.of_nat (length (filter (λ o, ¬ seen existing o) data));
                                   rows_rejected := 0;
                                   status := "completed";
                                   started_at := w_clock w;
                                   completed_at := w_clock w + 1 |}
                                (pipeline_runs (w_db w)))
                             (set_weather_observations
                                (foldl insert_observation (weather_observations (w_db w))
                                   (filter (λ o, ¬ seen existing o) data))
                                (w_db w)))) o2) as Hseen.
    { intros o2 Ho2. unfold weather_existing. cbn [weather_observations set_pipeline_runs
        set_weather_observations].
      by apply generated_pairs_seen. }
    split_and!.
    + intros _ o2 Ho2. cbn [w_db]. by apply Hseen.
    + eexists _, _. rewrite load_weather_run. cbv zeta. cbn [w_db].
      assert (weather_inputs E
                (set_pipeline_runs
                   (upsert_run false ("iem_hourly_weather", "weather")
                      {| rows_processed := Z.of_nat (length data);
                         rows_loaded :=
                           Z.of_nat (length (filter (λ o, ¬ seen existing o) data));
                         rows_rejected := 0;
                         status := "completed";
                         started_at := w_clock w;
                         completed_at := w_clock w + 1 |}
                      (pipeline_runs (w_db w)))
                   (set_weather_observations
                      (foldl insert_observation (weather_observations (w_db w))
                         (filter (λ o, ¬ seen existing o) data))
                      (w_db w))) = data) as -> by done.
      cbn [airports date_dim set_pipeline_runs set_weather_observations].
      rewrite Hread, Hairports, Hdates, Hwrite, Hledger.
      destruct (filter_all_seen _ data
                  (proj2 (Forall_forall _ _)
                     (λ o Ho, Hseen o (list_elem_of_fmap_2 pair_of _ _ Ho))))
        as [Hunseen Hkept].
      rewrite Hunseen, Hkept. split_and!; [done|by right|done].
    + intros _ E2 w2 res2 Hrun2.
      apply load_weather_ok_inv in Hrun2 as [[-> _]|Hrun2].
      { exists 0. split; [done|]. lia. }
      cbv zeta in Hrun2. destruct Hrun2 as [-> _].
      eexists. split; [done|].
      apply inj_le.
      apply (length_filter_mono _ _ (weather_inputs E2 _)).
      intros o2 Hunseen Hpair. apply Hunseen. cbn [w_db]. by apply Hseen.
Qed.

End WeatherReload.

Section WeatherExamples.
#[local] Existing Instance Reference.extern.

(** Over a text column the first run loads the two observations and the
    second run skips them both. *)
Lemma weather_reload_no_duplicates_witness :
  ∃ w1 w2,
    load_weather Scenario.calm {| w_db := Scenario.dims_db; w_clock := 0 |} =
      (w1, Ok [("loaded", 2); ("skipped", 0)]) ∧
    load_weather Scenario.calm w1 = (w2, Ok [("loaded", 0); ("skipped", 2)]) ∧
    weather_observations (w_db w2) = weather_observations (w_db w1) ∧
    NoDup (stored_key <$> weather_observations (w_db w1)).
Proof.
  assert (load_weather Scenario.calm {| w_db := Scenario.dims_db; w_clock := 0 |} =
          ((load_weather Scenario.calm {| w_db := Scenario.dims_db; w_clock := 0 |}).1,
           Ok [("loaded", 2); ("skipped", 0)])) as Hrun.
  { vm_compute. reflexivity. }
  destruct (weather_reload_no_duplicates Scenario.calm
              {| w_db := Scenario.dims_db; w_clock := 0 |} _ _
              (NoDup_nil_2 : NoDup (stored_key <$> weather_observations Scenario.dims_db))
              Hrun)
    as (Hnd & _ & _ & Hagain).
  destruct (Hagain (λ o _, eq_refl) _ eq_refl) as (_ & (w2 & res2 & Hrun2 & Hres2 & Hsame) & _).
  eexists _, w2. split; [exact Hrun|].
  split_and!; [|exact Hsame|exact Hnd].
  rewrite Hrun2. f_equal. f_equal.
  destruct Hres2 as [->| ->]; [|reflexivity].
  exfalso. revert Hrun2. vm_compute. intros Hrun2. discriminate Hrun2.
Defined.

End WeatherExamples.

Section TimestampColumn.
#[local] Existing Instance Reference.with_seconds.

(** Over a timestamp column, which gives the times back with their
    seconds, no pair of the existence set is one the pre-check looks up:
    the second run reports the two observations as loaded again, and the
    conflict target alone keeps them out of the table. *)
Example reload_over_timestamp_column :
  ∃ w1 w2,
    load_weather Scenario.calm {| w_db := Scenario.dims_db; w_clock := 0 |} =
      (w1, Ok [("loaded", 2); ("skipped", 0)]) ∧
    load_weather Scenario.calm w1 = (w2, Ok [("loaded", 2); ("skipped", 0)]) ∧
    length (weather_observations (w_db w1)) = 2%nat ∧
    weather_observations (w_db w2) = weather_observations (w_db w1).
Proof. eexists _, _. split_and!; [vm_compute; reflexivity..]. Qed.

End TimestampColumn.

(** ** [load_flights]: what the chunk loop does to the warehouse *)

Section Chunks.
Context `{Extern}.
Variable E : env.

Lemma write_chunk_run valid_rows rejected_rows file_loaded file_rejected w :
  write_chunk valid_rows rejected_rows file_loaded file_rejected w =
    ({| w_db := apply_chunk valid_rows rejected_rows (w_db w); w_clock := w_clock w |},
     Ok (file_loaded + Z.of_nat (length valid_rows),
         file_rejected + Z.of_nat (length rejected_rows))).
Proof.
  unfold write_chunk, apply_chunk, mbind, task_bind, read_db, write_db, mret, task_ret.
  destruct w as [d c].
  destruct valid_rows as [|f vs], rejected_rows as [|r rs]; simpl;
    rewrite ?Z.add_0_r, ?app_nil_r; destruct d; reflexivity.
Qed.

Lemma process_chunks_run chunk_size va vc vd file_name chunks file_loaded file_rejected w :
  process_chunks E chunk_size va vc vd file_name chunks file_loaded file_rejected w =
    ({| w_db := (run_chunks E chunk_size va vc vd file_name chunks (w_db w)
                   file_loaded file_rejected).1;
        w_clock := w_clock w |},
     (run_chunks E chunk_size va vc vd file_name chunks (w_db w)
        file_loaded file_rejected).2).
Proof.
  revert file_loaded file_rejected w.
  induction chunks as [|[chunk_start chunk] rest IH]; intros file_loaded file_rejected w.
  { simpl. unfold mret, task_ret. by destruct w. }
  cbn [process_chunks run_chunks].
  unfold mbind at 1, task_bind at 1, lift at 1.
  destruct (validate_rows _ _ _ _ _ _) as [[vs rs]|e]; [|by destruct w].
  unfold mbind at 1, task_bind at 1, get_connection at 1.
  destruct (db_fault E _); [by destruct w|].
  rewrite write_chunk_run, IH. reflexivity.
Qed.

(** The loop touches the fact table and the audit sink only. *)
Lemma run_chunks_frame chunk_size va vc vd file_name chunks d file_loaded file_rejected :
  let d' := (run_chunks E chunk_size va vc vd file_name chunks d file_loaded file_rejected).1 in
  airports d' = airports d ∧ carriers d' = carriers d ∧ date_dim d' = date_dim d ∧
  pipeline_runs d' = pipeline_runs d ∧
  weather_observations d' = weather_observations d.
Proof.
  revert d file_loaded file_rejected.
  induction chunks as [|[chunk_start chunk] rest IH]; intros d fl fr; simpl; [done|].
  destruct (validate_rows _ _ _ _ _ _) as [[vs rs]|e]; [|done].
  destruct (db_fault E _); [done|].
  specialize (IH (apply_chunk vs rs d) (fl + Z.of_nat (length vs)) (fr + Z.of_nat (length rs))).
  simpl in IH. done.
Qed.



(** Rows already in the fact table stay, in their place. *)
Lemma insert_flights_prefix rows t : t `prefix_of` insert_flights rows t.
Proof.
  unfold insert_flights. revert t.
  induction rows as [|f rows IH]; intros t; simpl; [done|].
  etrans; [|apply IH]. unfold insert_flight. case_bool_decide; [done|].
  by apply prefix_app_r.
Qed.

Lemma insert_flight_present t f :
  natural_key f ∈ natural_key <$> t → insert_flight t f = t.
Proof. intros Hin. unfold insert_flight. by rewrite bool_decide_eq_true_2. Qed.

Lemma insert_flight_keys t f :
  natural_key f ∈ natural_key <$> insert_flight t f.
Proof.
  unfold insert_flight. case_bool_decide; [done|].
  rewrite fmap_app. apply elem_of_app. right. simpl. apply list_elem_of_singleton. done.
Qed.

Lemma insert_flights_keys_mono rows t k :
  k ∈ natural_key <$> t → k ∈ natural_key <$> insert_flights rows t.
Proof.
  intros Hk. destruct (insert_flights_prefix rows t) as [l ->].
  rewrite fmap_app. apply elem_of_app. by left.
Qed.

Lemma insert_flights_keys rows t f :
  f ∈ rows → natural_key f ∈ natural_key <$> insert_flights rows t.
Proof.
  unfold insert_flights. revert t.
  induction rows as [|g rows IH]; intros t Hf; [by apply elem_of_nil in Hf|].
  apply elem_of_cons in Hf as [->|Hf]; simpl.
  - apply (insert_flights_keys_mono rows). apply insert_flight_keys.
  - by apply IH.
Qed.

(** Submitting again rows whose keys are all in the table changes nothing. *)
Lemma insert_flights_absorbed rows t :
  (∀ f, f ∈ rows → natural_key f ∈ natural_key <$> t) → insert_flights rows t = t.
Proof.
  unfold insert_flights. revert t.
  induction rows as [|f rows IH]; intros t Hall; simpl; [done|].
  rewrite insert_flight_present by (apply Hall; by left).
  apply IH. intros g Hg. apply Hall. by right.
Qed.



(** A loop that returns has counted every row of its chunks once. *)
Lemma run_chunks_counts chunk_size va vc vd file_name chunks d file_loaded file_rejected
    d' file_loaded' file_rejected' :
  run_chunks E chunk_size va vc vd file_name chunks d file_loaded file_rejected =
    (d', Ok (file_loaded', file_rejected')) →
  file_loaded' + file_rejected' =
    file_loaded + file_rejected + Z.of_nat (length (concat (snd <$> chunks))).
Proof.
  revert d file_loaded file_rejected.
  induction chunks as [|[chunk_start chunk] rest IH]; intros d fl fr Hrun; simpl in Hrun.
  { simplify_eq. simpl. lia. }
  destruct (validate_rows _ _ _ _ _ _) as [[vs rs]|e] eqn:Hv; [|done].
  destruct (db_fault E _); [done|].
  apply IH in Hrun.
  apply validate_rows_split in Hv as (_ & _ & Hlen).
  rewrite fmap_cons. simpl. rewrite length_app. lia.
Qed.

(** The chunks of a frame cover its rows. *)
Lemma chunks_of_concat {A} (size : nat) (rows : list A) fuel start :
  (0 < size)%nat → (length rows ≤ fuel)%nat →
  concat (snd <$> chunks_of fuel size start rows) = rows.
Proof.
  intros Hsize. revert start rows.
  induction fuel as [|fuel IH]; intros start rows Hfuel.
  { destruct rows; [done|simpl in Hfuel; lia]. }
  destruct rows as [|x rows]; [done|]. cbn [chunks_of].
  rewrite fmap_cons. cbn [concat snd].
  rewrite IH; [by rewrite take_drop|].
  rewrite length_drop. simpl in *. lia.
Qed.

End Chunks.

(** ** [load_flights]: one file *)

Section OneFile.
Context `{Extern}.
Variable E : env.

Lemma set_date_dim_id d : set_date_dim (date_dim d) d = d.
Proof. by destruct d. Qed.

(** The date step touches [date_dim] only, and not the clock. *)
Lemma add_missing_dates_inv valid_dates df w w' r :
  add_missing_dates E valid_dates df w = (w', r) →
  w_clock w' = w_clock w ∧ ∃ t, w_db w' = set_date_dim t (w_db w).
Proof.
  unfold add_missing_dates.
  unfold mbind at 1, task_bind at 1, lift at 1.
  destruct (file_dates df) as [ds|e].
  - case_bool_decide.
    + intros [= <- <-]. split; [done|]. exists (date_dim (w_db w)).
      by rewrite set_date_dim_id.
    + unfold mbind, task_bind. rewrite ensure_dates_exist_run.
      destruct (db_fault E OpEnsureDates).
      { intros [= <- <-]. split; [done|]. exists (date_dim (w_db w)).
        by rewrite set_date_dim_id. }
      destruct (insert_dates _ _ _) as [[t added]|e].
      * intros [= <- <-]. split; [done|]. by exists t.
      * intros [= <- <-]. split; [done|]. exists (date_dim (w_db w)).
        by rewrite set_date_dim_id.
  - intros [= <- <-]. split; [done|]. exists (date_dim (w_db w)).
    by rewrite set_date_dim_id.
Qed.

Lemma load_file_run chunk_size va vc valid_dates file_key w :
  load_file E chunk_size va vc valid_dates file_key w =
    file_outcome E chunk_size va vc valid_dates file_key w.
Proof.
  unfold load_file, file_outcome.
  unfold mbind at 1, task_bind at 1, dt_now at 1.
  unfold mbind at 1, task_bind at 1, lift at 1.
  destruct (s3_csv E file_key) as [df|e]; [|done].
  unfold mbind at 1, task_bind at 1.
  destruct (add_missing_dates _ _ _ _) as [w1 [vd1|e]]; [|done].
  unfold mbind at 1, task_bind at 1. rewrite process_chunks_run.
  destruct (run_chunks _ _ _ _ _ _ _ _ _ _) as [d2 [[fl fr]|e]]; simpl; [|done].
  unfold mbind, task_bind, log_file, get_connection.
  destruct (db_fault E _); [done|].
  unfold dt_now, read_db, write_db, mret, task_ret. simpl. done.
Qed.

End OneFile.

(** ** The ledger: what the three writers leave *)

Section Ledger.
Context `{Extern}.
Variable E : env.

Lemma lookup_upsert_run set_rejected key key' new t :
  upsert_run set_rejected key new t !! key' =
    if decide (key = key') then
      Some match t !! key with
           | None => new
           | Some old =>
               {| rows_processed := rows_processed old;
                  rows_loaded := rows_loaded new;
                  rows_rejected :=
                    if set_rejected then rows_rejected new else rows_rejected old;
                  status := status new;
                  started_at := started_at old;
                  completed_at := completed_at new |}
           end
    else t !! key'.
Proof.
  unfold upsert_run. destruct (t !! key) as [old|] eqn:Hold;
    rewrite lookup_insert; by case_decide.
Qed.

(** A file that [load_file] finished: where its ledger row comes from. *)
Lemma load_file_ok_inv chunk_size va vc vd file_key w w' vd' file_loaded file_rejected :
  load_file E chunk_size va vc vd file_key w = (w', Ok (vd', file_loaded, file_rejected)) →
  ∃ df w1 d2,
    s3_csv E file_key = Ok df ∧
    add_missing_dates E vd df {| w_db := w_db w; w_clock := w_clock w + 1 |} = (w1, Ok vd') ∧
    run_chunks E chunk_size va vc vd' (PyStr.last_segment file_key)
      (chunks_of (length df) (Z.to_nat chunk_size) 0 df) (w_db w1) 0 0 =
      (d2, Ok (file_loaded, file_rejected)) ∧
    db_fault E (OpLedgerWrite (PyStr.last_segment file_key)) = false ∧
    w_db w' =
      set_pipeline_runs
        (upsert_run true (PyStr.last_segment file_key, "flights")
           (file_run (Z.of_nat (length df)) file_loaded file_rejected
              (w_clock w) (w_clock w1))
           (pipeline_runs (w_db w))) d2.
Proof.
  rewrite load_file_run. unfold file_outcome.
  destruct (s3_csv E file_key) as [df|e]; [|done].
  destruct (add_missing_dates _ _ _ _) as [w1 [vd1|e]] eqn:Hadd; [|done].
  destruct (run_chunks _ _ _ _ _ _ _ _ _ _) as [d2 [[fl fr]|e]] eqn:Hrun; [|done].
  destruct (db_fault E _) eqn:Hfault; [done|].
  intros [= <- <- <- <-]. exists df, w1, d2. split_and!; try done.
  simpl. do 2 f_equal.
  pose proof (run_chunks_frame E chunk_size va vc vd1 (PyStr.last_segment file_key)
                (chunks_of (length df) (Z.to_nat chunk_size) 0 df) (w_db w1) 0 0)
    as (_ & _ & _ & Hruns & _).
  rewrite Hrun in Hruns. simpl in Hruns. rewrite Hruns.
  apply add_missing_dates_inv in Hadd as (_ & t & ->). done.
Qed.

(** C3. A ledger row that a stage writes where the ledger had none for its
    key is completed and, for [load_flights] and [load_airports], satisfies
    rows_loaded + rows_rejected = rows_processed; the row of [load_weather]
    has rows_rejected = 0 and rows_loaded plus the number of generated
    observations it skipped equal to rows_processed. *)
Theorem ledger_invariant_on_first_write (chunk_size : Z) :
  0 < chunk_size →
  (∀ va vc vd file_key w w' vd' file_loaded file_rejected,
     pipeline_runs (w_db w) !! (PyStr.last_segment file_key, "flights") = None →
     load_file E chunk_size va vc vd file_key w =
       (w', Ok (vd', file_loaded, file_rejected)) →
     ∃ r, pipeline_runs (w_db w') !! (PyStr.last_segment file_key, "flights") = Some r ∧
          status r = "completed" ∧
          rows_loaded r = file_loaded ∧ rows_rejected r = file_rejected ∧
          rows_loaded r + rows_rejected r = rows_processed r) ∧
  (∀ w w' n,
     pipeline_runs (w_db w) !! ("airports.dat", "airports") = None →
     load_airports E w = (w', Ok n) →
     ∃ r, pipeline_runs (w_db w') !! ("airports.dat", "airports") = Some r ∧
          status r = "completed" ∧
          rows_loaded r + rows_rejected r = rows_processed r) ∧
  (∀ w w' res r,
     pipeline_runs (w_db w) !! ("iem_hourly_weather", "weather") = None →
     load_weather E w = (w', Ok res) →
     pipeline_runs (w_db w') !! ("iem_hourly_weather", "weather") = Some r →
     status r = "completed" ∧
     rows_rejected r = 0 ∧
     rows_loaded r +
       Z.of_nat (length (filter (seen (weather_existing (w_db w)))
                                (weather_inputs E (w_db w)))) =
       rows_processed r).
Proof.
  intros Hsize. split_and!.
  - intros va vc vd file_key w w' vd' fl fr Hnone Hrun.
    apply load_file_ok_inv in Hrun as (df & w1 & d2 & _ & _ & Hchunks & _ & ->).
    eexists. simpl. rewrite lookup_upsert_run, decide_True, Hnone by done.
    split_and!; try done. simpl.
    apply run_chunks_counts in Hchunks.
    rewrite chunks_of_concat in Hchunks by lia. lia.
  - intros w w' n Hnone Hrun.
    apply load_airports_ok_inv in Hrun as (raw & t & _ & Hins & ->).
    eexists. simpl. rewrite lookup_upsert_run, decide_True, Hnone by done.
    split_and!; try done. simpl.
    apply insert_airports_spec in Hins as [-> _]. lia.
  - intros w w' res r Hnone Hrun Hr.
    apply load_weather_ok_inv in Hrun as [[_ Hdb]|Hrun].
    { rewrite Hdb, Hnone in Hr. done. }
    cbv zeta in Hrun. destruct Hrun as [_ Hdb]. rewrite Hdb in Hr. simpl in Hr.
    rewrite lookup_upsert_run, decide_True, Hnone in Hr by done.
    simplify_eq. simpl. split_and!; try done.
    rewrite <- Nat2Z.inj_add. f_equal.
    generalize (weather_inputs E (w_db w)). intros data.
    induction data as [|o data IH]; [done|].
    rewrite !filter_cons.
    destruct (decide (seen (weather_existing (w_db w)) o)).
    + rewrite decide_False by (intros Hn; by apply Hn). simpl. lia.
    + rewrite decide_True by done. simpl. lia.
Qed.

End Ledger.

Section LedgerExamples.
#[local] Existing Instance Reference.extern.

Lemma ledger_invariant_on_first_write_witness :
  0 < CHUNK_SIZE ∧
  ∃ w' r,
    load_airports Scenario.calm {| w_db := Scenario.empty_db; w_clock := 0 |} = (w', Ok 2) ∧
    pipeline_runs (w_db w') !! ("airports.dat", "airports") = Some r ∧
    status r = "completed" ∧
    rows_loaded r + rows_rejected r = rows_processed r.
Proof.
  assert (0 < CHUNK_SIZE) as Hsize by reflexivity.
  split; [exact Hsize|].
  pose proof (ledger_invariant_on_first_write Scenario.calm CHUNK_SIZE Hsize) as (_ & Ha & _).
  set (out := load_airports Scenario.calm {| w_db := Scenario.empty_db; w_clock := 0 |}).
  destruct (Ha {| w_db := Scenario.empty_db; w_clock := 0 |} out.1 2) as (r & Hr & Hst & Hinv).
  - reflexivity.
  - vm_compute. reflexivity.
  - exists out.1, r. split_and!; [vm_compute; reflexivity|done..].
Defined.

(** Reloading the airports after the reference file grew from two usable
    codes to three leaves a completed row with rows_processed = 2 and
    rows_loaded = 3; loading the weather a second time leaves a completed row
    with rows_processed = 2 and rows_loaded = 0. *)
Lemma ledger_invariant_counterexample :
  (let w1 := (load_airports Scenario.calm
                {| w_db := Scenario.empty_db; w_clock := 0 |}).1 in
   let w2 := (load_airports Scenario.calm_extended w1).1 in
   (load_airports Scenario.calm_extended w1).2 = Ok 3 ∧
   ∃ r, pipeline_runs (w_db w2) !! ("airports.dat", "airports") = Some r ∧
        status r = "completed" ∧
        rows_processed r = 2 ∧ rows_loaded r = 3 ∧ rows_rejected r = 0 ∧
        rows_loaded r + rows_rejected r ≠ rows_processed r) ∧
  (let w1 := (load_weather Scenario.calm
                {| w_db := Scenario.dims_db; w_clock := 0 |}).1 in
   let w2 := (load_weather Scenario.calm w1).1 in
   (load_weather Scenario.calm w1).2 = Ok [("loaded", 0); ("skipped", 2)] ∧
   ∃ r, pipeline_runs (w_db w2) !! ("iem_hourly_weather", "weather") = Some r ∧
        status r = "completed" ∧
        rows_processed r = 2 ∧ rows_loaded r = 0 ∧ rows_rejected r = 0 ∧
        rows_loaded r + rows_rejected r ≠ rows_processed r).
Proof.
  split.
  - vm_compute. split; [reflexivity|]. eexists. split_and!; try reflexivity. discriminate.
  - vm_compute. split; [reflexivity|]. eexists. split_and!; try reflexivity. discriminate.
Qed.

End LedgerExamples.

(** ** [run_quality_checks]: the rejection-rate check and the gate *)

Section Gate.
Variable E : env.

Lemma run_quality_checks_run w :
  run_quality_checks E w =
    if db_fault E OpQuality then (w, Raise DatabaseError)
    else match quality_checks (w_db w) with
         | Raise e => (w, Raise e)
         | Ok checks =>
             match print_summary (w_db w) with
             | Raise e => (w, Raise e)
             | Ok _ =>
                 if 0 <? count_checks false checks
                 then (w, Raise (QualityError (count_checks false checks)))
                 else (w, Ok [("passed", count_checks true checks);
                              ("failed", count_checks false checks)])
             end
         end.
Proof.
  unfold run_quality_checks, mbind, task_bind, get_connection, read_db, lift, mret, task_ret.
  destruct (db_fault E OpQuality); [done|].
  destruct (quality_checks (w_db w)) as [checks|e]; simpl; [|by destruct w].
  destruct (print_summary (w_db w)); simpl; [|by destruct w].
  destruct (0 <? count_checks false checks); by destruct w.
Qed.






(** The rate is at least 5 exactly when 20 rejected rows weigh no less than
    all rows. *)
Lemma rate_at_least_five loaded rejected :
  0 < loaded → 0 ≤ rejected →
  (5 <= inject_Z rejected / inject_Z (loaded + rejected) * 100)%Q ↔
  loaded + rejected ≤ 20 * rejected.
Proof.
  intros Hl Hr.
  assert (0 < inject_Z (loaded + rejected))%Q as Hpos.
  { change 0%Q with (inject_Z 0). rewrite <- Zlt_Qlt. lia. }
  split.
  - intros Hrate.
    apply (Qmult_le_r _ _ _ Hpos) in Hrate.
    assert (inject_Z rejected / inject_Z (loaded + rejected) * 100 * inject_Z (loaded + rejected)
            == inject_Z (100 * rejected))%Q as Heq.
    { rewrite inject_Z_mult. field. intros Hz. rewrite Hz in Hpos. by apply Qlt_irrefl in Hpos. }
    rewrite Heq in Hrate.
    change 5%Q with (inject_Z 5) in Hrate. rewrite <- inject_Z_mult, <- Zle_Qle in Hrate. lia.
  - intros Hz.
    apply (Qmult_le_r _ _ _ Hpos).
    assert (inject_Z rejected / inject_Z (loaded + rejected) * 100 * inject_Z (loaded + rejected)
            == inject_Z (100 * rejected))%Q as Heq.
    { rewrite inject_Z_mult. field. intros Hq. rewrite Hq in Hpos. by apply Qlt_irrefl in Hpos. }
    rewrite Heq.
    change 5%Q with (inject_Z 5). rewrite <- inject_Z_mult, <- Zle_Qle. lia.
Qed.




End Gate.

Section GateExamples.
#[local] Existing Instance Reference.extern.



End GateExamples.

(** ** [load_flights]: the whole run *)

Section WholeRun.
Context `{Extern}.
Variable E : env.





(** [load_flights] as a function of the world it starts from. *)
Lemma load_flights_chunked_run chunk_size w :
  load_flights_chunked E chunk_size w =
    if db_fault E OpLedgerQuery then (w, Raise DatabaseError)
    else match new_files_of E (processed_files_of (pipeline_runs (w_db w))) with
         | [] => (w, Ok [("files_processed", 0); ("total_loaded", 0)])
         | file_key :: rest =>
             if db_fault E OpSnapshot then (w, Raise DatabaseError)
             else load_new_files E chunk_size (dom (airports (w_db w)))
                    (dom (carriers (w_db w)))
                    (set_map Calendar.isoformat (dom (date_dim (w_db w))))
                    (file_key :: rest) 0 0 0 w
         end.
Proof.
  unfold load_flights_chunked, mbind at 1, task_bind at 1, get_connection at 1.
  destruct (db_fault E OpLedgerQuery); [done|].
  unfold mbind at 1, task_bind at 1, read_db at 1, mret at 1, task_ret at 1.
  destruct (new_files_of _ _) as [|file_key rest].
  { unfold mret, task_ret. by destruct w. }
  unfold mbind at 1, task_bind at 1, get_connection at 1.
  destruct (db_fault E OpSnapshot); [by destruct w|].
  unfold mbind at 1, task_bind at 1, read_db at 1, mret at 1, task_ret at 1.
  by destruct w.
Qed.

Lemma elem_of_new_files_of (processed : gset string) f :
  f ∈ new_files_of E processed ↔
  (PyStr.last_segment f ∉ processed) ∧ is_flight_csv f = true ∧ f ∈ list_files E.
Proof. unfold new_files_of. by rewrite !list_elem_of_filter. Qed.





End WholeRun.

Section WholeRunExamples.
#[local] Existing Instance Reference.extern.


End WholeRunExamples.

(** ** [load_flights]: a file that fails *)

Section Failure.
Context `{Extern}.
Variable E : env.




End Failure.

Section FailureExamples.
#[local] Existing Instance Reference.extern.


(** The other ways a file can fail: a key that cannot be fetched, a date
    that does not parse, a failure of [ensure_dates_exist], a file without
    the Origin column, and the ledger write after both chunks were
    committed. *)
Example structural_errors_of_a_file :
  let w := {| w_db := Scenario.dims_db; w_clock := 0 |} in
  let w0 := {| w_db := Scenario.dims_db; w_clock := 1 |} in
  let va := Scenario.valid_airports in
  let vc := Scenario.valid_carriers in
  let vd := Scenario.valid_dates in
  load_file (Samples.crowded (λ _, false)) 2 va vc vd "raw/gone.csv" w =
    (w0, Raise StorageError) ∧
  load_file (Samples.crowded (λ _, false)) 2 va vc vd "raw/undated.csv" w =
    (w0, Raise ValueError) ∧
  load_file (Samples.crowded (λ op, bool_decide (op = OpEnsureDates))) 2 va vc vd
    "raw/weekend.csv" w = (w0, Raise DatabaseError) ∧
  load_file (Samples.crowded (λ _, false)) 2 va vc vd "raw/headless.csv" w =
    (w0, Raise KeyError) ∧
  ∃ w',
    load_file (Samples.crowded (λ op, bool_decide (op = OpLedgerWrite "january.csv")))
      2 va vc vd "raw/january.csv" w = (w', Raise DatabaseError) ∧
    pipeline_runs (w_db w') = ∅ ∧
    flight_number <$> flights (w_db w') = [Some 100; Some 102] ∧
    rr_row_number <$> rejected_records (w_db w') = [1].
Proof.
  cbv zeta. split_and!; [vm_compute; reflexivity..|].
  eexists. split_and!; [vm_compute; reflexivity..].
Qed.


End FailureExamples.

(** * More properties of the stages *)

(** ** [ensure_dates_exist] *)

Section DatesAgain.
Context `{Extern}.
Variable E : env.




Lemma insert_dates_ok_inv args t n t' n' :
  insert_dates args t n = Ok (t', n') →
  n' = n + Z.of_nat (length args) ∧
  Forall (λ a, ∃ d, date_of_arg a = Ok d ∧ is_Some (t' !! d)) args ∧
  (∀ d x, t' !! d = Some x →
     t !! d = Some x ∨
     (t !! d = None ∧ x = date_attrs d ∧ ∃ a, a ∈ args ∧ date_of_arg a = Ok d)).
Proof.
  revert t n. induction args as [|a args IH]; intros t n Hi; cbn [insert_dates] in Hi.
  { simplify_eq. split_and!; [cbn; lia|constructor|auto]. }
  destruct (date_of_arg a) as [d0|] eqn:Ha; cbn [mbind result_bind] in Hi; [|done].
  destruct (IH _ _ Hi) as (Hn & Hall & Hnew). split_and!.
  - rewrite Hn. cbn [length]. lia.
  - constructor; [|done]. exists d0. split; [done|].
    assert (is_Some (insert_do_nothing d0 (date_attrs d0) t !! d0)) as [x Hx].
    { rewrite lookup_insert_do_nothing, decide_True by done. eauto. }
    exists x. by eapply insert_dates_keeps.
  - intros d x Hd. destruct (Hnew d x Hd) as [Hold|(Hnone & -> & a' & Hin & Ha')].
    + rewrite lookup_insert_do_nothing in Hold. case_decide as Heq; [|by left].
      subst d0. destruct (t !! d) as [y|] eqn:Hy; simpl in Hold; simplify_eq.
      * by left.
      * right. split_and!; [done..|]. exists a. split; [left|done].
    + rewrite lookup_insert_do_nothing in Hnone. case_decide; [done|].
      right. split_and!; [done..|]. exists a'. split; [by right|done].
Qed.

Lemma insert_dates_present args t n :
  Forall (λ a, ∃ d, date_of_arg a = Ok d ∧ is_Some (t !! d)) args →
  insert_dates args t n = Ok (t, n + Z.of_nat (length args)).
Proof.
  revert n. induction args as [|a args IH]; intros n Hall; cbn [insert_dates].
  { cbn. do 2 f_equal. lia. }
  apply Forall_cons in Hall as [(d & Ha & [x Hx]) Hall].
  rewrite Ha. cbn [mbind result_bind].
  unfold insert_do_nothing. rewrite Hx, IH by done.
  cbn [length]. do 2 f_equal. lia.
Qed.

(** X1. [ensure_dates_exist] returns the number of dates it was given,
    those already in [date_dim] included.  It leaves a row for each of
    them, changes no row that was there, and adds no other key; a second
    call with the same dates changes nothing and returns the same
    number. *)
Theorem ensure_dates_exist_idempotent (dates : list date_arg) (w w1 : world) (n : Z) :
  ensure_dates_exist E dates w = (w1, Ok n) →
  n = Z.of_nat (length dates) ∧
  (∀ a, a ∈ dates → ∃ d, date_of_arg a = Ok d ∧ is_Some (date_dim (w_db w1) !! d)) ∧
  (∀ d x, date_dim (w_db w) !! d = Some x → date_dim (w_db w1) !! d = Some x) ∧
  (∀ d x, date_dim (w_db w1) !! d = Some x → date_dim (w_db w) !! d = None →
          x = date_attrs d ∧ ∃ a, a ∈ dates ∧ date_of_arg a = Ok d) ∧
  ensure_dates_exist E dates w1 = (w1, Ok n).
Proof.
  rewrite ensure_dates_exist_run.
  destruct (db_fault E OpEnsureDates) eqn:Hfault; [done|].
  destruct (insert_dates dates (date_dim (w_db w)) 0) as [[t added]|e] eqn:Hrun; [|done].
  intros [= <- <-]. destruct (insert_dates_ok_inv _ _ _ _ _ Hrun) as (Hn & Hall & Hnew).
  split_and!.
  - lia.
  - intros a Ha. by apply (proj1 (Forall_forall _ _) Hall).
  - intros d x Hd. by eapply insert_dates_keeps.
  - intros d x Hd Hnone. simpl in Hd.
    destruct (Hnew d x Hd) as [Hold|(_ & -> & Ha)]; [congruence|done].
  - rewrite ensure_dates_exist_run, Hfault. simpl.
    rewrite (insert_dates_present dates t 0) by done.
    unfold set_date_dim. simpl. do 2 f_equal. lia.
Qed.


End DatesAgain.

Section DatesAgainExamples.
#[local] Existing Instance Reference.extern.

Lemma ensure_dates_exist_idempotent_witness :
  ∃ w1 n,
    ensure_dates_exist Scenario.calm [DStr "2024-01-01"; DStr "2024-01-02"; DStr "2024-01-02"]
      {| w_db := Scenario.dims_db; w_clock := 0 |} = (w1, Ok n) ∧
    n = 3 ∧
    ensure_dates_exist Scenario.calm [DStr "2024-01-01"; DStr "2024-01-02"; DStr "2024-01-02"]
      w1 = (w1, Ok n).
Proof.
  eexists _, _.
  assert (ensure_dates_exist Scenario.calm
            [DStr "2024-01-01"; DStr "2024-01-02"; DStr "2024-01-02"]
            {| w_db := Scenario.dims_db; w_clock := 0 |} =
          ((ensure_dates_exist Scenario.calm
              [DStr "2024-01-01"; DStr "2024-01-02"; DStr "2024-01-02"]
              {| w_db := Scenario.dims_db; w_clock := 0 |}).1, Ok 3)) as Hrun.
  { vm_compute. reflexivity. }
  split; [exact Hrun|].
  destruct (ensure_dates_exist_idempotent _ _ _ _ _ Hrun) as (Hn & _ & _ & _ & Hagain).
  split; [reflexivity|exact Hagain].
Defined.


End DatesAgainExamples.

(** ** The coercion helpers on numbers *)

Section CoercionsAgain.
Context `{Extern}.

Lemma quot_zero_iff (a : Z) (b : positive) :
  Z.quot a (Z.pos b) = 0 ↔ - Z.pos b < a < Z.pos b.
Proof.
  rewrite Z.quot_small_iff by lia. lia.
Qed.

(** X3. On a value that [float()] reads as a finite number, [safe_bool]
    is [True] exactly when the magnitude of the number is at least 1: it
    tests the integer part, so 0.5 is [False] and 2 or -3 are [True]. *)
Theorem safe_bool_tests_integer_part (v : pyval) (q : Q) :
  py_float v = Ok (FFin q) →
  (safe_bool v = Ok true ↔ (q <= -1 ∨ 1 <= q)%Q) ∧
  (safe_bool v = Ok false ↔ (-1 < q ∧ q < 1)%Q).
Proof.
  intros Hf. unfold safe_bool. rewrite Hf. cbn.
  pose proof (quot_zero_iff (Qnum q) (Qden q)) as Hz.
  unfold Qle, Qlt. cbn. 
  destruct (Z.eqb_spec (Qnum q ÷ Z.pos (Qden q)) 0) as [Hq|Hq]; cbn.
  - apply Hz in Hq. split; split; try done; try lia; intros [?|?]; lia.
  - assert (¬ (- Z.pos (Qden q) < Qnum q < Z.pos (Qden q))) as Hn by tauto.
    split; split; try done; try lia.
Qed.

(** X4. On a value that [float()] reads as a finite number, [safe_int]
    returns the integer part of the number, rounded toward zero: 123.7
    becomes 123 and -0.5 becomes 0. *)
Theorem safe_int_rounds_toward_zero (v : pyval) (q : Q) :
  pd_isna v = false →
  is_empty_str v = false →
  py_float v = Ok (FFin q) →
  ∃ n : Z,
    safe_int v = Ok (Some n) ∧
    (0 <= q → inject_Z n <= q ∧ q < inject_Z (n + 1))%Q ∧
    (q <= 0 → inject_Z (n - 1) < q ∧ q <= inject_Z n)%Q.
Proof.
  intros Hna Hem Hf. unfold safe_int. rewrite Hna, Hem, Hf. cbn.
  eexists. split; [done|].
  destruct q as [a b]. unfold Qle, Qlt, inject_Z. cbn.
  rewrite !Z.mul_1_r. split.
  - intros Ha. rewrite Z.quot_div_nonneg by lia.
    pose proof (Z.mul_div_le a (Z.pos b) ltac:(lia)).
    pose proof (Z.mul_succ_div_gt a (Z.pos b) ltac:(lia)). lia.
  - intros Ha.
    assert (a ÷ Z.pos b = - ((- a) / Z.pos b)) as ->.
    { rewrite <- Z.quot_div_nonneg by lia. rewrite Z.quot_opp_l by lia. lia. }
    pose proof (Z.mul_div_le (- a) (Z.pos b) ltac:(lia)).
    pose proof (Z.mul_succ_div_gt (- a) (Z.pos b) ltac:(lia)). lia.
Qed.

End CoercionsAgain.

Section CoercionsAgainExamples.
#[local] Existing Instance Reference.extern.

Lemma safe_bool_tests_integer_part_witness :
  py_float (VFloat (FFin (1 # 2))) = Ok (FFin (1 # 2)) ∧
  safe_bool (VFloat (FFin (1 # 2))) = Ok false ∧
  safe_bool (VStr "2") = Ok true.
Proof.
  split; [reflexivity|]. split.
  - apply (safe_bool_tests_integer_part (VFloat (FFin (1 # 2))) (1 # 2)); [reflexivity|].
    split; reflexivity.
  - apply (safe_bool_tests_integer_part (VStr "2") 2); [vm_compute; reflexivity|].
    right. discriminate.
Defined.

Lemma safe_int_rounds_toward_zero_witness :
  ∃ n, safe_int (VFloat (FFin (-7 # 2))) = Ok (Some n) ∧
       (inject_Z (n - 1) < -7 # 2 ∧ -7 # 2 <= inject_Z n)%Q.
Proof.
  destruct (safe_int_rounds_toward_zero (VFloat (FFin (-7 # 2))) (-7 # 2))
    as (n & Hn & _ & Hneg); [reflexivity..|].
  exists n. split; [exact Hn|]. apply Hneg. discriminate.
Defined.

End CoercionsAgainExamples.

(** ** Step A: what can make it raise *)

Section StepA.
Context `{Extern}.

Lemma py_float_raises v e : py_float v = Raise e → e = TypeError ∨ e = ValueError.
Proof.
  destruct v as [|f|n|b|s]; simpl; try discriminate.
  - intros [= <-]. by left.
  - destruct (float_of_str s); [discriminate|]. intros [= <-]. by right.
Qed.

Lemma safe_float_never_raises v : ∃ o, safe_float v = Ok o.
Proof.
  unfold safe_float. destruct (pd_isna v || is_empty_str v); [by eauto|].
  destruct (py_float v) as [f|e] eqn:Hf; simpl; [by eauto|].
  destruct (py_float_raises _ _ Hf) as [-> | ->]; eauto.
Qed.

Lemma safe_int_raises v e :
  safe_int v = Raise e → e = OverflowError ∧ ∃ neg, py_float v = Ok (FInf neg).
Proof.
  unfold safe_int. destruct (pd_isna v || is_empty_str v); [done|].
  destruct (py_float v) as [[|neg|q]|e'] eqn:Hf; simpl; try done.
  - intros [= <-]. eauto.
  - destruct (py_float_raises _ _ Hf) as [-> | ->]; done.
Qed.

Lemma safe_bool_raises v e :
  safe_bool v = Raise e → e = OverflowError ∧ ∃ neg, py_float v = Ok (FInf neg).
Proof.
  unfold safe_bool.
  destruct (py_float v) as [[|neg|q]|e'] eqn:Hf; simpl; try done.
  - intros [= <-]. eauto.
  - destruct (py_float_raises _ _ Hf) as [-> | ->]; done.
Qed.

Ltac float_cells :=
  repeat match goal with
  | |- context [safe_float ?v] =>
      let o := fresh "o" in
      let Ho := fresh "Ho" in
      destruct (safe_float_never_raises v) as [o Ho]; rewrite Ho; clear Ho
  end.

Lemma valid_tuple_inv row o d c fd :
  match valid_tuple row o d c fd with
  | Ok f =>
      origin_airport f = o ∧ dest_airport f = d ∧ carrier_code f = c ∧ flight_date f = fd
  | Raise e =>
      e = OverflowError ∧
      ∃ col neg, col ∈ integer_columns ∧ py_float (row_get row col) = Ok (FInf neg)
  end.
Proof.
  assert (∀ col e,
            (e = OverflowError ∧ ∃ neg, py_float (row_get row col) = Ok (FInf neg)) →
            col ∈ integer_columns →
            e = OverflowError ∧
            ∃ col neg, col ∈ integer_columns ∧ py_float (row_get row col) = Ok (FInf neg))
    as Hcol.
  { intros col e [-> [neg Hneg]] Hin. split; [done|]. by exists col, neg. }
  unfold valid_tuple. float_cells.
  destruct (safe_int (row_get row "Flight_Number_Reporting_Airline")) as [fn|e] eqn:Hfn;
    cbn [mbind result_bind].
  2: { apply safe_int_raises in Hfn. eapply Hcol; [done|]. set_solver. }
  destruct (safe_bool (row_get row "DepDel15")) as [dd15|e] eqn:Hdd;
    cbn [mbind result_bind].
  2: { apply safe_bool_raises in Hdd. eapply Hcol; [done|]. set_solver. }
  destruct (safe_bool (row_get row "ArrDel15")) as [ad15|e] eqn:Had;
    cbn [mbind result_bind].
  2: { apply safe_bool_raises in Had. eapply Hcol; [done|]. set_solver. }
  destruct (safe_bool (row_get row "Cancelled")) as [canc|e] eqn:Hcanc;
    cbn [mbind result_bind].
  2: { apply safe_bool_raises in Hcanc. eapply Hcol; [done|]. set_solver. }
  destruct (safe_bool (row_get row "Diverted")) as [div|e] eqn:Hdiv;
    cbn [mbind result_bind].
  2: { apply safe_bool_raises in Hdiv. eapply Hcol; [done|]. set_solver. }
  done.
Qed.

Lemma validate_rows_accepted va vc vd file_name idx chunk vs rs :
  validate_rows va vc vd file_name idx chunk = Ok (vs, rs) →
  Forall (λ f, origin_airport f ∈ va ∧ dest_airport f ∈ va ∧
               carrier_code f ∈ vc ∧ flight_date f ∈ vd) vs.
Proof.
  revert idx vs rs. induction chunk as [|row rest IH]; intros idx vs rs Hv.
  { simpl in Hv. simplify_eq. constructor. }
  rewrite validate_rows_cons in Hv.
  destruct (has_key_columns row); [|done].
  destruct (row_reasons va vc vd row) as [|reason reasons] eqn:Hreasons.
  - pose proof (valid_tuple_inv row (row_origin row) (row_dest row) (row_carrier row)
                  (row_flight_date row)) as Hf.
    destruct (valid_tuple _ _ _ _ _) as [f|]; simpl in Hv; [|done].
    destruct (validate_rows _ _ _ _ _ rest) as [[vs' rs']|] eqn:Hrest; simpl in Hv; [|done].
    simplify_eq. constructor; [|by eapply IH].
    apply reasons_nil_iff in Hreasons. destruct Hf as (-> & -> & -> & ->). done.
  - destruct (validate_rows _ _ _ _ _ rest) as [[vs' rs']|] eqn:Hrest; simpl in Hv; [|done].
    simplify_eq. by eapply IH.
Qed.

(** X5. Step A can fail in two ways only, and the first row that fails
    decides: with [KeyError], on a row whose frame lacks one of the four
    columns read with [row[...]], and with [OverflowError], on a row it
    accepted that holds an infinite value in the flight number or in one of
    the four flag columns.  The rows before that one all have their key
    columns; nothing else in a rejected row, and no other cell of an accepted
    row, can make it raise. *)
Theorem validation_raises_key_or_overflow (va vc vd : gset string) (file_name : string)
    (idx : Z) (chunk : list csv_row) (e : exn) :
  validate_rows va vc vd file_name idx chunk = Raise e →
  ∃ before row after,
    chunk = (before ++ row :: after)%list ∧
    Forall (λ r, has_key_columns r = true) before ∧
    ((has_key_columns row = false ∧ e = KeyError) ∨
     (has_key_columns row = true ∧ row_reasons va vc vd row = [] ∧
      e = OverflowError ∧
      ∃ col neg, col ∈ integer_columns ∧ py_float (row_get row col) = Ok (FInf neg))).
Proof.
  revert idx. induction chunk as [|row rest IH]; intros idx Hv; [done|].
  rewrite validate_rows_cons in Hv.
  destruct (has_key_columns row) eqn:Hcols.
  2: { exists [], row, rest. simplify_eq. split_and!; [done|constructor|by left]. }
  assert (validate_rows va vc vd file_name (idx + 1) rest = Raise e →
          ∃ before row0 after,
            row :: rest = (before ++ row0 :: after)%list ∧
            Forall (λ r, has_key_columns r = true) before ∧
            ((has_key_columns row0 = false ∧ e = KeyError) ∨
             (has_key_columns row0 = true ∧ row_reasons va vc vd row0 = [] ∧
              e = OverflowError ∧
              ∃ col neg, col ∈ integer_columns ∧
                         py_float (row_get row0 col) = Ok (FInf neg)))) as Hrest.
  { intros Hr. destruct (IH _ Hr) as (before & row0 & after & -> & Hbefore & Hcause).
    exists (row :: before), row0, after. split_and!; [done|by constructor|done]. }
  destruct (row_reasons va vc vd row) as [|reason reasons] eqn:Hreasons.
  - pose proof (valid_tuple_inv row (row_origin row) (row_dest row) (row_carrier row)
                  (row_flight_date row)) as Hf.
    destruct (valid_tuple _ _ _ _ _) as [f|e']; simpl in Hv.
    + destruct (validate_rows _ _ _ _ _ rest) as [[vs' rs']|] eqn:Hr; simpl in Hv; [done|].
      simplify_eq. by apply Hrest.
    + simplify_eq. destruct Hf as (-> & col & neg & Hcol & Hinf).
      exists [], row, rest. split_and!; [done|constructor|].
      right. split_and!; [done..|]. by exists col, neg.
  - destruct (validate_rows _ _ _ _ _ rest) as [[vs' rs']|] eqn:Hr; simpl in Hv; [done|].
    simplify_eq. by apply Hrest.
Qed.

Lemma rejected_only_returns va vc vd file_name idx chunk :
  Forall (λ row, row_reasons va vc vd row ≠ []) chunk →
  Forall (λ row, has_key_columns row = true) chunk →
  ∃ rs, validate_rows va vc vd file_name idx chunk = Ok ([], rs) ∧
        length rs = length chunk ∧
        Forall (λ r, rr_file_name r = file_name ∧ rr_rejection_reason r ≠ "") rs.
Proof.
  revert idx. induction chunk as [|row rest IH]; intros idx Hall Hcols.
  { exists []. by split_and!. }
  apply Forall_cons in Hall as [Hrow Hall].
  apply Forall_cons in Hcols as [Hcol Hcols].
  destruct (IH (idx + 1) Hall Hcols) as (rs & Hrest & Hlen & Hrs).
  rewrite validate_rows_cons, Hcol, Hrest.
  destruct (row_reasons va vc vd row) as [|reason reasons] eqn:Hreasons; [done|].
  simpl. eexists. split_and!; [done|simpl; lia|].
  constructor; [|done]. split; [done|]. simpl.
  unfold row_reasons, rejection_reasons in Hreasons.
  repeat case_bool_decide; simpl in Hreasons; simplify_eq; simpl; try done;
    repeat (match goal with |- context [match ?l with _ => _ end] => destruct l end);
    done.
Qed.

Lemma rejected_only_raises va vc vd file_name idx chunk e :
  Forall (λ row, row_reasons va vc vd row ≠ []) chunk →
  validate_rows va vc vd file_name idx chunk = Raise e →
  e = KeyError ∧ Exists (λ row, has_key_columns row = false) chunk.
Proof.
  revert idx. induction chunk as [|row rest IH]; intros idx Hall Hv; [done|].
  apply Forall_cons in Hall as [Hrow Hall].
  rewrite validate_rows_cons in Hv.
  destruct (has_key_columns row) eqn:Hcols.
  2: { simplify_eq. split; [done|]. by left. }
  destruct (row_reasons va vc vd row) as [|reason reasons] eqn:Hreasons; [done|].
  destruct (validate_rows _ _ _ _ _ rest) as [[vs' rs']|] eqn:Hr; simpl in Hv; [done|].
  simplify_eq. destruct (IH _ Hall Hr) as [-> Hex]. split; [done|]. by right.
Qed.

(** X6. Rejected rows are never coerced: a chunk in which every row fails
    a membership check goes through Step A whatever the cells of its columns
    hold, with no accepted row and one rejection record per row; the one
    thing that can stop it is a frame without one of the four key columns,
    on which Step A raises [KeyError] before any check. *)
Theorem rejected_rows_are_not_coerced (va vc vd : gset string) (file_name : string)
    (idx : Z) (chunk : list csv_row) :
  Forall (λ row, row_reasons va vc vd row ≠ []) chunk →
  (Forall (λ row, has_key_columns row = true) chunk →
   ∃ rs, validate_rows va vc vd file_name idx chunk = Ok ([], rs) ∧
         length rs = length chunk ∧
         Forall (λ r, rr_file_name r = file_name ∧ rr_rejection_reason r ≠ "") rs) ∧
  (∀ e, validate_rows va vc vd file_name idx chunk = Raise e →
        e = KeyError ∧ Exists (λ row, has_key_columns row = false) chunk).
Proof.
  intros Hall. split.
  - by apply rejected_only_returns.
  - intros e. by apply rejected_only_raises.
Qed.

End StepA.

Section StepAExamples.
#[local] Existing Instance Reference.extern.

(** An accepted row with an infinite Cancelled flag, after a rejected row;
    and a row of a file that has no Origin column. *)
Lemma validation_raises_key_or_overflow_witness :
  validate_rows Scenario.valid_airports Scenario.valid_carriers Scenario.valid_dates
    "january.csv" 0
    [Scenario.flight_row "XXX" "JFK" "DL" "2024-01-01" 99 (VFloat (FInf false));
     Scenario.flight_row "ATL" "JFK" "DL" "2024-01-01" 100 (VFloat (FInf false))] =
    Raise OverflowError ∧
  validate_rows Scenario.valid_airports Scenario.valid_carriers Scenario.valid_dates
    "january.csv" 0 [Samples.no_origin "JFK" "DL" "2024-01-01"] = Raise KeyError ∧
  ∃ before row after,
    [Samples.no_origin "JFK" "DL" "2024-01-01"] = (before ++ row :: after)%list ∧
    Forall (λ r, has_key_columns r = true) before ∧
    ((has_key_columns row = false ∧ KeyError = KeyError) ∨
     (has_key_columns row = true ∧
      row_reasons Scenario.valid_airports Scenario.valid_carriers Scenario.valid_dates
        row = [] ∧
      KeyError = OverflowError ∧
      ∃ col neg, col ∈ integer_columns ∧ py_float (row_get row col) = Ok (FInf neg))).
Proof.
  assert (validate_rows Scenario.valid_airports Scenario.valid_carriers Scenario.valid_dates
            "january.csv" 0 [Samples.no_origin "JFK" "DL" "2024-01-01"] = Raise KeyError)
    as Hv.
  { vm_compute. reflexivity. }
  split_and!; [vm_compute; reflexivity|exact Hv|].
  exact (validation_raises_key_or_overflow _ _ _ _ _ _ _ Hv).
Defined.

Lemma rejected_rows_are_not_coerced_witness :
  ∃ rs,
    validate_rows Scenario.valid_airports Scenario.valid_carriers Scenario.valid_dates
      "march.csv" 0 Scenario.march = Ok ([], rs) ∧
    length rs = 2%nat.
Proof.
  destruct (proj1 (rejected_rows_are_not_coerced Scenario.valid_airports
                     Scenario.valid_carriers Scenario.valid_dates "march.csv" 0
                     Scenario.march
                     ltac:(repeat constructor; vm_compute; discriminate))
                  ltac:(repeat constructor)) as (rs & Hv & Hlen & _).
  exists rs. split; [exact Hv|exact Hlen].
Defined.

End StepAExamples.

(** ** [load_flights]: the foreign keys of the fact table *)

Section ForeignKeys.
Context `{Extern}.
Variable E : env.

Lemma elem_of_date_ids (d : db) (s : string) :
  s ∈ date_ids d ↔ ∃ dt, s = Calendar.isoformat dt ∧ is_Some (date_dim d !! dt).
Proof.
  unfold date_ids. rewrite elem_of_map. by setoid_rewrite elem_of_dom.
Qed.

Lemma insert_flights_elem rows t f :
  f ∈ insert_flights rows t → f ∈ t ∨ f ∈ rows.
Proof.
  unfold insert_flights. revert t.
  induction rows as [|g rows IH]; intros t Hf; simpl in Hf; [by left|].
  apply IH in Hf as [Hf|Hf]; [|right; by right].
  unfold insert_flight in Hf. case_bool_decide; [by left|].
  apply elem_of_app in Hf as [Hf|Hf]; [by left|].
  apply list_elem_of_singleton in Hf as ->. right. by left.
Qed.

(** The rows the chunk loop adds passed the four checks. *)
Lemma run_chunks_elem chunk_size va vc vd file_name chunks d file_loaded file_rejected f :
  f ∈ flights (run_chunks E chunk_size va vc vd file_name chunks d
                 file_loaded file_rejected).1 →
  f ∈ flights d ∨
  (origin_airport f ∈ va ∧ dest_airport f ∈ va ∧ carrier_code f ∈ vc ∧ flight_date f ∈ vd).
Proof.
  revert d file_loaded file_rejected.
  induction chunks as [|[chunk_start chunk] rest IH]; intros d fl fr Hf; simpl in Hf;
    [by left|].
  destruct (validate_rows _ _ _ _ _ _) as [[vs rs]|e] eqn:Hv; [|by left].
  destruct (db_fault E _); [by left|].
  apply IH in Hf as [Hf|Hf]; [|by right]. simpl in Hf.
  apply insert_flights_elem in Hf as [Hf|Hf]; [by left|]. right.
  apply validate_rows_accepted in Hv.
  by apply (proj1 (Forall_forall _ _) Hv).
Qed.

(** The date step only adds to [date_dim], and every string it adds to the
    snapshot is the id of a row it leaves there. *)
Lemma add_missing_dates_grows valid_dates df w w' r :
  add_missing_dates E valid_dates df w = (w', r) →
  (∀ d x, date_dim (w_db w) !! d = Some x → date_dim (w_db w') !! d = Some x) ∧
  (∀ vd', r = Ok vd' → ∀ s, s ∈ vd' → s ∈ valid_dates ∨ s ∈ date_ids (w_db w')).
Proof.
  unfold add_missing_dates.
  unfold mbind at 1, task_bind at 1, lift at 1.
  destruct (file_dates df) as [ds|e] eqn:Hds.
  2: { intros [= <- <-]. by split. }
  case_bool_decide as Hempty.
  { intros [= <- <-]. split; [done|]. intros vd' [= <-] s Hs. by left. }
  unfold mbind, task_bind. rewrite ensure_dates_exist_run.
  destruct (db_fault E OpEnsureDates).
  { intros [= <- <-]. by split. }
  destruct (insert_dates _ _ _) as [[t added]|e] eqn:Hrun.
  2: { intros [= <- <-]. by split. }
  intros [= <- <-]. simpl. split.
  { intros d x. by eapply insert_dates_keeps. }
  intros vd' [= <-] s Hs.
  apply elem_of_union in Hs as [Hs|Hs]; [by left|]. right.
  apply insert_dates_ok_inv in Hrun as (_ & Hall & _).
  assert (DStr s ∈ DStr <$> elements ((list_to_set ds : gset string) ∖ valid_dates)) as Hin.
  { apply list_elem_of_fmap. exists s. split; [done|]. by apply elem_of_elements. }
  destruct (proj1 (Forall_forall _ _) Hall _ Hin) as (d & Hd & Hsome).
  apply elem_of_date_ids. exists d. split; [|done].
  apply elem_of_difference in Hs as [Hs _]. apply elem_of_list_to_set in Hs.
  apply file_dates_spec in Hds. apply Forall2_flip in Hds.
  destruct (proj1 (list_elem_of_lookup ds s) Hs) as [i Hi].
  destruct (Forall2_lookup_l _ _ _ _ _ Hds Hi) as (row & _ & d0 & _ & Hv & ->).
  simpl in Hd. rewrite CalendarFacts.strptime_isoformat in Hd by done. congruence.
Qed.

Lemma date_ids_mono (d d' : db) :
  (∀ dt x, date_dim d !! dt = Some x → date_dim d' !! dt = Some x) →
  ∀ s, s ∈ date_ids d → s ∈ date_ids d'.
Proof.
  intros Hmono s. rewrite !elem_of_date_ids.
  intros (dt & -> & [x Hx]). exists dt. split; [done|]. exists x. by apply Hmono.
Qed.

(** What one file keeps, whatever its outcome. *)
Lemma load_file_foreign_keys chunk_size va vc vd file_key w w' r :
  va ⊆ dom (airports (w_db w)) →
  vc ⊆ dom (carriers (w_db w)) →
  vd ⊆ date_ids (w_db w) →
  foreign_keys_hold (w_db w) →
  load_file E chunk_size va vc vd file_key w = (w', r) →
  airports (w_db w') = airports (w_db w) ∧
  carriers (w_db w') = carriers (w_db w) ∧
  foreign_keys_hold (w_db w') ∧
  (∀ vd' fl fr, r = Ok (vd', fl, fr) → vd' ⊆ date_ids (w_db w')).
Proof.
  intros Hva Hvc Hvd Hfk. rewrite load_file_run. unfold file_outcome.
  destruct (s3_csv E file_key) as [df|e].
  2: { intros [= <- <-]. by split_and!. }
  destruct (add_missing_dates _ _ _ _) as [w1 rd] eqn:Hadd.
  pose proof (add_missing_dates_grows _ _ _ _ _ Hadd) as [Hgrow Hnew].
  apply add_missing_dates_inv in Hadd as (_ & t & Hw1). simpl in Hw1, Hgrow.
  assert (∀ s, s ∈ date_ids (w_db w) → s ∈ date_ids (w_db w1)) as Hids.
  { by apply date_ids_mono. }
  assert (foreign_keys_hold (w_db w1)) as Hfk1.
  { intros f Hf. rewrite Hw1 in Hf. simpl in Hf.
    destruct (Hfk f Hf) as (? & ? & ? & ?). rewrite Hw1 at 1 2 3. simpl.
    split_and!; [done..|]. by apply Hids. }
  destruct rd as [vd1|e].
  2: { intros [= <- <-]. rewrite Hw1 at 1 2. by split_and!. }
  assert (vd1 ⊆ date_ids (w_db w1)) as Hvd1.
  { intros s Hs. destruct (Hnew vd1 eq_refl s Hs) as [Hold|Hin]; [|done].
    by apply Hids, Hvd. }
  pose proof (run_chunks_frame E chunk_size va vc vd1 (PyStr.last_segment file_key)
                (chunks_of (length df) (Z.to_nat chunk_size) 0 df) (w_db w1) 0 0)
    as (Ha & Hc & Hd & _ & _).
  pose proof (run_chunks_elem chunk_size va vc vd1 (PyStr.last_segment file_key)
                (chunks_of (length df) (Z.to_nat chunk_size) 0 df) (w_db w1) 0 0)
    as Helem.
  destruct (run_chunks _ _ _ _ _ _ _ _ _ _) as [d2 rc]; simpl in Ha, Hc, Hd, Helem.
  assert (airports d2 = airports (w_db w)) as Ha2 by (by rewrite Ha, Hw1).
  assert (carriers d2 = carriers (w_db w)) as Hc2 by (by rewrite Hc, Hw1).
  assert (date_ids d2 = date_ids (w_db w1)) as Hd2 by (unfold date_ids; by rewrite Hd).
  assert (foreign_keys_hold d2) as Hfk2.
  { intros f Hf. rewrite Ha2, Hc2, Hd2.
    destruct (Helem f Hf) as [Hold|(Ho & Hde & Hca & Hda)].
    - destruct (Hfk1 f Hold) as (? & ? & ? & ?).
      rewrite Hw1 in *. simpl in *. done.
    - split_and!; [by apply Hva|by apply Hva|by apply Hvc|by apply Hvd1]. }
  destruct rc as [[fl fr]|e].
  2: { intros [= <- <-]. simpl. by split_and!. }
  destruct (db_fault E _).
  { intros [= <- <-]. simpl. by split_and!. }
  intros [= <- <-]. simpl. split_and!; [done..| |].
  - intros f Hf. simpl in Hf. destruct (Hfk2 f Hf) as (? & ? & ? & ?). done.
  - intros vd' fl' fr' [= <- <- <-]. by rewrite <- Hd2 in Hvd1.
Qed.

Lemma load_new_files_foreign_keys chunk_size va vc vd files gl gr fp w w' r :
  va ⊆ dom (airports (w_db w)) →
  vc ⊆ dom (carriers (w_db w)) →
  vd ⊆ date_ids (w_db w) →
  foreign_keys_hold (w_db w) →
  load_new_files E chunk_size va vc vd files gl gr fp w = (w', r) →
  foreign_keys_hold (w_db w').
Proof.
  revert vd gl gr fp w.
  induction files as [|file_key rest IH]; intros vd gl gr fp w Hva Hvc Hvd Hfk Hrun.
  { simpl in Hrun. unfold mret, task_ret in Hrun. by simplify_eq. }
  cbn [load_new_files] in Hrun.
  apply task_bind_inv in Hrun as [(w1 & [[vd1 fl] fr] & Hfile & Hrest)|(e & Hfile & ->)].
  - destruct (load_file_foreign_keys _ _ _ _ _ _ _ _ Hva Hvc Hvd Hfk Hfile)
      as (Ha & Hc & Hfk1 & Hvd1).
    eapply IH; [| | |done|done].
    + by rewrite Ha.
    + by rewrite Hc.
    + by eapply Hvd1.
  - by destruct (load_file_foreign_keys _ _ _ _ _ _ _ _ Hva Hvc Hvd Hfk Hfile)
      as (_ & _ & Hfk1 & _).
Qed.

Lemma load_flights_foreign_keys w w' r :
  foreign_keys_hold (w_db w) →
  load_flights E w = (w', r) →
  foreign_keys_hold (w_db w').
Proof.
  intros Hfk. unfold load_flights. rewrite load_flights_chunked_run.
  destruct (db_fault E OpLedgerQuery); [by intros [= <- <-]|].
  destruct (new_files_of E _) as [|file_key rest]; [by intros [= <- <-]|].
  destruct (db_fault E OpSnapshot); [by intros [= <- <-]|].
  by apply load_new_files_foreign_keys.
Qed.

(** X7. [load_flights] keeps the foreign keys of the fact table: when
    every fact row names known airports, a known carrier and a date of
    [date_dim] before a run, the same holds after it, however the run
    ends.  The rows it adds passed the checks against the snapshot, and
    the dates it adds to the snapshot are in [date_dim] by then. *)
Theorem load_flights_keeps_foreign_keys (w w' : world) (r : result (list (string * Z))) :
  foreign_keys_hold (w_db w) →
  load_flights E w = (w', r) →
  foreign_keys_hold (w_db w').
Proof. apply load_flights_foreign_keys. Qed.

End ForeignKeys.

Section ForeignKeysExamples.
#[local] Existing Instance Reference.extern.

Lemma load_flights_keeps_foreign_keys_witness :
  foreign_keys_hold Scenario.dims_db ∧
  foreign_keys_hold
    (w_db (load_flights Scenario.with_march {| w_db := Scenario.dims_db; w_clock := 0 |}).1) ∧
  length (flights
    (w_db (load_flights Scenario.with_march {| w_db := Scenario.dims_db; w_clock := 0 |}).1))
    = 2%nat.
Proof.
  assert (foreign_keys_hold Scenario.dims_db) as Hfk.
  { intros f Hf. by apply elem_of_nil in Hf. }
  split; [exact Hfk|]. split.
  - apply (load_flights_keeps_foreign_keys Scenario.with_march
             {| w_db := Scenario.dims_db; w_clock := 0 |} _
             (load_flights Scenario.with_march {| w_db := Scenario.dims_db; w_clock := 0 |}).2
             Hfk).
    by destruct (load_flights _ _).
  - vm_compute. reflexivity.
Defined.

End ForeignKeysExamples.

(** ** [load_flights]: a file processed again, and a file without rows *)

Section Reprocessing.
Context `{Extern}.
Variable E : env.

Lemma run_chunks_keys_mono chunk_size va vc vd file_name chunks d file_loaded file_rejected k :
  k ∈ natural_key <$> flights d →
  k ∈ natural_key <$>
      flights (run_chunks E chunk_size va vc vd file_name chunks d
                 file_loaded file_rejected).1.
Proof.
  revert d file_loaded file_rejected.
  induction chunks as [|[chunk_start chunk] rest IH]; intros d fl fr Hk; simpl; [done|].
  destruct (validate_rows _ _ _ _ _ _) as [[vs rs]|e]; [|done].
  destruct (db_fault E _); [done|].
  apply IH. simpl. by apply insert_flights_keys_mono.
Qed.

(** The loop run over a warehouse that holds the keys of everything a
    first pass committed. *)
Lemma run_chunks_again chunk_size va vc vd file_name chunks d fl fr d1 fl1 fr1 :
  run_chunks E chunk_size va vc vd file_name chunks d fl fr = (d1, Ok (fl1, fr1)) →
  ∃ rs,
    rejected_records d1 = (rejected_records d ++ rs)%list ∧
    ∀ d' fl' fr',
      (∀ k, k ∈ natural_key <$> flights d1 → k ∈ natural_key <$> flights d') →
      ∃ d2,
        run_chunks E chunk_size va vc vd file_name chunks d' fl' fr' =
          (d2, Ok (fl' + (fl1 - fl), fr' + (fr1 - fr))) ∧
        flights d2 = flights d' ∧
        rejected_records d2 = (rejected_records d' ++ rs)%list.
Proof.
  revert d fl fr.
  induction chunks as [|[chunk_start chunk] rest IH]; intros d fl fr Hrun; simpl in Hrun.
  { simplify_eq. exists []. split; [by rewrite app_nil_r|].
    intros d' fl' fr' _. exists d'. simpl. split_and!.
    - do 3 f_equal; lia.
    - done.
    - by rewrite app_nil_r. }
  destruct (validate_rows _ _ _ _ _ _) as [[vs rs]|e] eqn:Hv; [|done].
  destruct (db_fault E _) eqn:Hfault; [done|].
  pose proof (run_chunks_keys_mono chunk_size va vc vd file_name rest
                (apply_chunk vs rs d) (fl + Z.of_nat (length vs))
                (fr + Z.of_nat (length rs))) as Hmono.
  rewrite Hrun in Hmono. simpl in Hmono.
  destruct (IH _ _ _ Hrun) as (rs' & Hrej & Hagain).
  exists (rs ++ rs')%list. split.
  { rewrite Hrej. simpl. by rewrite app_assoc. }
  intros d' fl' fr' Hkeys. simpl. rewrite Hv, Hfault.
  assert (insert_flights vs (flights d') = flights d') as Habs.
  { apply insert_flights_absorbed. intros f Hf. apply Hkeys, Hmono.
    by apply insert_flights_keys. }
  destruct (Hagain (apply_chunk vs rs d') (fl' + Z.of_nat (length vs))
              (fr' + Z.of_nat (length rs))) as (d2 & Hrun2 & Hfl2 & Hrej2).
  { intros k Hk. simpl. rewrite Habs. by apply Hkeys. }
  exists d2. rewrite Hrun2. split_and!.
  - do 3 f_equal; lia.
  - rewrite Hfl2. simpl. done.
  - rewrite Hrej2. simpl. by rewrite app_assoc.
Qed.

(** X8. Running the chunk loop of a file a second time, after a first
    pass that went through (the retry of a file whose ledger row could not
    be written), adds no fact row and reports the same two counters, but
    appends the rejection records of the file to [rejected_records] once
    more: the loaded counter counts rows submitted, not rows inserted, and
    the audit sink has no conflict target. *)
Theorem reprocessing_repeats_rejections (chunk_size : Z) (va vc vd : gset string)
    (file_name : string) (chunks : list (Z * list csv_row)) (fl fr fl1 fr1 : Z)
    (w w1 : world) :
  process_chunks E chunk_size va vc vd file_name chunks fl fr w = (w1, Ok (fl1, fr1)) →
  ∃ w2 rs,
    process_chunks E chunk_size va vc vd file_name chunks fl fr w1 = (w2, Ok (fl1, fr1)) ∧
    flights (w_db w2) = flights (w_db w1) ∧
    rejected_records (w_db w1) = (rejected_records (w_db w) ++ rs)%list ∧
    rejected_records (w_db w2) = (rejected_records (w_db w) ++ rs ++ rs)%list ∧
    Z.of_nat (length rs) = fr1 - fr.
Proof.
  rewrite !process_chunks_run.
  destruct (run_chunks E chunk_size va vc vd file_name chunks (w_db w) fl fr)
    as [d1 r1] eqn:Hrun. simpl.
  intros [= <- ->]. simpl.
  destruct (run_chunks_again _ _ _ _ _ _ _ _ _ _ _ _ Hrun) as (rs & Hrej & Hagain).
  destruct (Hagain d1 fl fr) as (d2 & Hrun2 & Hfl2 & Hrej2); [done|].
  eexists _, rs. rewrite Hrun2. simpl. split_and!.
  - do 3 f_equal; lia.
  - done.
  - done.
  - simpl. by rewrite Hrej2, Hrej, app_assoc.
  - revert Hrun Hrej. clear. revert fl fr rs.
    generalize (w_db w). clear w.
    induction chunks as [|[chunk_start chunk] rest IH]; intros d fl fr rs Hrun Hrej;
      simpl in Hrun.
    { simplify_eq. assert (rs = []) as ->; [|simpl; lia].
      apply (f_equal length) in Hrej. rewrite length_app in Hrej.
      destruct rs; [done|simpl in Hrej; lia]. }
    destruct (validate_rows _ _ _ _ _ _) as [[vs rs0]|e] eqn:Hv; [|done].
    destruct (db_fault E _) eqn:Hfault; [done|].
    pose proof (run_chunks_again _ _ _ _ _ _ _ _ _ _ _ _ Hrun) as (rs' & Hrej' & _).
    simpl in Hrej'. rewrite Hrej', <- app_assoc in Hrej.
    apply app_inv_head in Hrej. subst rs.
    specialize (IH _ _ _ _ Hrun Hrej'). rewrite length_app. lia.
Qed.


End Reprocessing.

Section ReprocessingExamples.
#[local] Existing Instance Reference.extern.

Lemma reprocessing_repeats_rejections_witness :
  ∃ w1 w2 rs,
    process_chunks Scenario.calm 2 Scenario.valid_airports Scenario.valid_carriers
      Scenario.valid_dates "january.csv"
      (chunks_of 3 2 0 Scenario.january) 0 0 {| w_db := Scenario.dims_db; w_clock := 0 |} =
      (w1, Ok (1, 2)) ∧
    process_chunks Scenario.calm 2 Scenario.valid_airports Scenario.valid_carriers
      Scenario.valid_dates "january.csv"
      (chunks_of 3 2 0 Scenario.january) 0 0 w1 = (w2, Ok (1, 2)) ∧
    flights (w_db w2) = flights (w_db w1) ∧
    length rs = 2%nat ∧
    rejected_records (w_db w2) = (rs ++ rs)%list.
Proof.
  assert (process_chunks Scenario.calm 2 Scenario.valid_airports Scenario.valid_carriers
            Scenario.valid_dates "january.csv"
            (chunks_of 3 2 0 Scenario.january) 0 0
            {| w_db := Scenario.dims_db; w_clock := 0 |} =
          ((process_chunks Scenario.calm 2 Scenario.valid_airports Scenario.valid_carriers
              Scenario.valid_dates "january.csv"
              (chunks_of 3 2 0 Scenario.january) 0 0
              {| w_db := Scenario.dims_db; w_clock := 0 |}).1, Ok (1, 2))) as Hrun.
  { vm_compute. reflexivity. }
  destruct (reprocessing_repeats_rejections _ _ _ _ _ _ _ _ _ _ _ _ _ Hrun)
    as (w2 & rs & Hagain & Hfl & Hrej1 & Hrej2 & Hlen).
  eexists _, w2, rs. split; [exact Hrun|]. split; [exact Hagain|]. split; [exact Hfl|].
  split; [lia|]. exact Hrej2.
Defined.


End ReprocessingExamples.

(** ** [load_airports]: failure, the codes it adds, and a second run *)

Section AirportsAgain.
Context `{Extern}.
Variable E : env.

Lemma lookup_first_elem code rows r :
  lookup_first code rows = Some r → (code, r) ∈ rows.
Proof.
  induction rows as [|[c r0] rest IH]; simpl; [done|].
  case_decide as Hc.
  - intros [= <-]. subst c. by left.
  - intros Hr. right. by apply IH.
Qed.

Lemma first_seen_elem code raw r :
  first_seen code raw = Some r → r ∈ raw ∧ iata_code r = Some code.
Proof.
  induction raw as [|r0 rest IH]; simpl; [done|].
  case_decide as Hc.
  - intros [= <-]. split; [by left|done].
  - intros Hr. destruct (IH Hr). split; [by right|done].
Qed.

Lemma iata_code_shape r code :
  iata_code r = Some code →
  ra_airport_code r = VStr code ∧ PyStr.len code = 3%nat ∧ code ≠ "\N".
Proof.
  unfold iata_code. destruct (ra_airport_code r) as [| | | |s]; try done.
  destruct (String.eqb_spec s "\N") as [->|Hne]; simpl; [done|].
  destruct (Nat.eqb_spec (PyStr.len s) 3); [|done].
  by intros [= <-].
Qed.

Lemma insert_airports_raises rows t n c r e :
  (c, r) ∈ rows → airport_tuple r = Raise e → ∃ e', insert_airports rows t n = Raise e'.
Proof.
  revert t n. induction rows as [|[c0 r0] rest IH]; intros t n Hin Hr.
  { by apply elem_of_nil in Hin. }
  simpl. destruct (airport_tuple r0) as [a|e0] eqn:Ha; simpl; [|by eauto].
  apply elem_of_cons in Hin as [Heq|Hin]; [injection Heq as -> ->; congruence|].
  by apply IH.
Qed.

Lemma insert_airports_present rows t n :
  Forall (λ cr : string * raw_airport,
            (∃ a, airport_tuple cr.2 = Ok a) ∧ is_Some (t !! cr.1)) rows →
  insert_airports rows t n = Ok (t, n + Z.of_nat (length rows)).
Proof.
  revert n. induction rows as [|[c r] rest IH]; intros n Hall; simpl.
  { do 2 f_equal. lia. }
  apply Forall_cons in Hall as [[[a Ha] [x Hx]] Hall]. simpl in Ha, Hx.
  rewrite Ha. simpl. unfold insert_do_nothing. rewrite Hx, IH by done.
  do 2 f_equal. lia.
Qed.

Lemma insert_airports_ok_rows rows t n t' n' :
  insert_airports rows t n = Ok (t', n') →
  Forall (λ cr : string * raw_airport,
            (∃ a, airport_tuple cr.2 = Ok a) ∧ is_Some (t' !! cr.1)) rows.
Proof.
  revert t n. induction rows as [|[c r] rest IH]; intros t n Hi; simpl in Hi.
  { constructor. }
  destruct (airport_tuple r) as [a|] eqn:Ha; simpl in Hi; [|done].
  constructor; [|by eapply IH]. simpl. split; [by eauto|].
  apply insert_airports_spec in Hi as [_ Hlook]. rewrite Hlook.
  rewrite lookup_insert_do_nothing, decide_True by done. eauto.
Qed.

(** X10. [load_airports] is all or nothing: when the row kept for some
    code has an altitude that [int()] refuses, the run raises, no airport
    of the file is in the table and no ledger row is written. *)
Theorem load_airports_all_or_nothing (w : world) (raw : list raw_airport)
    (code : string) (r : raw_airport) (e : exn) :
  s3_airports E = Ok raw →
  db_fault E OpAirports = false →
  first_seen code raw = Some r →
  airport_tuple r = Raise e →
  ∃ e', load_airports E w = (w, Raise e').
Proof.
  intros Hraw Hfault Hfirst Hr.
  rewrite <- lookup_first_valid_iata_rows in Hfirst.
  apply lookup_first_elem in Hfirst.
  destruct (insert_airports_raises _ (airports (w_db w)) 0 _ _ _ Hfirst Hr) as [e' He'].
  exists e'.
  unfold load_airports, mbind, task_bind, lift, get_connection, read_db, write_db,
    dt_now, mret, task_ret.
  rewrite Hraw, Hfault. simpl. rewrite He'. simpl. by destruct w.
Qed.

(** X11. Every code [load_airports] adds to the table is a string of the
    file that is three characters long, whatever the number of bytes of its
    characters, and is not the marker backslash-N; every such string of the
    file is added; the codes that were in the table are still there. *)
Theorem load_airports_adds_iata_codes (w w' : world) (n : Z) (raw : list raw_airport)
    (code : string) :
  s3_airports E = Ok raw →
  load_airports E w = (w', Ok n) →
  code ∈ dom (airports (w_db w')) ↔
  code ∈ dom (airports (w_db w)) ∨
  (PyStr.len code = 3%nat ∧ code ≠ "\N" ∧
   ∃ r, r ∈ raw ∧ ra_airport_code r = VStr code).
Proof.
  intros Hraw Hrun.
  apply load_airports_ok_inv in Hrun as (raw' & t & Hraw' & Hins & ->).
  rewrite Hraw in Hraw'. simplify_eq. simpl.
  pose proof (insert_airports_ok_rows _ _ _ _ _ Hins) as Hrows.
  apply insert_airports_spec in Hins as [_ Hlook].
  rewrite !elem_of_dom, Hlook, lookup_first_valid_iata_rows. split.
  - destruct (airports (w_db w) !! code) as [a|]; [by left|].
    intros [a Ha]. right.
    destruct (first_seen code raw') as [r|] eqn:Hfirst; [|done].
    apply first_seen_elem in Hfirst as [Hin Hcode].
    apply iata_code_shape in Hcode as (Hcell & Hlen & Hne). eauto.
  - intros [[a Ha]|(Hlen & Hne & r & Hin & Hcell)]; [rewrite Ha; eauto|].
    destruct (airports (w_db w) !! code) as [a|]; [by eauto|].
    assert (∃ r0, first_seen code raw' = Some r0) as [r0 Hr0].
    { clear Hrows Hlook Hraw. induction raw' as [|r1 rest IH]; [by apply elem_of_nil in Hin|].
      simpl. case_decide; [by eauto|].
      apply elem_of_cons in Hin as [->|Hin]; [|by apply IH].
      exfalso. unfold iata_code in *. rewrite Hcell in *.
      rewrite Hlen, Nat.eqb_refl in *.
      destruct (String.eqb_spec code "\N"); simpl in *; done. }
    rewrite Hr0. simpl.
    rewrite <- lookup_first_valid_iata_rows in Hr0. apply lookup_first_elem in Hr0.
    destruct (proj1 (Forall_forall _ _) Hrows _ Hr0) as [[a Ha] _]. simpl in Ha.
    unfold tuple_of. rewrite Ha. eauto.
Qed.

(** X12. Running [load_airports] again on the same file changes no
    airport and returns the same number: rows_loaded counts the rows
    submitted, the ones the conflict target absorbs included. *)
Theorem load_airports_again (w w1 : world) (n : Z) :
  load_airports E w = (w1, Ok n) →
  ∃ w2,
    load_airports E w1 = (w2, Ok n) ∧
    airports (w_db w2) = airports (w_db w1) ∧
    ∃ raw, s3_airports E = Ok raw ∧ n = Z.of_nat (length (valid_iata_rows raw)).
Proof.
  intros Hrun.
  assert (db_fault E OpAirports = false ∧
          db_fault E (OpLedgerWrite "airports.dat") = false) as [Hf1 Hf2].
  { revert Hrun.
    unfold load_airports, mbind, task_bind, lift, get_connection, read_db, write_db,
      dt_now, mret, task_ret.
    destruct (s3_airports E) as [raw|]; [|done].
    destruct (db_fault E OpAirports); [done|]. simpl.
    destruct (insert_airports _ _ _) as [[t m]|]; [|done]. simpl.
    by destruct (db_fault E (OpLedgerWrite "airports.dat")). }
  apply load_airports_ok_inv in Hrun as (raw & t & Hraw & Hins & Hw1).
  pose proof (insert_airports_ok_rows _ _ _ _ _ Hins) as Hrows.
  pose proof (insert_airports_spec _ _ _ _ _ Hins) as [Hn _].
  assert (airports (w_db w1) = t) as Ht by (by rewrite Hw1).
  pose proof (insert_airports_present _ t 0 Hrows) as Hagain.
  eexists. split_and!.
  - unfold load_airports, mbind, task_bind, lift, get_connection, read_db, write_db,
      dt_now, mret, task_ret.
    rewrite Hraw, Hf1. simpl. rewrite Ht, Hagain. simpl. rewrite Hf2. simpl.
    do 2 f_equal. lia.
  - simpl. rewrite Ht. done.
  - exists raw. split; [done|lia].
Qed.

End AirportsAgain.

Section WeatherEarly.
Context `{Extern}.
Variable E : env.

(** X13. [load_weather] stops before it asks for any observation when the
    warehouse has no airport with a station, or no date: it returns zero
    counters under the keys loaded and rejected, and writes nothing, not
    even a ledger row. *)
Theorem load_weather_nothing_to_do (w : world) :
  db_fault E OpWeatherRead = false →
  (∀ code, code ∈ dom (airports (w_db w)) → code ∉ get_mapped_airports) ∨
    date_dim (w_db w) = ∅ →
  load_weather E w =
    ({| w_db := w_db w; w_clock := w_clock w + 1 |}, Ok [("loaded", 0); ("rejected", 0)]).
Proof.
  intros Hfault Hnone.
  unfold load_weather, mbind, task_bind, get_connection, dt_now, read_db, mret, task_ret.
  rewrite Hfault. cbn [w_db w_clock].
  destruct (elements (dom (airports (w_db w)) ∩ list_to_set get_mapped_airports))
    as [|a l] eqn:Hel; [done|].
  destruct Hnone as [Hnone|Hnone].
  - exfalso. assert (a ∈ a :: l) as Ha by left.
    rewrite <- Hel in Ha. apply elem_of_elements, elem_of_intersection in Ha as [Ha Hm].
    apply elem_of_list_to_set in Hm. by apply (Hnone a).
  - cbn [w_db]. rewrite Hnone, dom_empty_L, elements_empty. done.
Qed.

End WeatherEarly.

Section GateAgain.
Context `{Extern}.
Variable E : env.

Lemma latest_of_list (l : list (string * string * run)) :
  match foldr (λ (kr : string * string * run) (best : option run),
                 if bool_decide (kr.1.2 = "flights") then
                   match best with
                   | Some b => if completed_at b <? completed_at kr.2 then Some kr.2 else Some b
                   | None => Some kr.2
                   end
                 else best) None l with
  | Some r =>
      (∃ n, (n, "flights", r) ∈ l) ∧
      ∀ n' r', (n', "flights", r') ∈ l → completed_at r' ≤ completed_at r
  | None => ∀ n' r', (n', "flights", r') ∉ l
  end.
Proof.
  induction l as [|[[n src] r0] l IH]; simpl.
  { intros n' r'. apply not_elem_of_nil. }
  case_bool_decide as Hsrc; simpl in Hsrc.
  - subst src. destruct (foldr _ _ l) as [b|].
    + destruct IH as [[nb Hb] Hmax].
      destruct (Z.ltb_spec (completed_at b) (completed_at r0)) as [Hlt|Hge].
      * split; [exists n; left|].
        intros n' r' Hin. apply elem_of_cons in Hin as [Heq|Hin]; [simplify_eq; lia|].
        specialize (Hmax _ _ Hin). lia.
      * split; [exists nb; by right|].
        intros n' r' Hin. apply elem_of_cons in Hin as [Heq|Hin]; [simplify_eq; lia|].
        by eapply Hmax.
    + split; [exists n; left|].
      intros n' r' Hin. apply elem_of_cons in Hin as [Heq|Hin]; [simplify_eq; lia|].
      by destruct (IH n' r').
  - destruct (foldr _ _ l) as [b|].
    + destruct IH as [[nb Hb] Hmax]. split; [exists nb; by right|].
      intros n' r' Hin. apply elem_of_cons in Hin as [Heq|Hin]; [by simplify_eq|].
      by eapply Hmax.
    + intros n' r' Hin. apply elem_of_cons in Hin as [Heq|Hin]; [by simplify_eq|].
      by destruct (IH n' r').
Qed.

(** X14. The run the rejection check judges is a flights row of the ledger
    with the greatest completed_at, and the check has no run to judge only
    when the ledger has no flights row: rows of other sources and older
    flights rows, whatever their counters, have no part in the gate. *)
Theorem latest_flights_run_is_newest (t : gmap (string * string) run) :
  match latest_flights_run t with
  | Some r =>
      (∃ n, t !! (n, "flights") = Some r) ∧
      ∀ n' r', t !! (n', "flights") = Some r' → completed_at r' ≤ completed_at r
  | None => ∀ n', t !! (n', "flights") = None
  end.
Proof.
  unfold latest_flights_run. pose proof (latest_of_list (map_to_list t)) as Hl.
  destruct (foldr _ _ _) as [r|].
  - destruct Hl as [[n Hn] Hmax]. split.
    + exists n. by apply elem_of_map_to_list in Hn.
    + intros n' r' Hr'. apply (Hmax n' r'). by apply elem_of_map_to_list.
  - intros n'. destruct (t !! (n', "flights")) as [r'|] eqn:Hr'; [|done].
    destruct (Hl n' r'). by apply elem_of_map_to_list.
Qed.

Lemma count_checks_total checks :
  count_checks true checks + count_checks false checks =
    Z.of_nat (length (filter (λ c : option bool, is_Some c) checks)).
Proof.
  unfold count_checks. induction checks as [|c l IH]; [done|].
  rewrite !filter_cons.
  destruct c as [[]|]; repeat case_decide; simplify_eq; simpl;
    try lia;
    try (match goal with Hn : ¬ is_Some (Some _) |- _ => by destruct Hn end);
    try (match goal with Hs : is_Some None |- _ => by destruct Hs end).
Qed.

Lemma count_checks_nonneg outcome checks : 0 ≤ count_checks outcome checks.
Proof. unfold count_checks. lia. Qed.

(** X15. [run_quality_checks] reads and never writes: whatever it returns
    or raises, the warehouse and the clock are as before.  When it returns,
    no check failed and nine or ten passed (nine when the rejection check
    had nothing to judge); when it raises for failed checks, their number
    is between one and ten. *)
Theorem quality_gate_only_reads (w w' : world) (r : result (list (string * Z))) :
  run_quality_checks E w = (w', r) →
  w' = w ∧
  match r with
  | Ok res => ∃ passed, res = [("passed", passed); ("failed", 0)] ∧ (passed = 9 ∨ passed = 10)
  | Raise (QualityError failed) => 1 ≤ failed ≤ 10
  | Raise e => e = DatabaseError ∨ e = ZeroDivisionError ∨ e = TypeError
  end.
Proof.
  rewrite run_quality_checks_run.
  destruct (db_fault E OpQuality); [intros [= <- <-]; by auto|].
  destruct (quality_checks (w_db w)) as [checks|e] eqn:Hq.
  2: { intros [= <- <-]. split; [done|].
       unfold quality_checks in Hq.
       destruct (rejection_check _) as [c7|e'] eqn:Hc7; simpl in Hq; [done|].
       simplify_eq. unfold rejection_check in Hc7.
       destruct (latest_flights_run _) as [r0|]; [|done].
       destruct (0 <? rows_loaded r0); [|done].
       unfold reject_rate in Hc7.
       destruct (_ =? 0); simpl in Hc7; simplify_eq. auto. }
  assert (count_checks true checks + count_checks false checks = 9 ∨
          count_checks true checks + count_checks false checks = 10) as Htotal.
  { rewrite count_checks_total. unfold quality_checks in Hq.
    destruct (rejection_check _) as [c7|]; simpl in Hq; [|done]. simplify_eq.
    rewrite !filter_cons, !decide_True by eauto.
    destruct c7 as [b|].
    - rewrite decide_True by eauto. right. done.
    - rewrite decide_False by (by intros []). left. done. }
  pose proof (count_checks_nonneg true checks).
  pose proof (count_checks_nonneg false checks).
  destruct (print_summary (w_db w)) as [[]|e] eqn:Hp.
  2: { intros [= <- <-]. split; [done|]. unfold print_summary in Hp.
       destruct (flights (w_db w)); simplify_eq. auto. }
  destruct (Z.ltb_spec 0 (count_checks false checks)) as [Hpos|Hzero].
  - intros [= <- <-]. split; [done|]. lia.
  - intros [= <- <-]. split; [done|].
    assert (count_checks false checks = 0) as -> by lia.
    eexists. split; [done|]. lia.
Qed.

(** X16. The two orphan checks of the gate cannot fail on what
    [load_flights] leaves: on a warehouse whose fact rows had their
    foreign keys before the run, no fact row has an origin or a
    destination outside [airports] after it, so checks 4 and 5 pass. *)
Theorem orphan_checks_pass_after_load (w w' : world) (r : result (list (string * Z)))
    (checks : list (option bool)) :
  foreign_keys_hold (w_db w) →
  load_flights E w = (w', r) →
  quality_checks (w_db w') = Ok checks →
  checks !! 3%nat = Some (Some true) ∧ checks !! 4%nat = Some (Some true).
Proof.
  intros Hfk Hrun Hq.
  pose proof (load_flights_foreign_keys E w w' r Hfk Hrun) as Hfk'.
  unfold quality_checks in Hq.
  destruct (rejection_check _) as [c7|]; simpl in Hq; [|done]. simplify_eq.
  assert (∀ (col : flight → string),
            (∀ f, f ∈ flights (w_db w') → col f ∈ airport_codes (w_db w')) →
            count_rows (λ f, bool_decide (col f ∉ airport_codes (w_db w')))
              (flights (w_db w')) = 0%nat) as Hzero.
  { intros col Hcol. unfold count_rows.
    assert (filter (λ f, bool_decide (col f ∉ airport_codes (w_db w')) = true)
              (flights (w_db w')) = []) as ->; [|done].
    apply elem_of_nil_inv. intros f Hf.
    apply list_elem_of_filter in Hf as [Hbad Hin].
    apply bool_decide_eq_true_1 in Hbad. by apply Hbad, Hcol. }
  simpl. rewrite !Hzero; [done|..].
  - intros f Hf. by destruct (Hfk' f Hf) as (_ & ? & _).
  - intros f Hf. by destruct (Hfk' f Hf) as (? & _).
Qed.

End GateAgain.

Section LoadersExamples.
#[local] Existing Instance Reference.extern.

Lemma load_airports_all_or_nothing_witness :
  ∃ e',
    load_airports Samples.calm_no_altitude {| w_db := Scenario.empty_db; w_clock := 0 |} =
      ({| w_db := Scenario.empty_db; w_clock := 0 |}, Raise e').
Proof.
  apply (load_airports_all_or_nothing Samples.calm_no_altitude _
           (Scenario.airports_dat ++ [Samples.no_altitude])%list "BOS" Samples.no_altitude
           ValueError); vm_compute; reflexivity.
Defined.

(** Of the two accented codes of the file the one of three characters,
    which takes four bytes, is loaded, and the one of two characters, which
    takes three bytes, is not. *)
Lemma load_airports_adds_iata_codes_witness :
  ∃ w' n,
    load_airports Samples.calm_accented {| w_db := Scenario.dims_db; w_clock := 0 |} =
      (w', Ok n) ∧
    PyStr.len Samples.three_characters = 3%nat ∧
    String.length Samples.three_characters = 4%nat ∧
    PyStr.len Samples.two_characters = 2%nat ∧
    String.length Samples.two_characters = 3%nat ∧
    Samples.three_characters ∈ dom (airports (w_db w')) ∧
    Samples.two_characters ∉ dom (airports (w_db w')).
Proof.
  assert (load_airports Samples.calm_accented {| w_db := Scenario.dims_db; w_clock := 0 |} =
          ((load_airports Samples.calm_accented
              {| w_db := Scenario.dims_db; w_clock := 0 |}).1, Ok 3)) as Hrun.
  { vm_compute. reflexivity. }
  eexists _, _. split; [exact Hrun|].
  split_and!; [reflexivity..| |].
  - apply (load_airports_adds_iata_codes Samples.calm_accented _ _ _
             Samples.accented_dat Samples.three_characters eq_refl Hrun).
    right. split_and!; [reflexivity|discriminate|].
    exists (Scenario.airport_line Samples.three_characters "Three characters").
    split; [|reflexivity]. unfold Samples.accented_dat.
    apply elem_of_app. right. left.
  - intros Hin.
    apply (load_airports_adds_iata_codes Samples.calm_accented _ _ _
             Samples.accented_dat Samples.two_characters eq_refl Hrun) in Hin.
    destruct Hin as [Hin|(Hlen & _)]; [|discriminate Hlen].
    revert Hin. apply (bool_decide_unpack _). vm_compute. exact I.
Defined.

Lemma load_airports_again_witness :
  ∃ w1 w2,
    load_airports Scenario.calm {| w_db := Scenario.empty_db; w_clock := 0 |} = (w1, Ok 2) ∧
    load_airports Scenario.calm w1 = (w2, Ok 2) ∧
    airports (w_db w2) = airports (w_db w1).
Proof.
  assert (load_airports Scenario.calm {| w_db := Scenario.empty_db; w_clock := 0 |} =
          ((load_airports Scenario.calm
              {| w_db := Scenario.empty_db; w_clock := 0 |}).1, Ok 2)) as Hrun.
  { vm_compute. reflexivity. }
  destruct (load_airports_again Scenario.calm _ _ _ Hrun) as (w2 & Hagain & Heq & _).
  eexists _, w2. split; [exact Hrun|]. split; [exact Hagain|exact Heq].
Defined.

Lemma load_weather_nothing_to_do_witness :
  load_weather Scenario.calm {| w_db := Scenario.empty_db; w_clock := 0 |} =
    ({| w_db := Scenario.empty_db; w_clock := 1 |}, Ok [("loaded", 0); ("rejected", 0)]).
Proof.
  apply (load_weather_nothing_to_do Scenario.calm
           {| w_db := Scenario.empty_db; w_clock := 0 |}); [reflexivity|].
  right. reflexivity.
Defined.

Lemma quality_gate_only_reads_witness :
  (run_quality_checks Scenario.calm Scenario.after_march).1 = Scenario.after_march.
Proof.
  exact (proj1 (quality_gate_only_reads Scenario.calm Scenario.after_march _ _
                  (surjective_pairing _))).
Defined.

Lemma orphan_checks_pass_after_load_witness :
  ∃ w' r checks,
    load_flights Scenario.with_march {| w_db := Scenario.dims_db; w_clock := 0 |} = (w', r) ∧
    quality_checks (w_db w') = Ok checks ∧
    checks !! 3%nat = Some (Some true) ∧ checks !! 4%nat = Some (Some true).
Proof.
  assert (foreign_keys_hold Scenario.dims_db) as Hfk.
  { intros f Hf. by apply elem_of_nil in Hf. }
  assert (∃ checks,
            quality_checks
              (w_db (load_flights Scenario.with_march
                       {| w_db := Scenario.dims_db; w_clock := 0 |}).1) = Ok checks)
    as [checks Hq].
  { eexists. vm_compute. reflexivity. }
  eexists _, _, checks. split; [apply surjective_pairing|]. split; [exact Hq|].
  exact (orphan_checks_pass_after_load Scenario.with_march
           {| w_db := Scenario.dims_db; w_clock := 0 |} _ _ checks Hfk
           (surjective_pairing _) Hq).
Defined.

End LoadersExamples.

(** ** [generate_date_dim] *)

Section GenerateDateDimFacts.
Context `{Extern}.
Variable E : env.

Lemma column_dates_spec df ds :
  column_dates df = Ok ds →
  Forall2 (λ row d, to_datetime (FlightDate row) = Ok d) df ds ∧
  file_dates df = Ok (Calendar.isoformat <$> ds).
Proof.
  revert ds. induction df as [|row df IH]; intros ds Hc; simpl in Hc.
  { simplify_eq. by split; [constructor|]. }
  destruct (FlightDate row) as [|x|x|x|x] eqn:Hcell; [done|..];
    (destruct (to_datetime _) as [d|] eqn:Hd; simpl in Hc; [|done];
     destruct (column_dates df) as [ds'|]; simpl in Hc; [|done];
     simplify_eq; destruct (IH _ eq_refl) as [Hall Hf];
     split; [constructor; [by rewrite Hcell|done]|];
     simpl; rewrite Hcell; simpl; by rewrite Hd, Hf).
Qed.

Lemma collect_dates_spec csv_files acc all_dates :
  collect_dates E csv_files acc = Ok all_dates →
  acc ⊆ all_dates ∧
  Forall (λ f, ∃ df ds, s3_csv E f = Ok df ∧ column_dates df = Ok ds ∧
                        ∀ d, d ∈ ds → d ∈ all_dates) csv_files ∧
  (∀ d, d ∈ all_dates →
     d ∈ acc ∨ ∃ f df row, f ∈ csv_files ∧ s3_csv E f = Ok df ∧ row ∈ df ∧
                           to_datetime (FlightDate row) = Ok d).
Proof.
  revert acc. induction csv_files as [|f rest IH]; intros acc Hc; simpl in Hc.
  { simplify_eq. split_and!; [done|constructor|auto]. }
  destruct (s3_csv E f) as [df|] eqn:Hdf; simpl in Hc; [|done].
  destruct (column_dates df) as [ds|] eqn:Hds; simpl in Hc; [|done].
  destruct (IH _ Hc) as (Hsub & Hall & Hfrom). split_and!.
  - set_solver.
  - constructor; [|done]. exists df, ds. split_and!; [done..|].
    intros d Hd. apply Hsub. set_solver.
  - intros d Hd. destruct (Hfrom d Hd) as [Hacc|(f' & df' & row & Hf' & Hdf' & Hrow & Hd')].
    + apply elem_of_union in Hacc as [Hacc|Hnew]; [by left|]. right.
      apply elem_of_list_to_set in Hnew.
      apply column_dates_spec in Hds as [Hds _]. apply Forall2_flip in Hds.
      destruct (proj1 (list_elem_of_lookup ds d) Hnew) as [i Hi].
      destruct (Forall2_lookup_l _ _ _ _ _ Hds Hi) as (row & Hrow & Hd').
      exists f, df, row. split_and!; [by left|done| |done].
      by eapply list_elem_of_lookup_2.
    + right. exists f', df', row. split_and!; [by right|done..].
Qed.

(** What a run of [generate_date_dim] that returns has done. *)
Lemma generate_date_dim_ok_inv w w1 n :
  generate_date_dim E w = (w1, Ok n) →
  (∀ d x, date_dim (w_db w) !! d = Some x → date_dim (w_db w1) !! d = Some x) ∧
  (∀ f, f ∈ list_files E → is_flight_csv f = true →
     ∃ df ds, s3_csv E f = Ok df ∧ column_dates df = Ok ds ∧
              ∀ d, d ∈ ds → is_Some (date_dim (w_db w1) !! d)) ∧
  (∀ d x, date_dim (w_db w1) !! d = Some x → date_dim (w_db w) !! d = None →
     x = date_attrs d ∧
     ∃ f df row, f ∈ list_files E ∧ is_flight_csv f = true ∧ s3_csv E f = Ok df ∧
                 row ∈ df ∧ to_datetime (FlightDate row) = Ok d).
Proof.
  unfold generate_date_dim.
  destruct (filter _ (list_files E)) as [|f0 rest] eqn:Hfiles.
  { intros [= <- <-]. split_and!; [done| |congruence].
    intros f Hf Hcsv. assert (f ∈ filter (λ f, is_flight_csv f = true) (list_files E)) as Hin
      by (by apply list_elem_of_filter).
    rewrite Hfiles in Hin. by apply elem_of_nil in Hin. }
  rewrite <- Hfiles. clear Hfiles. intros Hrun.
  apply task_bind_inv in Hrun as [(w0 & all_dates & Hcollect & Hrun)|(e & _ & ?)]; [|done].
  unfold lift in Hcollect. injection Hcollect as <- Hcollect.
  apply collect_dates_spec in Hcollect as (_ & Hall & Hfrom).
  rewrite ensure_dates_exist_run in Hrun.
  destruct (db_fault E OpEnsureDates); [done|].
  destruct (insert_dates _ _ _) as [[t added]|] eqn:Hins; [|done].
  injection Hrun as <- <-. simpl.
  pose proof (insert_dates_ok_inv _ _ _ _ _ Hins) as (_ & Hpresent & Hnew).
  split_and!.
  - intros d x. by eapply insert_dates_keeps.
  - intros f Hf Hcsv.
    assert (f ∈ filter (λ f, is_flight_csv f = true) (list_files E)) as Hin
      by (by apply list_elem_of_filter).
    destruct (proj1 (Forall_forall _ _) Hall f Hin) as (df & ds & Hdf & Hds & Hsub).
    exists df, ds. split_and!; [done..|]. intros d Hd.
    assert (DObj d ∈ DObj <$> elements all_dates) as Harg.
    { apply list_elem_of_fmap. exists d. split; [done|]. by apply elem_of_elements, Hsub. }
    destruct (proj1 (Forall_forall _ _) Hpresent _ Harg) as (d' & Hd' & Hsome).
    simpl in Hd'. by simplify_eq.
  - intros d x Hd Hnone.
    destruct (Hnew d x Hd) as [Hold|(_ & -> & a & Ha & Hda)]; [congruence|].
    split; [done|].
    apply list_elem_of_fmap in Ha as (d' & -> & Hd'). simpl in Hda. simplify_eq.
    apply elem_of_elements in Hd'.
    destruct (Hfrom d Hd') as [Hempty|(f & df & row & Hf & Hdf & Hrow & Hdate)].
    { by apply elem_of_empty in Hempty. }
    apply list_elem_of_filter in Hf as [Hcsv Hf].
    exists f, df, row. by split_and!.
Qed.

(** X17. After a run of [generate_date_dim] that returns, every flights
    file of the listing was read, and the date of each of its rows has a
    row in [date_dim]; the rows that were there are unchanged, and a row
    that is new holds the attributes of a date of one of the files. *)
Theorem generate_date_dim_covers_files (w w1 : world) (n : Z) :
  generate_date_dim E w = (w1, Ok n) →
  (∀ f, f ∈ list_files E → is_flight_csv f = true →
     ∃ df, s3_csv E f = Ok df ∧
           ∀ row, row ∈ df →
             ∃ d, to_datetime (FlightDate row) = Ok d ∧
                  is_Some (date_dim (w_db w1) !! d)) ∧
  (∀ d x, date_dim (w_db w) !! d = Some x → date_dim (w_db w1) !! d = Some x) ∧
  (∀ d x, date_dim (w_db w1) !! d = Some x → date_dim (w_db w) !! d = None →
     x = date_attrs d ∧
     ∃ f df row, f ∈ list_files E ∧ is_flight_csv f = true ∧ s3_csv E f = Ok df ∧
                 row ∈ df ∧ to_datetime (FlightDate row) = Ok d).
Proof.
  intros Hrun. apply generate_date_dim_ok_inv in Hrun as (Hkeep & Hcover & Hnew).
  split_and!; [|done..].
  intros f Hf Hcsv. destruct (Hcover f Hf Hcsv) as (df & ds & Hdf & Hds & Hin).
  exists df. split; [done|]. intros row Hrow.
  apply column_dates_spec in Hds as [Hds _].
  destruct (proj1 (list_elem_of_lookup df row) Hrow) as [i Hi].
  destruct (Forall2_lookup_l _ _ _ _ _ Hds Hi) as (d & Hd & Hdate).
  exists d. split; [done|]. apply Hin. by eapply list_elem_of_lookup_2.
Qed.

(** The date step of a file whose dates the snapshot holds. *)
Lemma add_missing_dates_covered (E' : env) vd df ds w :
  file_dates df = Ok ds → (∀ s, s ∈ ds → s ∈ vd) →
  add_missing_dates E' vd df w = (w, Ok vd).
Proof.
  intros Hds Hsub. unfold add_missing_dates.
  unfold mbind at 1, task_bind at 1, lift at 1. rewrite Hds.
  rewrite bool_decide_eq_true_2; [done|].
  apply leibniz_equiv. intros s. split; [|by intros ?%elem_of_empty].
  intros [Hs Hn]%elem_of_difference. apply elem_of_list_to_set in Hs.
  destruct Hn. by apply Hsub.
Qed.

Lemma load_file_dates_covered chunk_size va vc vd file_key w w' r :
  (∀ df, s3_csv E file_key = Ok df →
     ∃ ds, file_dates df = Ok ds ∧ ∀ s, s ∈ ds → s ∈ vd) →
  load_file E chunk_size va vc vd file_key w = (w', r) →
  date_dim (w_db w') = date_dim (w_db w) ∧
  ∀ vd' fl fr, r = Ok (vd', fl, fr) → vd' = vd.
Proof.
  intros Hcov. rewrite load_file_run. unfold file_outcome.
  destruct (s3_csv E file_key) as [df|e].
  2: { intros [= <- <-]. by split. }
  destruct (Hcov df eq_refl) as (ds & Hds & Hsub).
  rewrite (add_missing_dates_covered E vd df ds) by done.
  pose proof (run_chunks_frame E chunk_size va vc vd (PyStr.last_segment file_key)
                (chunks_of (length df) (Z.to_nat chunk_size) 0 df)
                (w_db {| w_db := w_db w; w_clock := w_clock w + 1 |}) 0 0)
    as (_ & _ & Hd & _ & _).
  destruct (run_chunks _ _ _ _ _ _ _ _ _ _) as [d2 [[fl fr]|e]]; simpl in Hd.
  2: { intros [= <- <-]. by split. }
  destruct (db_fault E _).
  { intros [= <- <-]. by split. }
  intros [= <- <-]. split; [done|]. by intros vd' fl' fr' [= <- _ _].
Qed.

Lemma load_new_files_dates_covered chunk_size va vc vd files gl gr fp w w' r :
  (∀ f df, f ∈ files → s3_csv E f = Ok df →
     ∃ ds, file_dates df = Ok ds ∧ ∀ s, s ∈ ds → s ∈ vd) →
  load_new_files E chunk_size va vc vd files gl gr fp w = (w', r) →
  date_dim (w_db w') = date_dim (w_db w).
Proof.
  revert gl gr fp w.
  induction files as [|file_key rest IH]; intros gl gr fp w Hcov Hrun.
  { simpl in Hrun. unfold mret, task_ret in Hrun. by simplify_eq. }
  cbn [load_new_files] in Hrun.
  assert (∀ df, s3_csv E file_key = Ok df →
            ∃ ds, file_dates df = Ok ds ∧ ∀ s, s ∈ ds → s ∈ vd) as Hhead.
  { intros df. apply Hcov. by left. }
  apply task_bind_inv in Hrun as [(w1 & [[vd1 fl] fr] & Hfile & Hrest)|(e & Hfile & ->)].
  - destruct (load_file_dates_covered _ _ _ _ _ _ _ _ Hhead Hfile) as [Hd Hvd].
    rewrite (Hvd _ _ _ eq_refl) in Hrest.
    rewrite <- Hd. eapply IH; [|done]. intros f df Hf. apply Hcov. by right.
  - by destruct (load_file_dates_covered _ _ _ _ _ _ _ _ Hhead Hfile) as [Hd _].
Qed.

(** X18. [generate_date_dim] and [load_flights] compose: on a warehouse
    that holds the dates a run of [generate_date_dim] over the same bucket
    left, the date step of [load_flights] finds no date missing in any
    file, and the run leaves [date_dim] as it found it, however it
    ends. *)
Theorem load_flights_adds_no_date_after_generate_date_dim
    (w w1 w' w2 : world) (n : Z) (r : result (list (string * Z))) :
  generate_date_dim E w = (w1, Ok n) →
  (∀ d x, date_dim (w_db w1) !! d = Some x → date_dim (w_db w') !! d = Some x) →
  load_flights E w' = (w2, r) →
  date_dim (w_db w2) = date_dim (w_db w').
Proof.
  intros Hgen Hsup. unfold load_flights. rewrite load_flights_chunked_run.
  destruct (db_fault E OpLedgerQuery); [by intros [= <- <-]|].
  destruct (new_files_of E _) as [|file_key rest] eqn:Hnew; [by intros [= <- <-]|].
  destruct (db_fault E OpSnapshot); [by intros [= <- <-]|].
  apply load_new_files_dates_covered.
  intros f df Hf Hdf. rewrite <- Hnew in Hf.
  apply elem_of_new_files_of in Hf as (_ & Hcsv & Hlisted).
  apply generate_date_dim_ok_inv in Hgen as (_ & Hcover & _).
  destruct (Hcover f Hlisted Hcsv) as (df' & ds & Hdf' & Hds & Hin).
  rewrite Hdf in Hdf'. simplify_eq.
  apply column_dates_spec in Hds as [_ Hfd].
  exists (Calendar.isoformat <$> ds). split; [done|].
  intros s Hs. apply list_elem_of_fmap in Hs as (d & -> & Hd).
  apply elem_of_map. exists d. split; [done|]. apply elem_of_dom.
  destruct (Hin d Hd) as [x Hx]. exists x. by apply Hsup.
Qed.

End GenerateDateDimFacts.

Section GenerateDateDimExamples.
#[local] Existing Instance Reference.extern.

Lemma generate_date_dim_covers_files_witness :
  ∃ w1,
    generate_date_dim Scenario.with_march {| w_db := Scenario.dims_db; w_clock := 0 |} =
      (w1, Ok 2) ∧
    is_Some (date_dim (w_db w1) !! mkDate 2024 1 2) ∧
    ∀ f, f ∈ list_files Scenario.with_march → is_flight_csv f = true →
      ∃ df, s3_csv Scenario.with_march f = Ok df ∧
            ∀ row, row ∈ df →
              ∃ d, to_datetime (FlightDate row) = Ok d ∧
                   is_Some (date_dim (w_db w1) !! d).
Proof.
  assert (generate_date_dim Scenario.with_march
            {| w_db := Scenario.dims_db; w_clock := 0 |} =
          ((generate_date_dim Scenario.with_march
              {| w_db := Scenario.dims_db; w_clock := 0 |}).1, Ok 2)) as Hrun.
  { vm_compute. reflexivity. }
  eexists. split; [exact Hrun|]. split.
  - vm_compute. eauto.
  - exact (proj1 (generate_date_dim_covers_files _ _ _ _ Hrun)).
Defined.

Lemma load_flights_adds_no_date_after_generate_date_dim_witness :
  ∃ w1 w2 res,
    generate_date_dim Scenario.with_march {| w_db := Scenario.dims_db; w_clock := 0 |} =
      (w1, Ok 2) ∧
    load_flights Scenario.with_march w1 = (w2, Ok res) ∧
    date_dim (w_db w2) = date_dim (w_db w1) ∧
    length (flights (w_db w2)) = 2%nat.
Proof.
  assert (generate_date_dim Scenario.with_march
            {| w_db := Scenario.dims_db; w_clock := 0 |} =
          ((generate_date_dim Scenario.with_march
              {| w_db := Scenario.dims_db; w_clock := 0 |}).1, Ok 2)) as Hgen.
  { vm_compute. reflexivity. }
  assert (∃ res,
            load_flights Scenario.with_march
              (generate_date_dim Scenario.with_march
                 {| w_db := Scenario.dims_db; w_clock := 0 |}).1 =
            ((load_flights Scenario.with_march
                (generate_date_dim Scenario.with_march
                   {| w_db := Scenario.dims_db; w_clock := 0 |}).1).1, Ok res)) as [res Hrun].
  { eexists. vm_compute. reflexivity. }
  eexists _, _, res. split; [exact Hgen|]. split; [exact Hrun|]. split.
  - exact (load_flights_adds_no_date_after_generate_date_dim _ _ _ _ _ _ _ Hgen
             (λ d x Hd, Hd) Hrun).
  - vm_compute. reflexivity.
Defined.

End GenerateDateDimExamples.

(** ** [extract_carriers] *)

Section ExtractCarriersFacts.
Context `{Extern}.
Variable E : env.
Variable carrier_columns : string → result (list (string * pyval)).
Variable carriers_lost : bool.

Lemma get_connection_in_transaction {A} op (body : task A) :
  get_connection E op body = in_transaction (db_fault E op) body.
Proof. reflexivity. Qed.

Lemma elem_of_drop_duplicate_rows seen rows r :
  r ∈ rows → r ∈ seen ∨ r ∈ drop_duplicate_rows seen rows.
Proof.
  revert seen. induction rows as [|r0 rest IH]; intros seen Hr; [by apply elem_of_nil in Hr|].
  simpl. apply elem_of_cons in Hr as [->|Hr].
  - case_bool_decide; [by left|right; left].
  - case_bool_decide.
    + by apply IH.
    + destruct (IH (r0 :: seen) Hr) as [Hs|Hd].
      * apply elem_of_cons in Hs as [->|Hs]; [right; left|by left].
      * right. by right.
Qed.

Lemma drop_duplicate_rows_elem seen rows r :
  r ∈ drop_duplicate_rows seen rows → r ∈ rows.
Proof.
  revert seen. induction rows as [|r0 rest IH]; intros seen Hr; simpl in Hr; [done|].
  case_bool_decide.
  - right. by eapply IH.
  - apply elem_of_cons in Hr as [->|Hr]; [left|right; by eapply IH].
Qed.

Lemma collect_rows_spec rows acc all_carriers :
  collect_rows rows acc = Ok all_carriers →
  (∃ more, all_carriers = (acc ++ more)%list ∧
           ∀ code dot_id, (code, dot_id) ∈ more → ∃ dot, (code, dot) ∈ rows) ∧
  ∀ code dot, (code, dot) ∈ rows → code ∈ all_carriers.*1.
Proof.
  revert acc. induction rows as [|[code dot] rest IH]; intros acc Hc; simpl in Hc.
  { simplify_eq. split; [|by intros ?? ?%elem_of_nil].
    exists []. split; [by rewrite app_nil_r|]. by intros ?? ?%elem_of_nil. }
  case_bool_decide as Hin.
  - destruct (IH _ Hc) as [(more & -> & Hmore) Hall]. split.
    + exists more. split; [done|]. intros c d Hcd.
      destruct (Hmore c d Hcd) as [dot' ?]. exists dot'. by right.
    + intros c d Hcd. apply elem_of_cons in Hcd as [Heq|Hcd]; [|by eapply Hall].
      simplify_eq. rewrite fmap_app. apply elem_of_app. by left.
  - destruct (if negb (pd_isna dot) then _ else _) as [dot_id|]; simpl in Hc; [|done].
    destruct (IH _ Hc) as [(more & -> & Hmore) Hall]. split.
    + exists ((code, dot_id) :: more). split; [by rewrite <- app_assoc|].
      intros c d Hcd. apply elem_of_cons in Hcd as [Heq|Hcd].
      * simplify_eq. exists dot. left.
      * destruct (Hmore c d Hcd) as [dot' ?]. exists dot'. by right.
    + intros c d Hcd. apply elem_of_cons in Hcd as [Heq|Hcd]; [|by eapply Hall].
      simplify_eq. rewrite !fmap_app. apply elem_of_app. left.
      apply elem_of_app. right. left.
Qed.

Lemma collect_carriers_spec csv_files acc all_carriers :
  collect_carriers carrier_columns csv_files acc = Ok all_carriers →
  (∀ code, code ∈ acc.*1 → code ∈ all_carriers.*1) ∧
  (∀ code, code ∈ all_carriers.*1 →
     code ∈ acc.*1 ∨
     ∃ f df dot, f ∈ csv_files ∧ carrier_columns f = Ok df ∧ (code, dot) ∈ df) ∧
  Forall (λ f, ∃ df, carrier_columns f = Ok df ∧
                     ∀ code dot, (code, dot) ∈ df → code ∈ all_carriers.*1) csv_files.
Proof.
  revert acc. induction csv_files as [|f rest IH]; intros acc Hc; simpl in Hc.
  { simplify_eq. split_and!; [done|by left|constructor]. }
  destruct (carrier_columns f) as [df|] eqn:Hdf; simpl in Hc; [|done].
  destruct (collect_rows _ acc) as [acc'|] eqn:Hrows; simpl in Hc; [|done].
  destruct (IH _ Hc) as (Hmono & Hfrom & Hall).
  destruct (collect_rows_spec _ _ _ Hrows) as [(more & -> & Hmore) Hcover].
  split_and!.
  - intros code Hcode. apply Hmono. rewrite fmap_app. apply elem_of_app. by left.
  - intros code Hcode. destruct (Hfrom code Hcode) as [Hacc|(f' & df' & dot & Hf' & Hdf' & Hin)].
    + rewrite fmap_app in Hacc. apply elem_of_app in Hacc as [Hacc|Hnew]; [by left|].
      right. apply list_elem_of_fmap in Hnew as ([c d] & -> & Hcd).
      destruct (Hmore c d Hcd) as [dot Hdot]. apply drop_duplicate_rows_elem in Hdot.
      exists f, df, dot. split_and!; [left|done..].
    + right. exists f', df', dot. split_and!; [by right|done..].
  - constructor; [|done]. exists df. split; [done|].
    intros code dot Hin. apply Hmono.
    destruct (elem_of_drop_duplicate_rows [] df _ Hin) as [Hnil|Hd];
      [by apply elem_of_nil in Hnil|].
    by eapply Hcover.
Qed.

Lemma insert_carriers_spec items t n :
  (insert_carriers items t n).2 = n + Z.of_nat (length items) ∧
  (∀ code c, t !! code = Some c → (insert_carriers items t n).1 !! code = Some c) ∧
  (∀ code, code ∈ items.*1 → is_Some ((insert_carriers items t n).1 !! code)) ∧
  (∀ code c, (insert_carriers items t n).1 !! code = Some c → t !! code = None →
     carrier_name c = carrier_name_of code ∧ (code, dot_id c) ∈ items).
Proof.
  revert t n. induction items as [|[code0 dot0] rest IH]; intros t n; simpl.
  { split_and!; [lia|done|by intros ? ?%elem_of_nil|congruence]. }
  destruct (IH (insert_do_nothing code0
                  {| carrier_name := carrier_name_of code0; dot_id := dot0 |} t) (n + 1))
    as (Hn & Hkeep & Hall & Hnew).
  split_and!.
  - rewrite Hn. lia.
  - intros code c Hc. apply Hkeep. rewrite lookup_insert_do_nothing.
    case_decide; [|done]. subst. by rewrite Hc.
  - intros code Hcode. apply elem_of_cons in Hcode as [->|Hcode]; [|by apply Hall].
    assert (is_Some (insert_do_nothing code0
                       {| carrier_name := carrier_name_of code0; dot_id := dot0 |} t
                     !! code0)) as [c Hc].
    { rewrite lookup_insert_do_nothing, decide_True by done. eauto. }
    exists c. by apply Hkeep.
  - intros code c Hc Hnone.
    destruct (decide (code0 = code)) as [->|Hne].
    + assert (insert_do_nothing code
                {| carrier_name := carrier_name_of code; dot_id := dot0 |} t !! code =
              Some {| carrier_name := carrier_name_of code; dot_id := dot0 |}) as Hfirst.
      { by rewrite lookup_insert_do_nothing, decide_True, Hnone. }
      rewrite (Hkeep _ _ Hfirst) in Hc. simplify_eq. simpl. split; [done|left].
    + destruct (Hnew code c Hc) as [Hname Hin].
      { by rewrite lookup_insert_do_nothing, decide_False. }
      split; [done|by right].
Qed.

(** What a run of [extract_carriers] that returns has done. *)
Lemma extract_carriers_ok_inv w w1 n :
  extract_carriers E carrier_columns carriers_lost w = (w1, Ok n) →
  (∀ code c, carriers (w_db w) !! code = Some c → carriers (w_db w1) !! code = Some c) ∧
  (∀ f, f ∈ list_files E → is_flight_csv f = true →
     ∃ df, carrier_columns f = Ok df ∧
           ∀ code dot, (code, dot) ∈ df → is_Some (carriers (w_db w1) !! code)) ∧
  (∀ code c, carriers (w_db w1) !! code = Some c → carriers (w_db w) !! code = None →
     carrier_name c = carrier_name_of code ∧
     ∃ f df dot, f ∈ list_files E ∧ is_flight_csv f = true ∧
                 carrier_columns f = Ok df ∧ (code, dot) ∈ df).
Proof.
  unfold extract_carriers.
  destruct (filter _ (list_files E)) as [|f0 rest] eqn:Hfiles.
  { intros [= <- <-]. split_and!; [done| |congruence].
    intros f Hf Hcsv. assert (f ∈ filter (λ f, is_flight_csv f = true) (list_files E)) as Hin
      by (by apply list_elem_of_filter).
    rewrite Hfiles in Hin. by apply elem_of_nil in Hin. }
  rewrite <- Hfiles. clear Hfiles. intros Hrun.
  apply task_bind_inv in Hrun as [(w0 & all_carriers & Hcollect & Hrun)|(e & _ & ?)]; [|done].
  unfold lift in Hcollect. injection Hcollect as <- Hcollect.
  apply collect_carriers_spec in Hcollect as (_ & Hfrom & Hall).
  unfold in_transaction in Hrun. destruct carriers_lost; [done|].
  unfold mbind, task_bind, read_db, write_db, mret, task_ret in Hrun.
  pose proof (insert_carriers_spec all_carriers (carriers (w_db w)) 0)
    as (_ & Hkeep & Hpresent & Hnew).
  destruct (insert_carriers _ _ _) as [t rows_loaded]. simpl in *.
  injection Hrun as <- <-. simpl. split_and!; [done| |].
  - intros f Hf Hcsv.
    assert (f ∈ filter (λ f, is_flight_csv f = true) (list_files E)) as Hin
      by (by apply list_elem_of_filter).
    destruct (proj1 (Forall_forall _ _) Hall f Hin) as (df & Hdf & Hcodes).
    exists df. split; [done|]. intros code dot Hcd. by eapply Hpresent, Hcodes.
  - intros code c Hc Hnone. destruct (Hnew code c Hc Hnone) as [Hname Hitem].
    split; [done|].
    assert (code ∈ all_carriers.*1) as Hcode.
    { apply list_elem_of_fmap. by exists (code, dot_id c). }
    destruct (Hfrom code Hcode) as [Hnil|(f & df & dot & Hf & Hdf & Hin)];
      [by apply elem_of_nil in Hnil|].
    apply list_elem_of_filter in Hf as [Hcsv Hf].
    exists f, df, dot. by split_and!.
Qed.

(** X19. After a run of [extract_carriers] that returns, every carrier code
    of every flights file of the listing has a row in [carriers].  The rows
    that were there are unchanged; a new row is for a code of one of the
    files and is named from the table of known carriers, or Carrier
    followed by the code when the table does not know it. *)
Theorem extract_carriers_covers_files (w w1 : world) (n : Z) :
  extract_carriers E carrier_columns carriers_lost w = (w1, Ok n) →
  (∀ f, f ∈ list_files E → is_flight_csv f = true →
     ∃ df, carrier_columns f = Ok df ∧
           ∀ code dot, (code, dot) ∈ df → code ∈ dom (carriers (w_db w1))) ∧
  (∀ code c, carriers (w_db w) !! code = Some c → carriers (w_db w1) !! code = Some c) ∧
  (∀ code c, carriers (w_db w1) !! code = Some c → carriers (w_db w) !! code = None →
     carrier_name c = default ("Carrier " +:+ code) (dict_get code carrier_names) ∧
     ∃ f df dot, f ∈ list_files E ∧ is_flight_csv f = true ∧
                 carrier_columns f = Ok df ∧ (code, dot) ∈ df).
Proof.
  intros Hrun. apply extract_carriers_ok_inv in Hrun as (Hkeep & Hcover & Hnew).
  split_and!; [|done..].
  intros f Hf Hcsv. destruct (Hcover f Hf Hcsv) as (df & Hdf & Hcodes).
  exists df. split; [done|]. intros code dot Hin. apply elem_of_dom. by eapply Hcodes.
Qed.

(** X20. [extract_carriers] and [load_flights] compose on clean carrier
    cells: the first stores the cell as it is, the second looks up the
    trimmed cell, so after a run of [extract_carriers] over the bucket a
    row of a listed flights file whose carrier cell [str.strip()] leaves as
    it is (no whitespace of Unicode at either end, a no-break space
    included) passes the carrier check of Step A. *)
Theorem carrier_check_passes_after_extract_carriers (w w1 : world) (n : Z)
    (f : string) (df : list csv_row) (cols : list (string * pyval))
    (row : csv_row) (s : string) :
  extract_carriers E carrier_columns carriers_lost w = (w1, Ok n) →
  f ∈ list_files E → is_flight_csv f = true →
  s3_csv E f = Ok df →
  carrier_columns f = Ok cols →
  Forall2 (λ (row : csv_row) (col : string * pyval), Reporting_Airline row = VStr col.1)
          df cols →
  row ∈ df →
  Reporting_Airline row = VStr s →
  PyStr.strip s = s →
  row_carrier row ∈ dom (carriers (w_db w1)) ∧
  ∀ va vd, "Unknown carrier: " +:+ row_carrier row ∉
             row_reasons va (dom (carriers (w_db w1))) vd row.
Proof.
  intros Hrun Hf Hcsv Hdf Hcols Hsame Hrow Hcell Hstrip.
  apply extract_carriers_ok_inv in Hrun as (_ & Hcover & _).
  destruct (Hcover f Hf Hcsv) as (cols' & Hcols' & Hcodes).
  rewrite Hcols in Hcols'. simplify_eq.
  assert (row_carrier row ∈ dom (carriers (w_db w1))) as Hin.
  { destruct (proj1 (list_elem_of_lookup df row) Hrow) as [i Hi].
    destruct (Forall2_lookup_l _ _ _ _ _ Hsame Hi) as ([code dot] & Hcol & Hcode).
    simpl in Hcode. rewrite Hcell in Hcode. simplify_eq.
    unfold row_carrier. rewrite Hcell. simpl. rewrite Hstrip.
    apply elem_of_dom. eapply Hcodes. by eapply list_elem_of_lookup_2. }
  split; [done|].
  intros va vd. unfold row_reasons, rejection_reasons.
  rewrite (bool_decide_eq_true_2 _ Hin).
  rewrite !elem_of_app. intros [Hr|[Hr|[Hr|Hr]]]; try by apply elem_of_nil in Hr.
  - case_bool_decide; [by apply elem_of_nil in Hr|].
    apply list_elem_of_singleton in Hr. done.
  - case_bool_decide; [by apply elem_of_nil in Hr|].
    apply list_elem_of_singleton in Hr. done.
  - case_bool_decide; [by apply elem_of_nil in Hr|].
    apply list_elem_of_singleton in Hr. done.
Qed.

End ExtractCarriersFacts.

Section ExtractCarriersExamples.
#[local] Existing Instance Reference.extern.

Lemma extract_carriers_covers_files_witness :
  ∃ w1,
    extract_carriers Scenario.with_march Samples.carrier_cells false
      {| w_db := Scenario.dims_db; w_clock := 0 |} = (w1, Ok 2) ∧
    carrier_name <$> carriers (w_db w1) !! "ZZ" = Some "Carrier ZZ" ∧
    carrier_name <$> carriers (w_db w1) !! "DL" = Some "Delta Air Lines" ∧
    ∀ f, f ∈ list_files Scenario.with_march → is_flight_csv f = true →
      ∃ df, Samples.carrier_cells f = Ok df ∧
            ∀ code dot, (code, dot) ∈ df → code ∈ dom (carriers (w_db w1)).
Proof.
  assert (extract_carriers Scenario.with_march Samples.carrier_cells false
            {| w_db := Scenario.dims_db; w_clock := 0 |} =
          ((extract_carriers Scenario.with_march Samples.carrier_cells false
              {| w_db := Scenario.dims_db; w_clock := 0 |}).1, Ok 2)) as Hrun.
  { vm_compute. reflexivity. }
  eexists. split; [exact Hrun|].
  split; [vm_compute; reflexivity|]. split; [vm_compute; reflexivity|].
  exact (proj1 (extract_carriers_covers_files _ _ _ _ _ _ Hrun)).
Defined.

Lemma carrier_check_passes_after_extract_carriers_witness :
  row_carrier (Scenario.flight_row "ATL" "JFK" "DL" "2024-01-01" 100 (VInt 0)) ∈
    dom (carriers
           (w_db (extract_carriers Scenario.with_march Samples.carrier_cells false
                    {| w_db := Scenario.empty_db; w_clock := 0 |}).1)).
Proof.
  refine (proj1 (carrier_check_passes_after_extract_carriers
                   Scenario.with_march Samples.carrier_cells false
                   {| w_db := Scenario.empty_db; w_clock := 0 |} _ 2
                   "raw/january.csv" Scenario.january
                   [("DL", VInt 19790); ("ZZ", VFloat FNan); ("DL", VInt 19790)]
                   (Scenario.flight_row "ATL" "JFK" "DL" "2024-01-01" 100 (VInt 0)) "DL"
                   _ _ _ _ _ _ _ _ _)).
  - vm_compute. reflexivity.
  - right. left.
  - vm_compute. reflexivity.
  - reflexivity.
  - reflexivity.
  - repeat constructor.
  - left.
  - reflexivity.
  - vm_compute. reflexivity.
Defined.

(** A carrier cell that ends in a no-break space is stored with it, and
    Step A looks up the code without it: the check fails. *)
Example carrier_check_fails_on_no_break_space :
  ∃ w1,
    extract_carriers Samples.padded_env Samples.padded_cells false
      {| w_db := Scenario.empty_db; w_clock := 0 |} = (w1, Ok 1) ∧
    PyStr.strip Samples.padded_code = "DL" ∧
    Samples.padded_code ∈ dom (carriers (w_db w1)) ∧
    Forall (λ row, row_carrier row = "DL" ∧ row_carrier row ∉ dom (carriers (w_db w1)))
           Samples.padded.
Proof.
  eexists. split; [vm_compute; reflexivity|].
  split; [vm_compute; reflexivity|].
  split; [apply (bool_decide_unpack _); vm_compute; exact I|].
  repeat constructor. apply (bool_decide_unpack _). vm_compute. exact I.
Qed.

End ExtractCarriersExamples.

(** ** [weather_helper] *)

Section WeatherHelperFacts.
Context `{Extern}.
Variable iem_request : string → date → date → result (list (string → option string)).
Variable knots_to_mph : pyfloat → pyfloat.

Lemma get_mapped_airports_keys : get_mapped_airports = AIRPORT_STATION_MAP.*1.
Proof. reflexivity. Qed.

Lemma dict_get_elem {V} key (items : list (string * V)) v :
  dict_get key items = Some v → (key, v) ∈ items.
Proof.
  induction items as [|[k v0] rest IH]; simpl; [done|].
  destruct (String.eqb_spec k key) as [->|Hne].
  - intros [= <-]. left.
  - intros Hv. right. by apply IH.
Qed.

Lemma float_lt_zero_tenth p : float_lt (FFin tenth) p = true → float_lt (FFin 0) p = true.
Proof.
  destruct p as [|[]|q]; simpl; try done.
  rewrite !negb_true_iff. intros Hq.
  apply not_true_iff_false. apply not_true_iff_false in Hq.
  rewrite Qle_bool_iff in *. intros Hle. apply Hq.
  eapply Qle_trans; [exact Hle|]. by unfold Qle.
Qed.

(** X21. A visibility that is missing or exactly zero is read as ten
    miles and is never reported as fog.  Fog is reported for a finite
    visibility exactly when it is not zero and is below 3 while
    precipitation is not positive. *)
Theorem zero_visibility_is_not_fog (p t : option pyfloat) :
  determine_conditions p t None ≠ "Fog/Low Visibility" ∧
  ∀ q : Q,
    determine_conditions p t (Some (FFin q)) = "Fog/Low Visibility" ↔
    float_lt (FFin 0) (float_or p 0) = false ∧ ¬ (q == 0)%Q ∧ (q < 3)%Q.
Proof.
  assert (∀ v,
            determine_conditions p t v = "Fog/Low Visibility" ↔
            float_lt (FFin 0) (float_or p 0) = false ∧
            float_lt (float_or v 10) (FFin 3) = true) as Hfog.
  { intros v. unfold determine_conditions.
    pose proof (float_lt_zero_tenth (float_or p 0)) as Hten.
    destruct (float_lt (FFin 0) (float_or p 0)) eqn:Hzero;
      destruct (float_lt (FFin tenth) (float_or p 0)) eqn:Htenth;
      destruct (float_lt (float_or v 10) (FFin 3)) eqn:Hvis;
      destruct (match t with Some t0 => float_lt t0 (FFin 32) | None => false end);
      simpl; try (by specialize (Hten eq_refl));
      split; try done; by intros []. }
  split.
  - rewrite Hfog. by intros [_ ?].
  - intros q. rewrite Hfog. simpl.
    destruct (Qeq_bool q 0) eqn:Hz.
    + apply Qeq_bool_iff in Hz. split; [by intros [_ ?]|]. by intros (_ & Hn & _).
    + assert (¬ (q == 0)%Q) as Hnz.
      { intros Hq. apply Qeq_bool_iff in Hq. congruence. }
      assert (negb (Qle_bool 3 q) = true ↔ (q < 3)%Q) as Hlt.
      { rewrite negb_true_iff, <- not_true_iff_false, Qle_bool_iff.
        split; [apply Qnot_le_lt|apply Qlt_not_le]. }
      cbn [float_lt]. rewrite Hlt. tauto.
Qed.

Lemma determine_conditions_wet p t v :
  determine_conditions p t v ∈ wet_conditions ↔ float_lt (FFin 0) (float_or p 0) = true.
Proof.
  unfold determine_conditions, wet_conditions.
  pose proof (float_lt_zero_tenth (float_or p 0)) as Hten.
  destruct (float_lt (FFin 0) (float_or p 0)) eqn:Hzero;
    destruct (float_lt (FFin tenth) (float_or p 0)) eqn:Htenth;
    destruct (float_lt (float_or v 10) (FFin 3)) eqn:Hvis;
    destruct (match t with Some t0 => float_lt t0 (FFin 32) | None => false end);
    simpl; try (by specialize (Hten eq_refl));
    split; try done; set_solver.
Qed.

(** X22. A row of the response whose precipitation cell is absent, empty
    or one of the markers M (missing) and T (trace) gets a dry label: the
    observation has no precipitation value and its conditions are none of
    Snow, Rain and Light Rain, whatever the other cells hold. *)
Theorem trace_precipitation_is_dry (station_id : string) (row : string → option string)
    (o : iem_obs) :
  iem_observation knots_to_mph station_id row = Some o →
  row "p01i" = None ∨ row "p01i" = Some "" ∨ row "p01i" = Some "M" ∨ row "p01i" = Some "T" →
  io_precipitation o = None ∧ io_conditions o ∉ wet_conditions.
Proof.
  unfold iem_observation. destruct (String.eqb _ ""); [done|].
  intros [= <-] Hcell. simpl.
  assert (iem_float (row "p01i") = None) as ->.
  { by destruct Hcell as [->|[->|[->| ->]]]. }
  split; [done|]. by rewrite determine_conditions_wet.
Qed.

Lemma before_space_spec s :
  PyStr.contains " " (before_space s) = false ∧
  (PyStr.contains " " s = false → before_space s = s) ∧
  (PyStr.contains " " s = true → ∃ rest, s = before_space s +:+ " " +:+ rest).
Proof.
  induction s as [|c s (IH1 & IH2 & IH3)]; [done|].
  cbn [before_space]. destruct (Ascii.eqb_spec c " ") as [->|Hne].
  - split_and!; [done| |intros _; by exists s].
    cbn. by destruct s.
  - assert (∀ r, PyStr.contains " " (String c r) = PyStr.contains " " r) as Hc.
    { intros r. cbn [PyStr.contains String.prefix].
      destruct (ascii_dec " " c) as [Heq|_]; [by destruct Hne|done]. }
    rewrite !Hc. split_and!; [done| |].
    + intros Hs. by rewrite IH2.
    + intros Hs. destruct (IH3 Hs) as [rest Hrest]. exists rest.
      rewrite Hrest at 1. reflexivity.
Qed.

Lemma fetch_weather_from_iem_run station_id start_date end_date d1 d2 :
  date_of_arg start_date = Ok d1 →
  date_of_arg end_date = Ok d2 →
  fetch_weather_from_iem iem_request knots_to_mph station_id start_date end_date =
    Ok match iem_request station_id d1 d2 with
       | Ok rows => omap (iem_observation knots_to_mph station_id) rows
       | Raise _ => []
       end.
Proof.
  intros Hd1 Hd2. unfold fetch_weather_from_iem. rewrite Hd1, Hd2. simpl.
  by destruct (iem_request station_id d1 d2).
Qed.

(** X23. When the two ends of the range are dates, [fetch_weather_from_iem]
    returns, with the empty list when the request or the reading of the
    response fails.  Each observation it returns carries the station it
    was asked for, a time that is not empty, and as its date the part of
    the time before its first space. *)
Theorem fetch_weather_from_iem_returns (station_id : string) (start_date end_date : date_arg)
    (d1 d2 : date) :
  date_of_arg start_date = Ok d1 →
  date_of_arg end_date = Ok d2 →
  ∃ observations,
    fetch_weather_from_iem iem_request knots_to_mph station_id start_date end_date =
      Ok observations ∧
    (∀ e, iem_request station_id d1 d2 = Raise e → observations = []) ∧
    ∀ o, o ∈ observations →
      io_station_id o = station_id ∧
      io_observation_time o ≠ "" ∧
      PyStr.contains " " (io_observation_date o) = false ∧
      (io_observation_time o = io_observation_date o ∨
       ∃ rest, io_observation_time o = io_observation_date o +:+ " " +:+ rest).
Proof.
  intros Hd1 Hd2. rewrite (fetch_weather_from_iem_run _ _ _ d1 d2) by done.
  destruct (iem_request station_id d1 d2) as [rows|e].
  2: { exists []. split_and!; [done..|]. intros o Ho. by apply elem_of_nil in Ho. }
  eexists. split_and!; [done|done|].
  intros o Ho. apply list_elem_of_omap in Ho as (row & _ & Ho).
  unfold iem_observation in Ho.
  destruct (String.eqb_spec (default "" (row "valid")) "") as [|Hne]; [done|].
  injection Ho as <-. simpl.
  pose proof (before_space_spec (default "" (row "valid"))) as (Hno & Hsame & Hsplit).
  split_and!; [done..| |].
  - by destruct (PyStr.contains " " (default "" (row "valid"))) eqn:Hc.
  - destruct (PyStr.contains " " (default "" (row "valid"))) eqn:Hc;
      [right; by apply Hsplit|by left].
Qed.

Lemma fetch_weather_for_airports_elem airports start_date end_date observations o :
  fetch_weather_for_airports iem_request knots_to_mph airports start_date end_date =
    Ok observations →
  o ∈ observations →
  wo_airport_code o ∈ airports ∧ is_Some (dict_get (wo_airport_code o) AIRPORT_STATION_MAP).
Proof.
  revert observations. induction airports as [|a rest IH]; intros observations Hf Ho;
    cbn [fetch_weather_for_airports] in Hf.
  { simplify_eq. by apply elem_of_nil in Ho. }
  destruct (dict_get a AIRPORT_STATION_MAP) as [station|] eqn:Hst.
  - destruct (fetch_weather_from_iem _ _ _ _ _) as [obs_list|]; simpl in Hf; [|done].
    destruct (fetch_weather_for_airports _ _ rest _ _) as [more|]; simpl in Hf; [|done].
    simplify_eq. apply elem_of_app in Ho as [Ho|Ho].
    + apply list_elem_of_fmap in Ho as (io & -> & _).
      cbn [with_airport_code wo_airport_code].
      split; [left|by rewrite Hst].
    + destruct (IH _ eq_refl Ho). split; [by right|done].
  - destruct (IH _ Hf Ho). split; [by right|done].
Qed.

Lemma generate_weather_data_elem airports dates weather_data :
  generate_weather_data iem_request knots_to_mph airports dates = Ok weather_data →
  (dates = [] → weather_data = []) ∧
  ∀ o, o ∈ weather_data →
    wo_airport_code o ∈ airports ∧
    wo_airport_code o ∈ get_mapped_airports ∧
    ∃ d, d ∈ dates ∧ observation_date o = date_string d.
Proof.
  unfold generate_weather_data. destruct dates as [|d0 dates].
  { intros [= <-]. split; [done|]. intros o Ho. by apply elem_of_nil in Ho. }
  destruct (fetch_weather_for_airports _ _ _ _ _) as [observations|] eqn:Hf;
    cbn [mbind result_bind]; [|done].
  intros [= <-]. split; [done|]. intros o Ho.
  apply list_elem_of_filter in Ho as [Hdate Ho].
  destruct (fetch_weather_for_airports_elem _ _ _ _ _ Hf Ho) as [Hin [station Hst]].
  apply list_elem_of_filter in Hin as [_ Hin]. split_and!; [done| |].
  - rewrite get_mapped_airports_keys. apply list_elem_of_fmap.
    exists (wo_airport_code o, station). split; [done|]. by apply dict_get_elem.
  - apply elem_of_list_to_set in Hdate. rewrite merge_sort_Permutation in Hdate.
    change (observation_date o ∈ date_string <$> d0 :: dates) in Hdate.
    apply list_elem_of_fmap in Hdate as (d & Hd & Hin'). by exists d.
Qed.

(** X24. Every observation [generate_weather_data] returns is for an
    airport of its argument that has a station, and carries as its date
    the string of one of the dates of its argument (date objects with a
    year of four digits, or strings); for no date at all it returns the
    empty list without any request. *)
Theorem generate_weather_data_filter (airports : list string) (dates : list date_arg)
    (weather_data : list weather_obs) :
  Forall four_digit_year dates →
  generate_weather_data iem_request knots_to_mph airports dates = Ok weather_data →
  (dates = [] → weather_data = []) ∧
  ∀ o, o ∈ weather_data →
    wo_airport_code o ∈ airports ∧
    wo_airport_code o ∈ get_mapped_airports ∧
    ∃ d, d ∈ dates ∧ observation_date o = date_string d.
Proof. intros _. apply generate_weather_data_elem. Qed.

End WeatherHelperFacts.

Section WeatherSource.
Context `{Extern}.
Variable iem_request : string → date → date → result (list (string → option string)).
Variable knots_to_mph : pyfloat → pyfloat.

Lemma fetch_weather_for_airports_returns airports start_date end_date d1 d2 :
  date_of_arg start_date = Ok d1 →
  date_of_arg end_date = Ok d2 →
  ∃ observations,
    fetch_weather_for_airports iem_request knots_to_mph airports start_date end_date =
      Ok observations.
Proof.
  intros Hd1 Hd2. induction airports as [|a rest [more IH]];
    cbn [fetch_weather_for_airports]; [by eauto|].
  destruct (dict_get a AIRPORT_STATION_MAP) as [station|]; [|by eauto].
  rewrite (fetch_weather_from_iem_run iem_request knots_to_mph station _ _ d1 d2) by done.
  rewrite IH. cbn [mbind result_bind]. eauto.
Qed.

Lemma generate_weather_data_on_dates airports dates :
  Forall Calendar.valid_date dates →
  ∃ weather_data,
    generate_weather_data iem_request knots_to_mph airports (DObj <$> dates) =
      Ok weather_data.
Proof.
  intros Hvalid. unfold generate_weather_data.
  destruct dates as [|d0 dates]; [by eauto|].
  rewrite fmap_cons.
  set (date_strings := merge_sort str_le (date_string <$> DObj d0 :: (DObj <$> dates))).
  assert (∀ s, s ∈ date_strings → ∃ d, Calendar.strptime s = Ok d) as Hparse.
  { intros s Hs. unfold date_strings in Hs. rewrite merge_sort_Permutation in Hs.
    change (s ∈ date_string <$> (DObj <$> d0 :: dates)) in Hs.
    apply list_elem_of_fmap in Hs as (a & -> & Ha).
    apply list_elem_of_fmap in Ha as (d & -> & Hd).
    exists d. apply CalendarFacts.strptime_isoformat.
    by apply (proj1 (Forall_forall _ _) Hvalid). }
  assert (date_strings ≠ []) as Hne.
  { intros Hnil. apply (f_equal length) in Hnil. unfold date_strings in Hnil.
    rewrite merge_sort_Permutation in Hnil. done. }
  destruct (head date_strings) as [start_date|] eqn:Hhead.
  2: { by apply head_None in Hhead. }
  destruct (last date_strings) as [end_date|] eqn:Hlast.
  2: { by apply last_None in Hlast. }
  destruct (Hparse _ (head_Some_elem_of _ _ Hhead)) as [d1 Hd1].
  destruct (Hparse _ (last_Some_elem_of _ _ Hlast)) as [d2 Hd2].
  cbn [from_option id].
  destruct (fetch_weather_for_airports_returns
              (filter (λ a, is_Some (dict_get a AIRPORT_STATION_MAP)) airports)
              (DStr start_date) (DStr end_date) d1 d2 Hd1 Hd2) as [observations ->].
  cbn [mbind result_bind]. eauto.
Qed.

(** X25. On date objects [generate_weather_data] never raises: the two
    ends of the range it hands to [fetch_weather_from_iem] are strings it
    wrote itself from dates (of a year of four digits), which parse back,
    and a failing request only empties the list of its station. *)
Theorem generate_weather_data_returns (airports : list string) (dates : list date) :
  Forall (λ d, Calendar.valid_date d ∧ 1000 ≤ year d) dates →
  ∃ weather_data,
    generate_weather_data iem_request knots_to_mph airports (DObj <$> dates) =
      Ok weather_data.
Proof.
  intros Hdates. apply generate_weather_data_on_dates.
  eapply Forall_impl; [exact Hdates|]. by intros d [? _].
Qed.

Lemma elem_of_iem_source airports dates o :
  o ∈ iem_source iem_request knots_to_mph airports dates →
  wo_airport_code o ∈ airports ∧
  ∃ d, d ∈ dates ∧ observation_date o = Calendar.isoformat d.
Proof.
  unfold iem_source.
  destruct (generate_weather_data _ _ _ _) as [weather_data|] eqn:Hgen.
  2: { by intros ?%elem_of_nil. }
  intros Ho.
  apply generate_weather_data_elem in Hgen as [_ Hall].
  destruct (Hall o Ho) as (Hin & _ & a & Ha & Hdate).
  split; [done|]. apply list_elem_of_fmap in Ha as (d & -> & Hd). by exists d.
Qed.

End WeatherSource.

Section WeatherKeys.
Context `{Extern}.
Variable E : env.
Variable iem_request : string → date → date → result (list (string → option string)).
Variable knots_to_mph : pyfloat → pyfloat.

(** [load_weather] leaves the two dimensions it reads as they are. *)
Lemma load_weather_frame w w' r :
  load_weather E w = (w', r) →
  airports (w_db w') = airports (w_db w) ∧ date_dim (w_db w') = date_dim (w_db w).
Proof.
  unfold load_weather, mbind, task_bind, lift, get_connection, read_db, write_db,
    dt_now, mret, task_ret.
  destruct (db_fault E OpWeatherRead); simpl.
  { by intros [= <- <-]. }
  destruct (elements _) as [|a l]; simpl.
  { by intros [= <- <-]. }
  destruct (merge_sort _ _) as [|d ds]; simpl.
  { by intros [= <- <-]. }
  destruct (db_fault E OpWeatherWrite); simpl.
  { by intros [= <- <-]. }
  destruct (insert_weather _ _ _ _ _) as [[t loaded] skipped]. simpl.
  destruct (db_fault E (OpLedgerWrite "iem_hourly_weather")); simpl;
    by intros [= <- <-].
Qed.

Lemma foldl_insert_observation_elem data t o :
  o ∈ foldl insert_observation t data → o ∈ t ∨ o ∈ data.
Proof.
  revert t. induction data as [|x data IH]; intros t Ho; simpl in Ho; [by left|].
  apply IH in Ho as [Ho|Ho]; [|right; by right].
  unfold insert_observation in Ho. case_bool_decide; [by left|].
  apply elem_of_app in Ho as [Ho|Ho]; [by left|].
  apply list_elem_of_singleton in Ho as ->. right. by left.
Qed.

(** X26. [load_weather] fed by [generate_weather_data] keeps the keys of
    the weather table.  On the dates of [date_dim] (dates of a year of
    four digits) [generate_weather_data] returns, and when every stored
    observation is for an airport of [airports] and a date of [date_dim]
    before a run, the same holds after it, however the run ends: the
    observations it inserts are for the airports and the dates it read
    from the two tables. *)
Theorem load_weather_keeps_keys (w w' : world) (r : result (list (string * Z))) :
  weather_source E = iem_source iem_request knots_to_mph →
  (∀ d, d ∈ dom (date_dim (w_db w)) → Calendar.valid_date d ∧ 1000 ≤ year d) →
  weather_keys_hold (w_db w) →
  load_weather E w = (w', r) →
  weather_keys_hold (w_db w') ∧
  generate_weather_data iem_request knots_to_mph
    (elements (dom (airports (w_db w)) ∩ (list_to_set get_mapped_airports : gset string)))
    (DObj <$> merge_sort date_le (elements (dom (date_dim (w_db w))))) =
    Ok (weather_inputs E (w_db w)).
Proof.
  intros Hsource Hdates Hkeys Hrun. split.
  2: { unfold weather_inputs. rewrite Hsource. unfold iem_source.
       destruct (generate_weather_data_on_dates iem_request knots_to_mph
                   (elements (dom (airports (w_db w)) ∩
                              (list_to_set get_mapped_airports : gset string)))
                   (merge_sort date_le (elements (dom (date_dim (w_db w))))))
         as [weather_data ->]; [|done].
       apply Forall_forall. intros d Hd. rewrite merge_sort_Permutation in Hd.
       apply elem_of_elements in Hd. by apply Hdates. }
  destruct (load_weather_frame _ _ _ Hrun) as [Ha Hd].
  assert (date_ids (w_db w') = date_ids (w_db w)) as Hids.
  { unfold date_ids. by rewrite Hd. }
  intros o Ho. rewrite Ha, Hids.
  apply load_weather_table in Hrun as [Hsame|Hnew].
  { rewrite Hsame in Ho. by apply Hkeys. }
  rewrite Hnew in Ho. apply foldl_insert_observation_elem in Ho as [Ho|Ho].
  { by apply Hkeys. }
  apply list_elem_of_filter in Ho as [_ Ho].
  unfold weather_inputs in Ho. rewrite Hsource in Ho.
  apply elem_of_iem_source in Ho as (Hin & d & Hdin & Hdate). split.
  - apply elem_of_elements, elem_of_intersection in Hin as [Hin _]. done.
  - rewrite Hdate. apply elem_of_date_ids. exists d. split; [done|].
    rewrite merge_sort_Permutation in Hdin.
    by apply elem_of_elements, elem_of_dom in Hdin.
Qed.

End WeatherKeys.

Section WeatherHelperExamples.
#[local] Existing Instance Reference.extern.

Lemma trace_precipitation_is_dry_witness :
  ∃ o,
    iem_observation Samples.still "KATL" (Samples.iem_row "2024-01-01 00:52" "30" "T" "10") =
      Some o ∧
    io_precipitation o = None ∧ io_conditions o ∉ wet_conditions.
Proof.
  destruct (iem_observation Samples.still "KATL"
              (Samples.iem_row "2024-01-01 00:52" "30" "T" "10")) as [o|] eqn:Hobs.
  2: { vm_compute in Hobs. discriminate. }
  exists o. split; [reflexivity|].
  apply (trace_precipitation_is_dry Samples.still "KATL"
           (Samples.iem_row "2024-01-01 00:52" "30" "T" "10") o Hobs).
  right. right. right. reflexivity.
Defined.

Lemma fetch_weather_from_iem_returns_witness :
  ∃ observations,
    fetch_weather_from_iem Samples.atlanta_only Samples.still "KATL"
      (DStr "2024-01-01") (DStr "2024-01-02") = Ok observations ∧
    ∀ o, o ∈ observations →
      io_station_id o = "KATL" ∧
      io_observation_time o ≠ "" ∧
      PyStr.contains " " (io_observation_date o) = false ∧
      (io_observation_time o = io_observation_date o ∨
       ∃ rest, io_observation_time o = io_observation_date o +:+ " " +:+ rest).
Proof.
  destruct (fetch_weather_from_iem_returns Samples.atlanta_only Samples.still "KATL"
              (DStr "2024-01-01") (DStr "2024-01-02") (mkDate 2024 1 1) (mkDate 2024 1 2))
    as (observations & Hrun & _ & Hall); [vm_compute; reflexivity..|].
  exists observations. split; [exact Hrun|exact Hall].
Defined.

Lemma generate_weather_data_filter_witness :
  ∃ weather_data,
    generate_weather_data Samples.atlanta_only Samples.still ["ATL"; "JFK"; "XXX"]
      [DObj (mkDate 2024 1 1)] = Ok weather_data ∧
    length weather_data = 2%nat ∧
    ∀ o, o ∈ weather_data →
      wo_airport_code o ∈ ["ATL"; "JFK"; "XXX"] ∧
      wo_airport_code o ∈ get_mapped_airports ∧
      ∃ d, d ∈ [DObj (mkDate 2024 1 1)] ∧ observation_date o = date_string d.
Proof.
  destruct (generate_weather_data Samples.atlanta_only Samples.still ["ATL"; "JFK"; "XXX"]
              [DObj (mkDate 2024 1 1)]) as [weather_data|] eqn:Hrun.
  2: { vm_compute in Hrun. discriminate. }
  exists weather_data. split; [reflexivity|]. split.
  - vm_compute in Hrun. injection Hrun as <-. reflexivity.
  - apply (generate_weather_data_filter Samples.atlanta_only Samples.still
             ["ATL"; "JFK"; "XXX"] [DObj (mkDate 2024 1 1)] weather_data); [|exact Hrun].
    constructor; [simpl; lia|constructor].
Defined.

Lemma generate_weather_data_returns_witness :
  ∃ weather_data,
    generate_weather_data Samples.atlanta_only Samples.still ["ATL"; "JFK"]
      (DObj <$> [mkDate 2024 1 1; mkDate 2023 12 31]) = Ok weather_data.
Proof.
  apply (generate_weather_data_returns Samples.atlanta_only Samples.still).
  constructor; [split; [reflexivity|simpl; lia]|].
  constructor; [split; [reflexivity|simpl; lia]|]. constructor.
Defined.

Lemma load_weather_keeps_keys_witness :
  weather_keys_hold
    (w_db (load_weather Samples.iem_env {| w_db := Scenario.dims_db; w_clock := 0 |}).1) ∧
  length (weather_observations
            (w_db (load_weather Samples.iem_env
                     {| w_db := Scenario.dims_db; w_clock := 0 |}).1)) = 2%nat.
Proof.
  split; [|vm_compute; reflexivity].
  refine (proj1 (load_weather_keeps_keys Samples.iem_env Samples.atlanta_only Samples.still
                   {| w_db := Scenario.dims_db; w_clock := 0 |} _ _ eq_refl _ _
                   (surjective_pairing _))).
  - intros d Hd. cbn in Hd. rewrite dom_insert_L, dom_empty_L in Hd.
    apply elem_of_union in Hd as [Hd|Hd]; [|by apply elem_of_empty in Hd].
    apply elem_of_singleton in Hd as ->. split; [reflexivity|simpl; lia].
  - intros o Ho. by apply elem_of_nil in Ho.
Defined.

End WeatherHelperExamples.

(** ** [upload_raw_files_to_s3] *)

Section UploadFacts.

Lemma airports_key_raw : AIRPORTS_KEY = raw_key "airports.dat".
Proof. reflexivity. Qed.

Lemma raw_key_inj f1 f2 : raw_key f1 = raw_key f2 → f1 = f2.
Proof. unfold raw_key. apply String.app_inj. Qed.

Lemma last_segment_no_slash f : PyStr.contains "/" f = false → PyStr.last_segment f = f.
Proof. destruct f as [|c r]; [done|]. cbn [PyStr.last_segment]. by intros ->. Qed.

Lemma lower_raw_key f : PyStr.lower (raw_key f) = raw_key (PyStr.lower f).
Proof. reflexivity. Qed.

Lemma is_flight_csv_raw_key f : is_flight_csv (raw_key f) = is_flight_csv f.
Proof.
  unfold is_flight_csv. rewrite lower_raw_key. unfold raw_key, String.app. by cbn.
Qed.

(** X27. The stage that uploads and the stages that read agree on which
    files are flights files: the key under which a file is uploaded passes
    the filter of [extract_carriers], [generate_date_dim] and
    [load_flights] exactly when the file name passes the filter of
    [upload_raw_files_to_s3], and the name [load_flights] records in the
    ledger for the key is the file name. *)
Theorem uploaded_key_keeps_name (f : string) :
  PyStr.contains "/" f = false →
  is_flight_csv (raw_key f) = is_flight_csv f ∧
  PyStr.last_segment (raw_key f) = f.
Proof.
  intros Hslash. split; [apply is_flight_csv_raw_key|].
  unfold raw_key, String.app. cbn.
  assert (String.prefix "" f = true) as -> by (by destruct f).
  cbn. by apply last_segment_no_slash.
Qed.

Lemma ensure_bucket_run reachable bucket s :
  ensure_bucket reachable bucket s =
    if reachable then
      (match s !! bucket with Some _ => s | None => <[bucket := ∅]> s end, Ok tt)
    else (s, Raise StorageError).
Proof.
  unfold ensure_bucket, head_bucket, create_bucket.
  destruct reachable; [|done]. destruct (s !! bucket) eqn:Hb; simpl; [done|].
  by rewrite Hb.
Qed.

Lemma upload_file_run reachable bucket key body s :
  upload_file reachable bucket key body s =
    if reachable then
      (<[bucket := <[key := body]> (default ∅ (s !! bucket))]> s, Ok tt)
    else (s, Raise StorageError).
Proof.
  unfold upload_file, mbind, s3_call_bind. rewrite ensure_bucket_run.
  unfold put_object. destruct reachable; [|done].
  destruct (s !! bucket) as [objects|] eqn:Hb; simpl.
  - by rewrite Hb.
  - rewrite lookup_insert_eq. by rewrite insert_insert_eq.
Qed.

(** What the loop over the directory leaves in a bucket that exists. *)
Lemma upload_flight_files_run raw_dir s objects :
  s !! BUCKET = Some objects →
  ∃ objects',
    upload_flight_files true raw_dir s =
      (<[BUCKET := objects']> s,
       Ok (filter (λ f, is_flight_csv f = true) raw_dir.*1)) ∧
    (∀ key, (∀ f, f ∈ raw_dir.*1 → is_flight_csv f = true → key ≠ raw_key f) →
            objects' !! key = objects !! key) ∧
    (NoDup raw_dir.*1 →
     ∀ f body, (f, body) ∈ raw_dir → is_flight_csv f = true →
               objects' !! raw_key f = Some body).
Proof.
  revert s objects.
  induction raw_dir as [|[f body] rest IH]; intros s objects Hs.
  { exists objects. split_and!; [|done|by intros _ ?? ?%elem_of_nil].
    simpl. unfold mret, s3_call_ret. by rewrite insert_id. }
  cbn [upload_flight_files]. rewrite fmap_cons, filter_cons. cbn [fst].
  destruct (is_flight_csv f) eqn:Hcsv.
  - rewrite decide_True by done.
    unfold mbind at 1, s3_call_bind at 1. rewrite upload_file_run, Hs. cbn [from_option id].
    destruct (IH (<[BUCKET := <[raw_key f := body]> objects]> s)
                (<[raw_key f := body]> objects)) as (objects' & Hrun & Hother & Hmine).
    { by rewrite lookup_insert_eq. }
    exists objects'. unfold mbind, s3_call_bind. rewrite Hrun. split_and!.
    + unfold mret, s3_call_ret. by rewrite insert_insert_eq.
    + intros key Hkey. rewrite Hother.
      * rewrite lookup_insert_ne; [done|]. intros Heq. by apply (Hkey f); [left|..].
      * intros f' Hf' Hcsv'. apply Hkey; [by right|done].
    + intros Hnd f' body' Hin Hcsv'. apply NoDup_cons in Hnd as [Hnew Hnd].
      apply elem_of_cons in Hin as [Heq|Hin].
      * simplify_eq. rewrite Hother; [by rewrite lookup_insert_eq|].
        intros f'' Hf'' _ Heq. apply raw_key_inj in Heq. by subst.
      * by eapply Hmine.
  - rewrite decide_False by done.
    destruct (IH s objects Hs) as (objects' & Hrun & Hother & Hmine).
    exists objects'. split_and!; [done| |].
    + intros key Hkey. apply Hother. intros f' Hf' Hcsv'. apply Hkey; [by right|done].
    + intros Hnd f' body' Hin Hcsv'. apply NoDup_cons in Hnd as [Hnew Hnd].
      apply elem_of_cons in Hin as [Heq|Hin]; [simplify_eq; congruence|].
      by eapply Hmine.
Qed.

Lemma dict_get_Some_elem {V} (raw_dir : list (string * V)) f body :
  NoDup raw_dir.*1 → (f, body) ∈ raw_dir → dict_get f raw_dir = Some body.
Proof.
  induction raw_dir as [|[f0 body0] rest IH]; intros Hnd Hin; [by apply elem_of_nil in Hin|].
  rewrite fmap_cons in Hnd. apply NoDup_cons in Hnd as [Hnew Hnd]. simpl in Hnew.
  simpl. destruct (String.eqb_spec f0 f) as [->|Hne].
  - apply elem_of_cons in Hin as [Heq|Hin]; [by simplify_eq|].
    destruct Hnew. apply list_elem_of_fmap. by exists (f, body).
  - apply elem_of_cons in Hin as [Heq|Hin]; [by simplify_eq|]. by apply IH.
Qed.

(** X28. With the endpoint reachable, [upload_raw_files_to_s3] returns
    whether or not the bucket was there.  It returns the names of the
    flights files of the directory in the order of the listing, then
    airports.dat when the directory has it; each of these files is then an
    object of the bucket under raw/ and its name that holds what the file
    holds, and a CSV whose name contains airport is not uploaded. *)
Theorem upload_raw_files_to_s3_round_trip (reachable : bool)
    (raw_dir : list (string * string)) (s : gmap string (gmap string string)) :
  reachable = true →
  NoDup raw_dir.*1 →
  ∃ s',
    upload_raw_files_to_s3 reachable raw_dir s =
      (s', Ok (filter (λ f, is_flight_csv f = true) raw_dir.*1 ++
               match dict_get "airports.dat" raw_dir with
               | Some _ => ["airports.dat"]
               | None => []
               end)%list) ∧
    (∀ f body, (f, body) ∈ raw_dir →
       is_flight_csv f = true ∨ f = "airports.dat" →
       get_object reachable BUCKET (raw_key f) s' = Ok body) ∧
    (∀ f, f ∈ raw_dir.*1 → is_flight_csv f = false → f ≠ "airports.dat" →
       get_object reachable BUCKET (raw_key f) s' =
       get_object reachable BUCKET (raw_key f) s).
Proof.
  intros -> Hnd. unfold upload_raw_files_to_s3.
  unfold mbind at 1, s3_call_bind at 1. rewrite ensure_bucket_run.
  set (s0 := match s !! BUCKET with Some _ => s | None => <[BUCKET := ∅]> s end).
  assert (s0 !! BUCKET = Some (default ∅ (s !! BUCKET))) as Hs0.
  { unfold s0. destruct (s !! BUCKET) eqn:Hb; [done|]. by rewrite lookup_insert_eq. }
  destruct (upload_flight_files_run raw_dir s0 _ Hs0)
    as (objects' & Hrun & Hother & Hmine).
  unfold mbind at 1, s3_call_bind at 1. rewrite Hrun.
  assert (∀ f, is_flight_csv f = true → raw_key "airports.dat" ≠ raw_key f) as Hdat.
  { intros f Hcsv Heq. apply raw_key_inj in Heq. by subst. }
  assert (∀ key, s !! BUCKET ≫= (.!! key) = default ∅ (s !! BUCKET) !! key) as Hold.
  { intros key. by destruct (s !! BUCKET). }
  destruct (dict_get "airports.dat" raw_dir) as [dat|] eqn:Hget.
  - unfold mbind, s3_call_bind. rewrite upload_file_run.
    rewrite lookup_insert_eq. cbn [from_option id]. rewrite insert_insert_eq.
    eexists. split_and!; [done| |].
    + intros f body Hin Hkind. unfold get_object. rewrite lookup_insert_eq. simpl.
      destruct (decide (f = "airports.dat")) as [->|Hne].
      * rewrite airports_key_raw, lookup_insert_eq.
        rewrite (dict_get_Some_elem _ _ _ Hnd Hin) in Hget. by simplify_eq.
      * destruct Hkind as [Hcsv|?]; [|done].
        rewrite lookup_insert_ne by (rewrite airports_key_raw; by intros ?%raw_key_inj).
        by rewrite (Hmine Hnd f body Hin Hcsv).
    + intros f Hf Hcsv Hne. unfold get_object. rewrite lookup_insert_eq. simpl.
      rewrite lookup_insert_ne by (rewrite airports_key_raw; by intros ?%raw_key_inj).
      rewrite Hother, Hold; [done|].
      intros f' _ Hcsv' Heq. apply raw_key_inj in Heq. congruence.
  - unfold mret, s3_call_ret. rewrite app_nil_r.
    eexists. split_and!; [done| |].
    + intros f body Hin Hkind. unfold get_object. rewrite lookup_insert_eq. simpl.
      destruct Hkind as [Hcsv| ->].
      * by rewrite (Hmine Hnd f body Hin Hcsv).
      * rewrite (dict_get_Some_elem _ _ _ Hnd Hin) in Hget. done.
    + intros f Hf Hcsv Hne. unfold get_object. rewrite lookup_insert_eq. simpl.
      rewrite Hother, Hold; [done|].
      intros f' _ Hcsv' Heq. apply raw_key_inj in Heq. congruence.
Qed.

End UploadFacts.

Section UploadExamples.

Lemma uploaded_key_keeps_name_witness :
  is_flight_csv (raw_key "january.csv") = is_flight_csv "january.csv" ∧
  PyStr.last_segment (raw_key "january.csv") = "january.csv".
Proof. apply (uploaded_key_keeps_name "january.csv"). vm_compute. reflexivity. Defined.

Lemma upload_raw_files_to_s3_round_trip_witness :
  ∃ s',
    upload_raw_files_to_s3 true Samples.raw_dir ∅ = (s', Ok ["january.csv"; "airports.dat"]) ∧
    get_object true BUCKET "raw/january.csv" s' =
      Ok "FlightDate,Reporting_Airline,Origin,Dest" ∧
    get_object true BUCKET "raw/airport_codes.csv" s' = Raise StorageError.
Proof.
  destruct (upload_raw_files_to_s3_round_trip true Samples.raw_dir ∅ eq_refl)
    as (s' & Hrun & Hget & Hskip).
  { apply (bool_decide_unpack _). vm_compute. exact I. }
  exists s'. split; [exact Hrun|]. split.
  - apply (Hget "january.csv" _); [left|left; vm_compute; reflexivity].
  - refine (eq_trans (Hskip "airport_codes.csv" _ _ _) _).
    + right. left.
    + vm_compute. reflexivity.
    + discriminate.
    + reflexivity.
Defined.

End UploadExamples.
